(** * CursorClone build automation: a shallow embedding of the build scripts

    The repository wraps an editor code base with three small Node.js
    programs:

    - the command-driven build manager ([sync | install | build | package |
      archive | test | validate | all | help]), module [Pipeline];
    - the flag-driven build manager of [build-cursorclone.js], module
      [FlagBuild];
    - the branding validator of [validate-branding-clean.cjs], module
      [Branding].

    Each program is a straight line of console output, file-system queries
    and blocking [execSync] calls.  The embedding keeps that shape: a
    computation takes the state of the outside world, and yields an outcome
    (a value, a thrown error, or [process.exit]), the new world, and the
    events it emitted, in order. *)

From Stdlib Require Import String Ascii List Bool Arith Lia.
From Stdlib Require Import DecimalString.
Import ListNotations.
Open Scope string_scope.

(** ** JavaScript values *)

(** A thrown [Error] object; the scripts only ever read [error.message]. *)
Record JsError := mkError { message : string }.

(** What [JSON.parse] (or [require] of a [.json] file) can produce, plus
    [undefined] for absent properties.  A number keeps its literal: the
    scripts only compare values against string literals and print them.
    [JObj] lists the own properties of the parsed object, each key once. *)
Unset Elimination Schemes.
Inductive JsVal :=
| JUndefined
| JNull
| JBool (b : bool)
| JNum (lit : string)
| JStr (s : string)
| JArr (items : list JsVal)
| JObj (fields : list (string * JsVal)).
Set Elimination Schemes.

(** How a computation ends: normally, by an exception, or by
    [process.exit(code)], which no [catch] intercepts. *)
Inductive Outcome (A : Type) :=
| Ok (a : A)
| Throw (e : JsError)
| Exit (code : nat).
Arguments Ok {A} a.
Arguments Throw {A} e.
Arguments Exit {A} code.

(** What a call into the Node.js library does: return or throw. *)
Inductive Try (A : Type) :=
| Returned (a : A)
| Raised (e : JsError).
Arguments Returned {A} a.
Arguments Raised {A} e.

Definition lift_try {A} (r : Try A) : Outcome A :=
  match r with
  | Returned a => Ok a
  | Raised e => Throw e
  end.

(** Result of a child process run by [execSync]: exit status 0 with its
    standard output, or anything else (non-zero status, signal, spawn
    failure), for which [execSync] throws. *)
Inductive ProcResult :=
| Exited0 (stdout : string)
| Failed (e : JsError).

(** ** The host: everything the scripts reach outside themselves *)

(** Child processes, the file system, the clock, and the pure Node.js
    library functions the scripts call.  [read_json p] stands for
    [JSON.parse(fs.readFileSync(p, 'utf8'))] and [require_json p] for
    [require(p)] of a JSON file; both throw when the file is missing or
    malformed ([Raised]).  [to_text] is the text a template literal gives a
    value it can convert (whether it can is [text_throws] below),
    [date_now] the text of [Date.now()]. *)
Record Host := {
  World : Type;
  spawn : string -> bool -> World -> ProcResult * World;
  existsSync : string -> World -> bool;
  read_json : string -> World -> Try JsVal;
  require_json : string -> World -> Try JsVal;
  mkdirSync : string -> World -> Try unit * World;
  set_env : string -> string -> World -> World;
  date_now : World -> string;
  path_join : list string -> string;
  path_dirname : string -> string;
  path_basename : string -> string;
  str_trim : string -> string;
  to_text : JsVal -> string
}.

(** The process globals: [process.argv], [process.platform],
    [process.arch] and the script's [__dirname]. *)
Record Process := {
  process_argv : list string;
  process_platform : string;
  process_arch : string;
  script_dirname : string
}.

(** ** Events *)

Inductive Level := info | warn | error.

(** [ELog] is one line written by a script's [log] helper (the time stamp
    and the level's prefix are rendering); [EExec] is one [execSync] call,
    with its [stdio] mode ([true] for ['inherit'], [false] for ['pipe']) and
    whether the child exited with status 0; [EUsage] is the usage text. *)
Inductive Event :=
| ELog (lvl : Level) (msg : string)
| EExec (cmd : string) (inherit : bool) (ok : bool)
| EUsage.

Definition Trace := list Event.

(** ** The computation monad *)

Section Runtime.
Variable h : Host.

Definition M (A : Type) : Type := World h -> Outcome A * World h * Trace.

Definition ret {A} (a : A) : M A := fun w => (Ok a, w, []).

Definition throw {A} (e : JsError) : M A := fun w => (Throw e, w, []).

Definition process_exit {A} (code : nat) : M A := fun w => (Exit code, w, []).

Definition bind {A B} (m : M A) (k : A -> M B) : M B := fun w =>
  match m w with
  | (Ok a, w1, t1) =>
      match k a w1 with (r, w2, t2) => (r, w2, (t1 ++ t2)%list) end
  | (Throw e, w1, t1) => (Throw e, w1, t1)
  | (Exit c, w1, t1) => (Exit c, w1, t1)
  end.

(** [try { m } catch (e) { handler e }] *)
Definition try_catch {A} (m : M A) (handler : JsError -> M A) : M A := fun w =>
  match m w with
  | (Throw e, w1, t1) =>
      match handler e w1 with (r, w2, t2) => (r, w2, (t1 ++ t2)%list) end
  | other => other
  end.

Definition emit (e : Event) : M unit := fun w => (Ok tt, w, [e]).

(** [this.log(message, level)] *)
Definition log (msg : string) (lvl : Level) : M unit := emit (ELog lvl msg).

(** [execSync(command, { cwd, stdio, encoding: 'utf8' })]: throws when the
    child fails; returns the captured output with [stdio: 'pipe'] and
    [null] (here [None]) with [stdio: 'inherit'], where nothing is
    captured. *)
Definition execSync (cmd : string) (inherit : bool) : M (option string) := fun w =>
  match spawn h cmd inherit w with
  | (Exited0 out, w') =>
      (Ok (if inherit then None else Some out), w', [EExec cmd inherit true])
  | (Failed e, w') => (Throw e, w', [EExec cmd inherit false])
  end.

(** [fs.existsSync(p)]; [p] may be [undefined], for which it is [false]. *)
Definition fs_existsSync (p : option string) : M bool := fun w =>
  (Ok match p with Some p => existsSync h p w | None => false end, w, []).

Definition fs_mkdirSync (p : string) : M unit := fun w =>
  match mkdirSync h p w with (r, w') => (lift_try r, w', []) end.

Definition fs_read_json (p : string) : M JsVal := fun w =>
  (lift_try (read_json h p w), w, []).

Definition js_require (p : string) : M JsVal := fun w =>
  (lift_try (require_json h p w), w, []).

Definition env_set (k v : string) : M unit := fun w => (Ok tt, set_env h k v w, []).

Definition Date_now : M string := fun w => (Ok (date_now h w), w, []).

End Runtime.

Arguments ret {h A} a.
Arguments throw {h A} e.
Arguments process_exit {h A} code.
Arguments bind {h A B} m k.
Arguments try_catch {h A} m handler.
Arguments emit {h} e.
Arguments log {h} msg lvl.

Declare Scope js_scope.
Delimit Scope js_scope with js.
Notation "x <- m ;; k" := (bind m (fun x => k))
  (at level 61, m at next level, right associativity) : js_scope.
Notation "m ;; k" := (bind m (fun _ => k))
  (at level 61, right associativity) : js_scope.
Open Scope js_scope.

Definition outcome {W A} (r : Outcome A * W * Trace) : Outcome A := fst (fst r).
Definition world_of {W A} (r : Outcome A * W * Trace) : W := snd (fst r).
Definition events {W A} (r : Outcome A * W * Trace) : Trace := snd r.

(** The status the process ends with: [process.exit]'s argument, 1 for an
    error nobody caught, 0 otherwise. *)
Definition exit_code {A} (o : Outcome A) : nat :=
  match o with
  | Ok _ => 0
  | Throw _ => 1
  | Exit c => c
  end.

(** ** JavaScript helpers *)

Definition TypeError (msg : string) : JsError := mkError msg.

(** A string is truthy unless empty. *)
Definition truthy (s : string) : bool := negb (s =? EmptyString).

(** [array.includes(x)] on an array of strings *)
Definition includes (x : string) (l : list string) : bool :=
  existsb (String.eqb x) l.

(** [array.indexOf(x)]; [None] is [-1]. *)
Fixpoint indexOf (x : string) (l : list string) : option nat :=
  match l with
  | [] => None
  | y :: l' => if y =? x then Some 0 else option_map S (indexOf x l')
  end.

(** The idiom of [getPlatformArg] and [getArchArg]:
    [i !== -1 && argv[i + 1]], the value when truthy. *)
Definition arg_after (flag : string) (argv : list string) : option string :=
  match indexOf flag argv with
  | Some i =>
      match nth_error argv (S i) with
      | Some s => if truthy s then Some s else None
      | None => None
      end
  | None => None
  end.

Fixpoint assoc {A} (k : string) (l : list (string * A)) : option A :=
  match l with
  | [] => None
  | (k', v) :: l' => if k' =? k then Some v else assoc k l'
  end.

(** [v[key]] on a value that is neither [null] nor [undefined], for a key
    that no built-in prototype defines ([applicationName], [version], ...):
    the own property of an object, [undefined] otherwise. *)
Definition js_prop (v : JsVal) (key : string) : JsVal :=
  match v with
  | JObj fields =>
      match assoc key fields with Some x => x | None => JUndefined end
  | _ => JUndefined
  end.

(** [v[key]] in general: a [TypeError] on [null] and [undefined]. *)
Definition js_get {h} (v : JsVal) (key : string) : M h JsVal :=
  match v with
  | JNull =>
      throw (TypeError ("Cannot read properties of null (reading '" ++ key ++ "')"))
  | JUndefined =>
      throw (TypeError ("Cannot read properties of undefined (reading '" ++ key ++ "')"))
  | _ => ret (js_prop v key)
  end.

(** [v !== 'literal'] *)
Definition strict_neq (v : JsVal) (lit : string) : bool :=
  match v with
  | JStr s => negb (s =? lit)
  | _ => true
  end.

(** [out.trim()] on what [execSync] returned *)
Definition js_trim {h} (out : option string) : M h string :=
  match out with
  | Some s => ret (str_trim h s)
  | None => throw (TypeError "Cannot read properties of null (reading 'trim')")
  end.

Definition dq : string := String "034"%char EmptyString.
Definition quoted (s : string) : string := dq ++ s ++ dq.

(** The table both build managers declare. *)
Definition PLATFORMS : list (string * list string) :=
  [ ("darwin", ["x64"; "arm64"]);
    ("linux", ["x64"; "arm64"]);
    ("win32", ["x64"; "arm64"]) ].

(** [PLATFORMS] is a plain object, so a key it does not own is looked up on
    [Object.prototype]. *)
Definition objectPrototypeKeys : list string :=
  [ "constructor"; "__defineGetter__"; "__defineSetter__"; "hasOwnProperty";
    "__lookupGetter__"; "__lookupSetter__"; "isPrototypeOf";
    "propertyIsEnumerable"; "toString"; "valueOf"; "__proto__";
    "toLocaleString" ].

Inductive Lookup :=
| Own (archs : list string)
| Inherited
| Absent.

(** [PLATFORMS[platform]] *)
Definition PLATFORMS_get (platform : string) : Lookup :=
  match assoc platform PLATFORMS with
  | Some archs => Own archs
  | None => if includes platform objectPrototypeKeys then Inherited else Absent
  end.

(** Whether [`${v}`] throws.  A parsed object converts through
    [Object.prototype.toString] unless it owns a key [toString]: what
    [JSON.parse] stores there is not callable, and [valueOf] returns the
    object itself, so no primitive is found and the conversion throws a
    [TypeError].  An array joins the conversions of its elements ([null]
    and [undefined] count as empty) and throws when one of them does. *)
Fixpoint text_throws (v : JsVal) : bool :=
  match v with
  | JObj fields =>
      match assoc "toString" fields with Some _ => true | None => false end
  | JArr items => existsb text_throws items
  | _ => false
  end.

(** [`${v}`]: the value inside a template literal. *)
Definition template {h} (v : JsVal) : M h string :=
  if text_throws v then
    throw (TypeError "Cannot convert object to primitive value")
  else ret (to_text h v).

(** ** The build manager object *)

(** The fields the constructor sets; the two build managers have the same
    constructor, [getPlatformArg] and [getArchArg]. *)
Record Manager := {
  rootDir : string;
  isVerbose : bool;
  skipSync : bool;
  targetPlatform : string;
  targetArch : string
}.

Definition getPlatformArg (process : Process) : string :=
  match arg_after "--platform" (process_argv process) with
  | Some p => p
  | None => process_platform process
  end.

Definition getArchArg (process : Process) : string :=
  match arg_after "--arch" (process_argv process) with
  | Some a => a
  | None => if process_arch process =? "arm64" then "arm64" else "x64"
  end.

(** [new CursorCloneBuildManager()]: reads the flags, checks nothing. *)
Definition constructor (process : Process) : Manager :=
  {| rootDir := script_dirname process;
     isVerbose := includes "--verbose" (process_argv process);
     skipSync := includes "--skip-sync" (process_argv process);
     targetPlatform := getPlatformArg process;
     targetArch := getArchArg process |}.

(** ** The command-driven build manager *)

Module Pipeline.

Section Methods.
Variable h : Host.
Variable process : Process.
Variable this : Manager.

(** [execCommand(command)]: no caller passes [options]. *)
Definition execCommand (command : string) : M h (option string) :=
  log ("Executing: " ++ command) info ;;
  try_catch (execSync h command (isVerbose this))
    (fun e => log ("Command failed: " ++ message e) error ;; throw e).

Definition syncWithUpstream : M h unit :=
  if skipSync this then log "Skipping upstream sync as requested" info
  else
    log "Syncing with upstream VS Code..." info ;;
    try_catch
      (execCommand "git fetch upstream" ;;
       out <- execCommand "git branch --show-current" ;;
       currentBranch <- js_trim out ;;
       now <- Date_now h ;;
       let backupBranch := "backup-" ++ now in
       execCommand ("git checkout -b " ++ backupBranch) ;;
       execCommand ("git checkout " ++ currentBranch) ;;
       log "Merging upstream changes..." info ;;
       execCommand "git merge upstream/main --no-edit" ;;
       log "Successfully synced with upstream" info)
      (fun e =>
         log "Failed to sync with upstream. Please resolve conflicts manually." error ;;
         throw e).

Definition installDependencies : M h unit :=
  log "Installing dependencies..." info ;;
  execCommand "npm install" ;;
  log "Dependencies installed" info.

Definition buildCursorClone : M h unit :=
  log "Building CursorClone..." info ;;
  execCommand "npm run clean" ;;
  execCommand "npm run compile" ;;
  execCommand "npm run compile-extensions" ;;
  execCommand "npm run download-builtin-extensions" ;;
  log "CursorClone build completed" info.

(** [!PLATFORMS[platform] || !PLATFORMS[platform].includes(arch)]: an
    inherited property is truthy and has no [includes] method. *)
Definition unsupported (platform arch : string) : M h bool :=
  match PLATFORMS_get platform with
  | Absent => ret true
  | Own archs => ret (negb (includes arch archs))
  | Inherited => throw (TypeError "PLATFORMS[platform].includes is not a function")
  end.

Definition packageApplication : M h unit :=
  log "Packaging application..." info ;;
  let platform := targetPlatform this in
  let arch := targetArch this in
  bad <- unsupported platform arch ;;
  if bad then
    log ("Unsupported platform/arch combination: " ++ platform ++ "/" ++ arch) error
  else
    env_set h "VSCODE_PLATFORM" platform ;;
    env_set h "VSCODE_ARCH" arch ;;
    (if platform =? "darwin" then
       execCommand ("npm run gulp -- vscode-darwin-" ++ arch) ;; ret tt
     else if platform =? "linux" then
       execCommand ("npm run gulp -- vscode-linux-" ++ arch) ;; ret tt
     else if platform =? "win32" then
       execCommand ("npm run gulp -- vscode-win32-" ++ arch) ;; ret tt
     else ret tt) ;;
    log "Application packaged successfully" info.

(** The [if]/[else if] chain of [createArchive] that assigns [archiveName]
    and [sourceDir]; both stay [undefined] for any other platform.  The
    version goes through a template literal in the branch taken, and in
    no other. *)
Definition archiveSelection (platform arch : string) (version : JsVal)
  : M h (option (string * string)) :=
  let buildDir := path_join h [rootDir this; ".build"] in
  if platform =? "darwin" then
    v <- template version ;;
    ret (Some ("CursorClone-" ++ v ++ "-darwin-" ++ arch ++ ".zip",
               path_join h [buildDir; "VSCode-darwin"]))
  else if platform =? "linux" then
    v <- template version ;;
    ret (Some ("CursorClone-" ++ v ++ "-linux-" ++ arch ++ ".tar.gz",
               path_join h [buildDir; "VSCode-linux-x64"]))
  else if platform =? "win32" then
    v <- template version ;;
    ret (Some ("CursorClone-" ++ v ++ "-win32-" ++ arch ++ ".zip",
               path_join h [buildDir; "VSCode-win32-x64"]))
  else ret None.

(** The command that archives [sourceDir] into [archivePath]. *)
Definition archiveCommand (platform archivePath sourceDir : string) : string :=
  if platform =? "linux" then
    "tar -czf " ++ quoted archivePath ++ " -C " ++ quoted (path_dirname h sourceDir)
      ++ " " ++ quoted (path_basename h sourceDir)
  else
    "cd " ++ quoted (path_dirname h sourceDir) ++ " && zip -r " ++ quoted archivePath
      ++ " " ++ quoted (path_basename h sourceDir).

Definition createArchive : M h unit :=
  log "Creating archive..." info ;;
  let platform := targetPlatform this in
  let arch := targetArch this in
  pkg <- js_require h "./package.json" ;;
  version <- js_get pkg "version" ;;
  selection <- archiveSelection platform arch version ;;
  found <- fs_existsSync h (option_map snd selection) ;;
  if found then
    match selection with
    | Some (archiveName, sourceDir) =>
        let archivePath := path_join h [rootDir this; "releases"; archiveName] in
        fs_mkdirSync h (path_dirname h archivePath) ;;
        execCommand (archiveCommand platform archivePath sourceDir) ;;
        log ("Archive created: " ++ archiveName) info
    | None => ret tt (* not reached: existsSync(undefined) is false *)
    end
  else log "Build directory not found. Please run build first." error.

Definition runTests : M h unit :=
  log "Running tests..." info ;;
  execCommand "npm test" ;;
  log "All tests passed" info.

Definition requiredFiles : list string := ["package.json"; "product.json"; ".build"].

(** The [for] loop of [validateBuild]: [false] at the first missing file. *)
Fixpoint checkRequired (files : list string) : M h bool :=
  match files with
  | [] => ret true
  | file :: rest =>
      found <- fs_existsSync h (Some (path_join h [rootDir this; file])) ;;
      if negb found then
        log ("Required file missing: " ++ file) error ;; ret false
      else checkRequired rest
  end.

Definition validateBuild : M h bool :=
  log "Validating build..." info ;;
  present <- checkRequired requiredFiles ;;
  if negb present then ret false
  else
    productJson <- fs_read_json h (path_join h [rootDir this; "product.json"]) ;;
    applicationName <- js_get productJson "applicationName" ;;
    if strict_neq applicationName "cursorclone" then
      log "Product configuration validation failed" error ;; ret false
    else
      log "Build validation passed" info ;; ret true.

Definition showHelp : M h unit := emit EUsage.

(** The six awaited calls of the ['all'] case and its closing line. *)
Definition runAll : M h unit :=
  syncWithUpstream ;;
  installDependencies ;;
  buildCursorClone ;;
  packageApplication ;;
  createArchive ;;
  validateBuild ;;
  log "Complete build pipeline finished" info.

(** [process.argv[2] || 'help'] *)
Definition commandArg : string :=
  match nth_error (process_argv process) 2 with
  | Some c => if truthy c then c else "help"
  | None => "help"
  end.

(** The [switch] of [run]. *)
Definition dispatch (command : string) : M h unit :=
  if command =? "sync" then syncWithUpstream
  else if command =? "install" then installDependencies
  else if command =? "build" then buildCursorClone
  else if command =? "package" then packageApplication
  else if command =? "archive" then createArchive
  else if command =? "test" then runTests
  else if command =? "validate" then validateBuild ;; ret tt
  else if command =? "all" then runAll
  else showHelp.

Definition run : M h unit :=
  try_catch (dispatch commandArg)
    (fun e => log ("Build failed: " ++ message e) error ;; process_exit 1).

End Methods.

(** [new CursorCloneBuildManager().run()] *)
Definition main (h : Host) (process : Process) : M h unit :=
  run h process (constructor process).

(** The line each step method logs first; the step it announces. *)
Inductive Step := Sync | Install | Build | Package | Archive | Test | Validate.

Definition step_of_line (msg : string) : option Step :=
  if msg =? "Syncing with upstream VS Code..." then Some Sync
  else if msg =? "Skipping upstream sync as requested" then Some Sync
  else if msg =? "Installing dependencies..." then Some Install
  else if msg =? "Building CursorClone..." then Some Build
  else if msg =? "Packaging application..." then Some Package
  else if msg =? "Creating archive..." then Some Archive
  else if msg =? "Running tests..." then Some Test
  else if msg =? "Validating build..." then Some Validate
  else None.

Definition step_of_event (e : Event) : option Step :=
  match e with
  | ELog info msg => step_of_line msg
  | _ => None
  end.

(** The steps a trace shows as started, in order. *)
Fixpoint steps_started (t : Trace) : list Step :=
  match t with
  | [] => []
  | e :: t' =>
      match step_of_event e with
      | Some s => s :: steps_started t'
      | None => steps_started t'
      end
  end.

End Pipeline.

(** ** The flag-driven build manager ([build-cursorclone.js]) *)

(** [for (const x of l) { body x }] *)
Fixpoint for_of {h : Host} {A} (l : list A) (body : A -> M h unit) : M h unit :=
  match l with
  | [] => ret tt
  | x :: l' => body x ;; for_of l' body
  end.

Module FlagBuild.

Section Methods.
Variable h : Host.
Variable process : Process.
Variable this : Manager.

Definition execCommand (command : string) : M h (option string) :=
  log ("Executing: " ++ command) info ;;
  try_catch (execSync h command (isVerbose this))
    (fun e =>
       log ("Command failed: " ++ command) error ;;
       log (message e) error ;;
       throw e).

Definition syncWithUpstream : M h unit :=
  if skipSync this then log "Skipping upstream sync as requested" info
  else
    log "🔄 Syncing with upstream VS Code..." info ;;
    try_catch
      (execCommand "git fetch upstream" ;;
       out <- execCommand "git branch --show-current" ;;
       currentBranch <- js_trim out ;;
       now <- Date_now h ;;
       let backupBranch := "backup-" ++ now in
       execCommand ("git checkout -b " ++ backupBranch) ;;
       execCommand ("git checkout " ++ currentBranch) ;;
       log "Merging upstream changes..." info ;;
       execCommand "git merge upstream/main --no-edit" ;;
       log "✅ Successfully synced with upstream" info)
      (fun e =>
         log "Failed to sync with upstream. Please resolve conflicts manually." error ;;
         throw e).

Definition installDependencies : M h unit :=
  log "📦 Installing dependencies..." info ;;
  execCommand "npm install" ;;
  log "✅ Dependencies installed" info.

Definition buildCursorClone : M h unit :=
  log "🔨 Building CursorClone..." info ;;
  execCommand "npm run clean" ;;
  execCommand "npm run compile" ;;
  execCommand "npm run compile-extensions" ;;
  log "✅ CursorClone compiled successfully" info.

Definition packageForPlatform (platform arch : string) : M h unit :=
  log ("📦 Packaging CursorClone for " ++ platform ++ "-" ++ arch ++ "...") info ;;
  let gulpTask := "vscode-" ++ platform ++ "-" ++ arch in
  try_catch
    (execCommand ("npx gulp " ++ gulpTask) ;;
     log ("✅ Successfully packaged for " ++ platform ++ "-" ++ arch) info)
    (fun e =>
       log ("Failed to package for " ++ platform ++ "-" ++ arch) error ;;
       throw e).

(** [PLATFORMS[platform]] as the operand of [for ... of]: only an own entry
    is iterable. *)
Definition iterable_archs (platform : string) : M h (list string) :=
  match PLATFORMS_get platform with
  | Own archs => ret archs
  | Inherited => throw (TypeError "archs is not iterable")
  | Absent => throw (TypeError "archs is not iterable")
  end.

Definition packageAll : M h unit :=
  if truthy (targetPlatform this) && truthy (targetArch this) then
    packageForPlatform (targetPlatform this) (targetArch this)
  else
    let platforms :=
      if truthy (targetPlatform this) then [targetPlatform this]
      else map fst PLATFORMS in
    for_of platforms (fun platform =>
      archs <- (if truthy (targetArch this) then ret [targetArch this]
                else iterable_archs platform) ;;
      for_of archs (fun arch => packageForPlatform platform arch)).

Definition createRelease : M h unit :=
  log "🚀 Creating release..." info ;;
  pkg <- fs_read_json h "package.json" ;;
  v <- js_get pkg "version" ;;
  version <- template v ;;
  let tagName := "v" ++ version in
  try_catch
    (execCommand ("git tag -a " ++ tagName ++ " -m " ++ quoted ("Release " ++ version)) ;;
     log ("✅ Created tag " ++ tagName) info)
    (fun _ => log ("Tag " ++ tagName ++ " might already exist") warn) ;;
  execCommand "git push origin main --tags" ;;
  log ("✅ Release " ++ version ++ " created and pushed") info.

Definition validateBuild : M h unit :=
  log "🔍 Validating build..." info ;;
  product <- fs_read_json h "product.json" ;;
  nameShort <- js_get product "nameShort" ;;
  if strict_neq nameShort "CursorClone" then
    throw (mkError "Product name is not correctly set to CursorClone")
  else
    applicationName <- js_get product "applicationName" ;;
    if strict_neq applicationName "cursorclone" then
      throw (mkError "Application name is not correctly set to cursorclone")
    else log "✅ Build validation passed" info.

Definition run : M h unit :=
  try_catch
    (log "🚀 Starting CursorClone build process..." info ;;
     validateBuild ;;
     syncWithUpstream ;;
     installDependencies ;;
     buildCursorClone ;;
     packageAll ;;
     (if includes "--release" (process_argv process) then createRelease else ret tt) ;;
     log "🎉 CursorClone build completed successfully!" info)
    (fun e =>
       log "❌ Build failed!" error ;;
       log (message e) error ;;
       process_exit 1).

End Methods.

(** The main block: [--help] prints the usage and exits with 0; otherwise
    the manager is constructed and run. *)
Definition main (h : Host) (process : Process) : M h unit :=
  if includes "--help" (process_argv process) then
    emit EUsage ;; process_exit 0
  else run h process (constructor process).

End FlagBuild.

(** ** More of JavaScript, for the validators and the environment checks *)

(** [hay.includes(needle)] on strings *)
Fixpoint str_includes (needle hay : string) : bool :=
  String.prefix needle hay
  || match hay with
     | EmptyString => false
     | String _ hay' => str_includes needle hay'
     end.

(** [v === 'literal'] *)
Definition strict_eq (v : JsVal) (lit : string) : bool := negb (strict_neq v lit).

(** A counter inside a template literal. *)
Definition nat_text (n : nat) : string := NilZero.string_of_uint (Nat.to_uint n).

(** [fs.readFileSync(p, 'utf8')], given how the host reads text files. *)
Definition read_text {h : Host} (readFileSync : string -> World h -> Try string)
    (p : string) : M h string := fun w =>
  (lift_try (readFileSync p w), w, []).

(** ** The branding validator ([validate-branding-clean.cjs]) *)

Module Branding.

Section Validator.
Variable h : Host.
Variable dirname : string.

(** [log(message, isError)] *)
Definition log (msg : string) (isError : bool) : M h unit :=
  emit (ELog (if isError then error else info) msg).

Definition mismatchLine (file key expected actual : string) : string :=
  file ++ " " ++ key ++ ": expected '" ++ expected ++ "', got '" ++ actual ++ "'".

(** The loop over [Object.entries(expectedValues)], with [isValid] as its
    accumulator. *)
Fixpoint checkEntries (file : string) (obj : JsVal)
    (entries : list (string * string)) (isValid : bool) : M h bool :=
  match entries with
  | [] => ret isValid
  | (key, expectedValue) :: rest =>
      actual <- js_get obj key ;;
      if strict_neq actual expectedValue then
        got <- template actual ;;
        log (mismatchLine file key expectedValue got) true ;;
        checkEntries file obj rest false
      else
        log (file ++ " " ++ key ++ ": correct") false ;;
        checkEntries file obj rest isValid
  end.

Definition productExpected : list (string * string) :=
  [ ("nameShort", "CursorClone");
    ("applicationName", "cursorclone");
    ("dataFolderName", ".cursorclone");
    ("serverDataFolderName", ".cursorclone-server") ].

Definition validateProductJson : M h bool :=
  let productPath := path_join h [dirname; "product.json"] in
  found <- fs_existsSync h (Some productPath) ;;
  if negb found then log "product.json not found" true ;; ret false
  else
    try_catch
      (product <- fs_read_json h productPath ;;
       checkEntries "product.json" product productExpected true)
      (fun e => log ("Failed to parse product.json: " ++ message e) true ;; ret false).

Definition packageExpected : list (string * string) :=
  [ ("name", "cursorclone"); ("author", "CursorClone Team") ].

Definition validatePackageJson : M h bool :=
  let packagePath := path_join h [dirname; "package.json"] in
  found <- fs_existsSync h (Some packagePath) ;;
  if negb found then log "package.json not found" true ;; ret false
  else
    try_catch
      (pkg <- fs_read_json h packagePath ;;
       checkEntries "package.json" pkg packageExpected true)
      (fun e => log ("Failed to parse package.json: " ++ message e) true ;; ret false).

(** How the host reads a text file: [fs.readFileSync(p, 'utf8')]. *)
Variable readFileSync : string -> World h -> Try string.

Definition requiredContent : list string :=
  [ "CursorClone"; "AI-powered code editor"; "build-cursorclone.js" ].

(** The loop of [validateReadme] over [requiredContent]. *)
Fixpoint checkContent (content : string) (required : list string)
    (isValid : bool) : M h bool :=
  match required with
  | [] => ret isValid
  | r :: rest =>
      if negb (str_includes r content) then
        log ("README.md missing required content: '" ++ r ++ "'") true ;;
        checkContent content rest false
      else
        log ("README.md contains: '" ++ r ++ "'") false ;;
        checkContent content rest isValid
  end.

Definition validateReadme : M h bool :=
  let readmePath := path_join h [dirname; "README.md"] in
  found <- fs_existsSync h (Some readmePath) ;;
  if negb found then log "README.md not found" true ;; ret false
  else
    try_catch
      (content <- read_text readFileSync readmePath ;;
       checkContent content requiredContent true)
      (fun e => log ("Failed to read README.md: " ++ message e) true ;; ret false).

(** [main]: the three validators are all called, then [every] decides. *)
Definition main : M h unit :=
  log "Starting branding validation..." false ;;
  v1 <- validateProductJson ;;
  v2 <- validatePackageJson ;;
  v3 <- validateReadme ;;
  let allValid := forallb (fun result => result) [v1; v2; v3] in
  if allValid then
    log "All branding validations passed!" false ;; process_exit 0
  else
    log "Some branding validations failed!" true ;; process_exit 1.

End Validator.

End Branding.

(** ** The build environment check ([test-build-clean.cjs]) *)

(** Here [execSync] gets no [cwd]: the host's [spawn] stands for a child
    run in the working directory of the process. *)
Module EnvCheck.

Section Script.
Variable h : Host.
Variable process : Process.
(** [process.version] *)
Variable version : string.
Variable readFileSync : string -> World h -> Try string.

Definition checkFile (filePath description : string) : M h bool :=
  found <- fs_existsSync h (Some filePath) ;;
  if found then log (description ++ " exists: " ++ filePath) info ;; ret true
  else log (description ++ " missing: " ++ filePath) error ;; ret false.

Definition runCommand (command description : string) : M h bool :=
  try_catch
    (log ("Testing: " ++ description) info ;;
     execSync h command false ;;
     log ("Success: " ++ description) info ;;
     ret true)
    (fun e =>
       log ("Failed: " ++ description ++ " - " ++ message e) error ;; ret false).

Definition checkNodeVersion : M h bool :=
  log ("Node.js version: " ++ version) info ;;
  let nvmrcPath := path_join h [script_dirname process; ".nvmrc"] in
  found <- fs_existsSync h (Some nvmrcPath) ;;
  if found then
    text <- read_text readFileSync nvmrcPath ;;
    let expectedVersion := str_trim h text in
    log ("Expected Node.js version: v" ++ expectedVersion) info ;;
    if negb (String.prefix ("v" ++ expectedVersion) version) then
      log ("Node.js version mismatch. Expected v" ++ expectedVersion
           ++ ", got " ++ version) warn ;;
      ret false
    else ret true
  else ret true.

Definition requiredFiles : list (string * string) :=
  [ ("package.json", "Package configuration");
    ("product.json", "Product configuration");
    ("tsconfig.json", "TypeScript configuration");
    ("gulpfile.js", "Gulp build file") ].

(** The loop of [main] over [requiredFiles]. *)
Fixpoint checkFiles (files : list (string * string)) (allChecks : bool) : M h bool :=
  match files with
  | [] => ret allChecks
  | (file, description) :: rest =>
      present <- checkFile (path_join h [script_dirname process; file]) description ;;
      checkFiles rest (if negb present then false else allChecks)
  end.

(** The build tools looked for on each platform; their result is ignored. *)
Definition checkBuildTools : M h unit :=
  if process_platform process =? "darwin" then
    runCommand "xcode-select --version" "Xcode command line tools" ;; ret tt
  else if process_platform process =? "linux" then
    runCommand "gcc --version" "GCC compiler" ;;
    runCommand "make --version" "Make build tool" ;; ret tt
  else if process_platform process =? "win32" then
    runCommand "where cl" "Visual Studio C++ compiler" ;; ret tt
  else ret tt.

Definition main : M h unit :=
  log "Starting CursorClone build environment validation..." info ;;
  let allChecks := true in
  versionOk <- checkNodeVersion ;;
  let allChecks := if negb versionOk then false else allChecks in
  allChecks <- checkFiles requiredFiles allChecks ;;
  git <- runCommand "git --version" "Git availability" ;;
  let allChecks := if negb git then false else allChecks in
  remotes <- runCommand "git remote -v" "Git remotes" ;;
  let allChecks := if negb remotes then false else allChecks in
  npm <- runCommand "npm --version" "npm availability" ;;
  let allChecks := if negb npm then false else allChecks in
  let nodeModulesPath := path_join h [script_dirname process; "node_modules"] in
  modules <- checkFile nodeModulesPath "Node modules directory" ;;
  allChecks <- (if negb modules then
                  log ("Run " ++ quoted "npm install" ++ " to install dependencies") warn ;;
                  ret false
                else ret allChecks) ;;
  runCommand "python3 --version" "Python 3 availability" ;;
  checkBuildTools ;;
  if allChecks then
    log "All environment checks passed! Ready to build CursorClone." info
  else
    log "Some environment checks failed. Please fix the issues above." error ;;
    process_exit 1.

End Script.

End EnvCheck.

(** ** The quick test of the build environment *)

(** The second script of [validate-branding-clean.cjs]: nine checks, a tally
    of how many passed, and [process.exit(main())]. *)
Module QuickTest.

Record Tally := { passed : nat; total : nat }.

(** [total++] *)
Definition counted (c : Tally) : Tally :=
  {| passed := passed c; total := S (total c) |}.

(** [passed++] *)
Definition scored (c : Tally) : Tally :=
  {| passed := S (passed c); total := total c |}.

Section Script.
Variable h : Host.

Definition checkFile (filePath description : string) : M h bool :=
  found <- fs_existsSync h (Some filePath) ;;
  if found then log (description ++ " exists: " ++ filePath) info ;; ret true
  else log (description ++ " missing: " ++ filePath) error ;; ret false.

Definition runCommand (command description : string) : M h bool :=
  try_catch
    (log ("Testing: " ++ description) info ;;
     execSync h command false ;;
     log (description ++ " - SUCCESS") info ;;
     ret true)
    (fun e =>
       log (description ++ " - FAILED: " ++ message e) error ;; ret false).

Definition coreFiles : list (string * string) :=
  [ ("product.json", "Product configuration");
    ("package.json", "Package configuration");
    ("build-cursorclone.js", "Build script");
    ("setup-cursorclone.sh", "Setup script");
    (".github/workflows/build.yml", "CI/CD pipeline") ].

(** [coreFiles.forEach(...)] *)
Fixpoint checkCoreFiles (files : list (string * string)) (c : Tally) : M h Tally :=
  match files with
  | [] => ret c
  | (file, desc) :: rest =>
      let c := counted c in
      present <- checkFile file desc ;;
      checkCoreFiles rest (if present then scored c else c)
  end.

Definition checkProduct (c : Tally) : M h Tally :=
  let c := counted c in
  try_catch
    (product <- fs_read_json h "product.json" ;;
     nameShort <- js_get product "nameShort" ;;
     branded <- (if strict_eq nameShort "CursorClone" then
                   applicationName <- js_get product "applicationName" ;;
                   ret (strict_eq applicationName "cursorclone")
                 else ret false) ;;
     if branded then
       log "Product configuration properly branded" info ;; ret (scored c)
     else
       log "Product configuration not properly branded" error ;; ret c)
    (fun e => log ("Error reading product.json: " ++ message e) error ;; ret c).

Definition checkPackage (c : Tally) : M h Tally :=
  let c := counted c in
  try_catch
    (pkg <- fs_read_json h "package.json" ;;
     name <- js_get pkg "name" ;;
     branded <- (if strict_eq name "cursorclone" then
                   author <- js_get pkg "author" ;;
                   authorName <- js_get author "name" ;;
                   ret (strict_eq authorName "CursorClone Team")
                 else ret false) ;;
     if branded then
       log "Package configuration properly branded" info ;; ret (scored c)
     else
       log "Package configuration not properly branded" error ;; ret c)
    (fun e => log ("Error reading package.json: " ++ message e) error ;; ret c).

Definition checkCommand (command description : string) (c : Tally) : M h Tally :=
  let c := counted c in
  ok <- runCommand command description ;;
  ret (if ok then scored c else c).

(** The body of [main]: the tally, then the status it returns. *)
Definition tests : M h nat :=
  log "🧪 Testing CursorClone Build Environment" info ;;
  c <- checkCoreFiles coreFiles {| passed := 0; total := 0 |} ;;
  c <- checkProduct c ;;
  c <- checkPackage c ;;
  c <- checkCommand "git remote -v" "Git remote configuration" c ;;
  c <- checkCommand "node --version" "Node.js version" c ;;
  log EmptyString info ;;
  log ("📊 Test Results: " ++ nat_text (passed c) ++ "/" ++ nat_text (total c)
       ++ " passed") info ;;
  if (passed c =? total c)%nat then
    log "🎉 All tests passed! CursorClone build environment is ready." info ;;
    ret 0
  else
    log ("⚠️  " ++ nat_text (total c - passed c)
         ++ " tests failed. Please check the errors above.") warn ;;
    ret 1.

(** [process.exit(main())] *)
Definition main : M h unit :=
  status <- tests ;;
  process_exit status.

End Script.

End QuickTest.

(** ** A concrete host for closed examples *)

(** A scenario fixes how the outside behaves: the commands whose child
    process fails, the paths that do not exist, what [product.json] and
    [package.json] parse to.  The world that changes is the list of
    environment variables set so far.  Paths are POSIX. *)
Module Sample.

Record scenario := {
  failing : list string;
  missing : list string;
  product : Try JsVal;
  package : Try JsVal
}.

Definition world : Type := list (string * string).

(** The environment a run starts in. *)
Definition fresh : world := [].

Definition nl : string := String "010"%char EmptyString.

Definition is_space (c : ascii) : bool :=
  match nat_of_ascii c with
  | 9 | 10 | 11 | 12 | 13 | 32 => true
  | _ => false
  end.

Fixpoint trimStart (s : string) : string :=
  match s with
  | String c s' => if is_space c then trimStart s' else s
  | EmptyString => EmptyString
  end.

Fixpoint rev_string (s acc : string) : string :=
  match s with
  | String c s' => rev_string s' (String c acc)
  | EmptyString => acc
  end.

Definition trim (s : string) : string :=
  rev_string (trimStart (rev_string (trimStart s) EmptyString)) EmptyString.

(** Splits a path at its last ['/']: (directory, base name). *)
Fixpoint split_last (s : string) : option string * string :=
  match s with
  | EmptyString => (None, EmptyString)
  | String c s' =>
      match split_last s' with
      | (Some d, b) => (Some (String c d), b)
      | (None, b) =>
          if Ascii.eqb c "/" then (Some EmptyString, b) else (None, String c b)
      end
  end.

Definition dirname (s : string) : string :=
  match fst (split_last s) with
  | Some EmptyString => "/"
  | Some d => d
  | None => "."
  end.

Definition basename (s : string) : string := snd (split_last s).

Fixpoint text (v : JsVal) : string :=
  match v with
  | JUndefined => "undefined"
  | JNull => "null"
  | JBool b => if b then "true" else "false"
  | JNum lit => lit
  | JStr s => s
  | JArr items =>
      String.concat "," (map (fun x =>
        match x with JUndefined | JNull => EmptyString | _ => text x end) items)
  | JObj _ => "[object Object]"
  end.

Definition ENOENT (p : string) : JsError :=
  mkError ("ENOENT: no such file or directory, open '" ++ p ++ "'").

Definition host (sc : scenario) : Host := {|
  World := world;
  spawn := fun cmd _ w =>
    if includes cmd (failing sc) then (Failed (mkError ("Command failed: " ++ cmd)), w)
    else (Exited0 (if cmd =? "git branch --show-current" then "main" ++ nl
                   else EmptyString), w);
  existsSync := fun p _ => negb (includes p (missing sc));
  read_json := fun p _ =>
    if (p =? "/repo/product.json") || (p =? "product.json") then product sc
    else if (p =? "/repo/package.json") || (p =? "package.json") then package sc
    else Raised (ENOENT p);
  require_json := fun p _ =>
    if p =? "./package.json" then package sc
    else Raised (mkError ("Cannot find module '" ++ p ++ "'"));
  mkdirSync := fun _ w => (Returned tt, w);
  set_env := fun k v w => (k, v) :: w;
  date_now := fun _ => "1700000000000";
  path_join := String.concat "/";
  path_dirname := dirname;
  path_basename := basename;
  str_trim := trim;
  to_text := text
|}.

Definition goodProduct : JsVal :=
  JObj [ ("nameShort", JStr "CursorClone");
         ("applicationName", JStr "cursorclone");
         ("dataFolderName", JStr ".cursorclone");
         ("serverDataFolderName", JStr ".cursorclone-server") ].

Definition goodPackage : JsVal :=
  JObj [ ("name", JStr "cursorclone"); ("version", JStr "1.0.0") ].

(** Every command succeeds, every path exists, both files are well formed. *)
Definition healthy : scenario := {|
  failing := [];
  missing := [];
  product := Returned goodProduct;
  package := Returned goodPackage
|}.

Definition with_failing (cmds : list string) (sc : scenario) : scenario :=
  {| failing := cmds; missing := missing sc; product := product sc;
     package := package sc |}.

Definition with_missing (paths : list string) (sc : scenario) : scenario :=
  {| failing := failing sc; missing := paths; product := product sc;
     package := package sc |}.

Definition with_product (p : Try JsVal) (sc : scenario) : scenario :=
  {| failing := failing sc; missing := missing sc; product := p;
     package := package sc |}.

(** [node build.js <args>] on a Linux x64 machine, script in [/repo]. *)
Definition node (args : list string) : Process := {|
  process_argv := "node" :: "/repo/build.js" :: args;
  process_platform := "linux";
  process_arch := "x64";
  script_dirname := "/repo"
|}.

End Sample.

(** Text files for closed examples: a table from path to content. *)
Definition sample_files (files : list (string * string))
    (p : string) (_ : Sample.world) : Try string :=
  match assoc p files with
  | Some text => Returned text
  | None => Raised (Sample.ENOENT p)
  end.

(** A [package.json] as the branding validator wants it, in a repository
    where everything else is in order. *)
Definition brandedPackage : JsVal :=
  JObj [ ("name", JStr "cursorclone"); ("version", JStr "1.0.0");
         ("author", JStr "CursorClone Team") ].

Definition branded : Sample.scenario := {|
  Sample.failing := [];
  Sample.missing := [];
  Sample.product := Returned Sample.goodProduct;
  Sample.package := Returned brandedPackage
|}.


(** ** Observations on runs *)

Definition is_ok {A} (o : Outcome A) : bool :=
  match o with Ok _ => true | _ => false end.

Definition proc_ok (r : ProcResult) : bool :=
  match r with Exited0 _ => true | Failed _ => false end.

Definition is_exec (e : Event) : bool :=
  match e with EExec _ _ _ => true | _ => false end.

Definition exec_failed (e : Event) : bool :=
  match e with EExec _ _ ok => negb ok | _ => false end.

(** The commands handed to [execSync], in order. *)
Definition spawned (t : Trace) : list string :=
  flat_map (fun e => match e with EExec c _ _ => [c] | _ => [] end) t.

(** Some child process of the trace failed. *)
Definition has_failed_exec (t : Trace) : bool := existsb exec_failed t.

Definition not_step (e : Event) : bool :=
  match Pipeline.step_of_event e with None => true | Some _ => false end.

(** Every event [m] can emit satisfies [f]. *)
Definition All {h A} (f : Event -> bool) (m : M h A) : Prop :=
  forall w, forallb f (events (m w)) = true.

(** [m] never returns normally once one of its child processes failed. *)
Definition Strict {h A} (m : M h A) : Prop :=
  forall w, has_failed_exec (events (m w)) = true ->
            exists e, outcome (m w) = Throw e.

(** [m] always throws. *)
Definition Rethrows {h A} (m : M h A) : Prop :=
  forall w, exists e, outcome (m w) = Throw e.

(** [m] never calls [process.exit]. *)
Definition NoExit {h A} (m : M h A) : Prop :=
  forall w c, outcome (m w) <> Exit c.

(** Unless one of its child processes fails, [m] returns normally, with a
    value in [P]. *)
Definition Steady {h A} (P : A -> Prop) (m : M h A) : Prop :=
  forall w, has_failed_exec (events (m w)) = false ->
            exists a w' t, m w = (Ok a, w', t) /\ P a.

(** The postcondition that asks nothing of the value. *)
Definition anything {A} (_ : A) : Prop := True.


(** The supported matrix, in the spec's words:
    {linux, darwin, win32} x {x64, arm64}. *)
Definition in_matrix (platform arch : string) : bool :=
  includes platform ["linux"; "darwin"; "win32"] && includes arch ["x64"; "arm64"].

(** ** More observations *)

Definition no_exec (e : Event) : bool := negb (is_exec e).

(** The commands handed to [execSync] with their verdicts, in order. *)
Definition exec_results (t : Trace) : list (string * bool) :=
  flat_map (fun e => match e with EExec c _ ok => [(c, ok)] | _ => [] end) t.

(** After a child process failed, no other one was started. *)
Fixpoint failure_is_last (t : Trace) : bool :=
  match t with
  | [] => true
  | EExec _ _ false :: t' => forallb no_exec t'
  | _ :: t' => failure_is_last t'
  end.

Definition Tidy {h A} (m : M h A) : Prop :=
  forall w, failure_is_last (events (m w)) = true.

(** No tag is made and nothing is pushed. *)
Definition no_release (e : Event) : bool :=
  match e with
  | EExec c _ _ =>
      negb (String.prefix "git tag" c) && negb (String.prefix "git push" c)
  | _ => true
  end.

(** The tools the environment check looks for on a platform. *)
Definition buildTools (platform : string) : list string :=
  if platform =? "darwin" then ["xcode-select --version"]
  else if platform =? "linux" then ["gcc --version"; "make --version"]
  else if platform =? "win32" then ["where cl"]
  else [].

(** Unless [m] returns normally, all its events satisfy [f]. *)
Definition QuietUnlessOk {h A} (f : Event -> bool) (m : M h A) : Prop :=
  forall w, is_ok (outcome (m w)) = true \/ forallb f (events (m w)) = true.

(** Not the closing line of the ['all'] pipeline. *)
Definition not_closing (e : Event) : bool :=
  match e with
  | ELog info msg => negb (msg =? "Complete build pipeline finished")
  | _ => true
  end.

(** [product.json] cannot be used: it does not parse, or parses to [null]. *)
Definition unusable (r : Try JsVal) : bool :=
  match r with
  | Raised _ => true
  | Returned JNull => true
  | Returned JUndefined => true
  | Returned _ => false
  end.


(** Every expected field whose value differs can be shown: putting the
    value in a template literal does not throw. *)
Definition reportable (product : JsVal) (entries : list (string * string)) : bool :=
  forallb (fun kv =>
    negb (strict_neq (js_prop product (fst kv)) (snd kv))
    || negb (text_throws (js_prop product (fst kv)))) entries.

(** What a trace holds before the validate step's first line. *)
Fixpoint before_validate (t : Trace) : Trace :=
  match t with
  | [] => []
  | ELog info msg :: t' =>
      if msg =? "Validating build..." then [] else ELog info msg :: before_validate t'
  | e :: t' => e :: before_validate t'
  end.

(** The tally [c'] comes from [c] by [n] more checks of the quick test,
    [p] of them passed. *)
Definition tallied (p n : nat) (c c' : QuickTest.Tally) : Prop :=
  QuickTest.passed c' = QuickTest.passed c + p
  /\ QuickTest.total c' = QuickTest.total c + n.

(** The quick test's check of [product.json]: the file parses to a value
    other than [null] whose [nameShort] and [applicationName] are the
    expected strings. *)
Definition productBranded (r : Try JsVal) : bool :=
  match r with
  | Raised _ | Returned JNull | Returned JUndefined => false
  | Returned product =>
      strict_eq (js_prop product "nameShort") "CursorClone"
      && strict_eq (js_prop product "applicationName") "cursorclone"
  end.

(** Its check of [package.json]: [name] is the expected string and
    [author] a value whose [name] is. *)
Definition packageBranded (r : Try JsVal) : bool :=
  match r with
  | Raised _ | Returned JNull | Returned JUndefined => false
  | Returned pkg =>
      strict_eq (js_prop pkg "name") "cursorclone"
      && strict_eq (js_prop (js_prop pkg "author") "name") "CursorClone Team"
  end.

(** How many of the quick test's nine checks pass in a world: the five core
    files that exist, the two branding checks, [git remote -v], and
    [node --version] in the world the git command left. *)
Definition quickPassed {h : Host} (w : World h) : nat :=
  length (filter (fun fd => existsSync h (fst fd) w) QuickTest.coreFiles)
  + Nat.b2n (productBranded (read_json h "product.json" w))
  + Nat.b2n (packageBranded (read_json h "package.json" w))
  + Nat.b2n (proc_ok (fst (spawn h "git remote -v" false w)))
  + Nat.b2n (proc_ok (fst (spawn h "node --version" false
                             (snd (spawn h "git remote -v" false w))))).


(** * Reasoning rules *)

Section Rules.
Context {h : Host}.

Lemma bind_Ok {A B} (m : M h A) (k : A -> M h B) w a w1 t1 :
  m w = (Ok a, w1, t1) ->
  bind m k w = (outcome (k a w1), world_of (k a w1), (t1 ++ events (k a w1))%list).
Proof.
  intros E. unfold bind. rewrite E.
  destruct (k a w1) as [[r w2] t2]. reflexivity.
Qed.

Lemma bind_Throw {A B} (m : M h A) (k : A -> M h B) w e w1 t1 :
  m w = (Throw e, w1, t1) -> bind m k w = (Throw e, w1, t1).
Proof. intros E. unfold bind. now rewrite E. Qed.

Lemma bind_Exit {A B} (m : M h A) (k : A -> M h B) w c w1 t1 :
  m w = (Exit c, w1, t1) -> bind m k w = (Exit c, w1, t1).
Proof. intros E. unfold bind. now rewrite E. Qed.

Lemma try_catch_Ok {A} (m : M h A) handler w a w1 t1 :
  m w = (Ok a, w1, t1) -> try_catch m handler w = (Ok a, w1, t1).
Proof. intros E. unfold try_catch. now rewrite E. Qed.

Lemma try_catch_Throw {A} (m : M h A) handler w e w1 t1 :
  m w = (Throw e, w1, t1) ->
  try_catch m handler w =
    (outcome (handler e w1), world_of (handler e w1),
     (t1 ++ events (handler e w1))%list).
Proof.
  intros E. unfold try_catch. rewrite E.
  destruct (handler e w1) as [[r w2] t2]. reflexivity.
Qed.

Lemma try_catch_Exit {A} (m : M h A) handler w c w1 t1 :
  m w = (Exit c, w1, t1) -> try_catch m handler w = (Exit c, w1, t1).
Proof. intros E. unfold try_catch. now rewrite E. Qed.

(** A log line never fails and leaves the world alone. *)
Lemma log_bind {B} msg lvl (k : unit -> M h B) w :
  bind (log msg lvl) k w =
    (outcome (k tt w), world_of (k tt w), ELog lvl msg :: events (k tt w)).
Proof. apply (bind_Ok (log msg lvl) k w tt w [ELog lvl msg]). reflexivity. Qed.

Lemma triple_eta {A} (r : Outcome A * World h * Trace) :
  r = (outcome r, world_of r, events r).
Proof. now destruct r as [[o w] t]. Qed.

(** What a computation emitted stays in front of what follows. *)
Lemma events_bind_prefix {A B} (m : M h A) (k : A -> M h B) w :
  exists t, events (bind m k w) = (events (m w) ++ t)%list.
Proof.
  destruct (m w) as [[[a|e|c] w1] t1] eqn:E.
  - rewrite (bind_Ok _ _ _ _ _ _ E). now eexists.
  - rewrite (bind_Throw _ _ _ _ _ _ E). exists []. cbn. now rewrite app_nil_r.
  - rewrite (bind_Exit _ _ _ _ _ _ E). exists []. cbn. now rewrite app_nil_r.
Qed.

Lemma events_try_catch_prefix {A} (m : M h A) handler w :
  exists t, events (try_catch m handler w) = (events (m w) ++ t)%list.
Proof.
  destruct (m w) as [[[a|e|c] w1] t1] eqn:E.
  - rewrite (try_catch_Ok _ _ _ _ _ _ E). exists []. cbn. now rewrite app_nil_r.
  - rewrite (try_catch_Throw _ _ _ _ _ _ E). now eexists.
  - rewrite (try_catch_Exit _ _ _ _ _ _ E). exists []. cbn. now rewrite app_nil_r.
Qed.

(** ** Events of a given kind *)

Section AllRules.
Variable f : Event -> bool.

Lemma All_ret {A} (a : A) : All (h := h) f (ret a).
Proof. intros w. reflexivity. Qed.

Lemma All_throw {A} e : All (h := h) (A := A) f (throw e).
Proof. intros w. reflexivity. Qed.

Lemma All_process_exit {A} c : All (h := h) (A := A) f (process_exit c).
Proof. intros w. reflexivity. Qed.

Lemma All_emit e : f e = true -> All (h := h) f (emit e).
Proof. intros E w. cbn. now rewrite E. Qed.

Lemma All_log msg lvl : f (ELog lvl msg) = true -> All (h := h) f (log msg lvl).
Proof. apply All_emit. Qed.

Lemma All_bind {A B} (m : M h A) (k : A -> M h B) :
  All f m -> (forall a, All f (k a)) -> All f (bind m k).
Proof.
  intros Hm Hk w. specialize (Hm w).
  destruct (m w) as [[[a|e|c] w1] t1] eqn:E.
  - rewrite (bind_Ok _ _ _ _ _ _ E). cbn in *.
    rewrite forallb_app, Hm. apply Hk.
  - now rewrite (bind_Throw _ _ _ _ _ _ E).
  - now rewrite (bind_Exit _ _ _ _ _ _ E).
Qed.

Lemma All_try_catch {A} (m : M h A) handler :
  All f m -> (forall e, All f (handler e)) -> All f (try_catch m handler).
Proof.
  intros Hm Hk w. specialize (Hm w).
  destruct (m w) as [[[a|e|c] w1] t1] eqn:E.
  - now rewrite (try_catch_Ok _ _ _ _ _ _ E).
  - rewrite (try_catch_Throw _ _ _ _ _ _ E). cbn in *.
    rewrite forallb_app, Hm. apply Hk.
  - now rewrite (try_catch_Exit _ _ _ _ _ _ E).
Qed.

Lemma All_execSync cmd inherit :
  (forall ok, f (EExec cmd inherit ok) = true) -> All f (execSync h cmd inherit).
Proof.
  intros E w. unfold execSync.
  destruct (spawn h cmd inherit w) as [[out|e] w']; cbn; now rewrite E.
Qed.

Lemma All_fs_existsSync p : All f (fs_existsSync h p).
Proof. intros w. reflexivity. Qed.

Lemma All_fs_mkdirSync p : All f (fs_mkdirSync h p).
Proof. intros w. unfold fs_mkdirSync. now destruct (mkdirSync h p w). Qed.

Lemma All_fs_read_json p : All f (fs_read_json h p).
Proof. intros w. reflexivity. Qed.

Lemma All_js_require p : All f (js_require h p).
Proof. intros w. reflexivity. Qed.

Lemma All_env_set k v : All f (env_set h k v).
Proof. intros w. reflexivity. Qed.

Lemma All_Date_now : All f (Date_now h).
Proof. intros w. reflexivity. Qed.

Lemma All_js_get v key : All (h := h) f (js_get v key).
Proof. intros w. now destruct v. Qed.

Lemma All_js_trim out : All (h := h) f (js_trim out).
Proof. intros w. now destruct out. Qed.

Lemma All_template v : All (h := h) f (template v).
Proof. intros w. unfold template. now destruct (text_throws v). Qed.

Lemma All_archiveSelection this platform arch version :
  All f (Pipeline.archiveSelection h this platform arch version).
Proof.
  intros w. unfold Pipeline.archiveSelection, template, bind, throw, ret.
  cbv zeta.
  now destruct (platform =? "darwin"), (platform =? "linux"),
    (platform =? "win32"), (text_throws version).
Qed.

End AllRules.

(** ** Failed child processes surface as exceptions *)

Lemma Strict_of_no_exec {A} (m : M h A) :
  All (fun e => negb (exec_failed e)) m -> Strict m.
Proof.
  intros Hm w Hf. specialize (Hm w). exfalso.
  unfold has_failed_exec in Hf. apply existsb_exists in Hf.
  destruct Hf as (e & Hin & He).
  rewrite forallb_forall in Hm. specialize (Hm e Hin).
  now rewrite He in Hm.
Qed.

Lemma Strict_bind {A B} (m : M h A) (k : A -> M h B) :
  Strict m -> (forall a, Strict (k a)) -> Strict (bind m k).
Proof.
  intros Hm Hk w. specialize (Hm w).
  destruct (m w) as [[[a|e|c] w1] t1] eqn:E.
  - rewrite (bind_Ok _ _ _ _ _ _ E). cbn in *. intros Hf.
    unfold has_failed_exec in Hf. rewrite existsb_app in Hf.
    apply orb_true_iff in Hf. destruct Hf as [Hf|Hf].
    + destruct (Hm Hf) as [e He]. discriminate.
    + apply (Hk a w1 Hf).
  - rewrite (bind_Throw _ _ _ _ _ _ E). intros _. now exists e.
  - rewrite (bind_Exit _ _ _ _ _ _ E). intros Hf.
    destruct (Hm Hf) as [e He]. discriminate.
Qed.

Lemma Strict_try_catch {A} (m : M h A) handler :
  Strict m -> (forall e, Rethrows (handler e)) -> Strict (try_catch m handler).
Proof.
  intros Hm Hk w. specialize (Hm w).
  destruct (m w) as [[[a|e|c] w1] t1] eqn:E.
  - rewrite (try_catch_Ok _ _ _ _ _ _ E). exact Hm.
  - rewrite (try_catch_Throw _ _ _ _ _ _ E). intros _. apply Hk.
  - rewrite (try_catch_Exit _ _ _ _ _ _ E). exact Hm.
Qed.

Lemma Strict_execSync cmd inherit : Strict (execSync h cmd inherit).
Proof.
  intros w. unfold execSync.
  destruct (spawn h cmd inherit w) as [[out|e] w']; cbn; [discriminate|].
  intros _. now exists e.
Qed.

Lemma Rethrows_log_throw msg lvl {A} e :
  Rethrows (h := h) (A := A) (log msg lvl ;; throw e).
Proof. intros w. now exists e. Qed.

(** ** No [process.exit] below the top-level handler *)

Lemma NoExit_bind {A B} (m : M h A) (k : A -> M h B) :
  NoExit m -> (forall a, NoExit (k a)) -> NoExit (bind m k).
Proof.
  intros Hm Hk w c. specialize (Hm w).
  destruct (m w) as [[[a|e|c'] w1] t1] eqn:E.
  - rewrite (bind_Ok _ _ _ _ _ _ E). apply Hk.
  - now rewrite (bind_Throw _ _ _ _ _ _ E).
  - exfalso. now apply (Hm c').
Qed.

Lemma NoExit_try_catch {A} (m : M h A) handler :
  NoExit m -> (forall e, NoExit (handler e)) -> NoExit (try_catch m handler).
Proof.
  intros Hm Hk w c. specialize (Hm w).
  destruct (m w) as [[[a|e|c'] w1] t1] eqn:E.
  - now rewrite (try_catch_Ok _ _ _ _ _ _ E).
  - rewrite (try_catch_Throw _ _ _ _ _ _ E). apply Hk.
  - exfalso. now apply (Hm c').
Qed.

Lemma NoExit_execSync cmd inherit : NoExit (execSync h cmd inherit).
Proof.
  intros w c. unfold execSync.
  now destruct (spawn h cmd inherit w) as [[out|e] w'].
Qed.

Lemma NoExit_fs_mkdirSync p : NoExit (fs_mkdirSync h p).
Proof.
  intros w c. unfold fs_mkdirSync.
  now destruct (mkdirSync h p w) as [[|] w'].
Qed.

Lemma NoExit_fs_read_json p : NoExit (fs_read_json h p).
Proof. intros w c. unfold fs_read_json. cbn. now destruct (read_json h p w). Qed.

Lemma NoExit_js_require p : NoExit (js_require h p).
Proof. intros w c. unfold js_require. cbn. now destruct (require_json h p w). Qed.

Lemma NoExit_ret {A} (a : A) : NoExit (h := h) (ret a).
Proof. now intros w c. Qed.

Lemma NoExit_throw {A} e : NoExit (h := h) (A := A) (throw e).
Proof. now intros w c. Qed.

Lemma NoExit_emit e : NoExit (h := h) (emit e).
Proof. now intros w c. Qed.

Lemma NoExit_fs_existsSync p : NoExit (fs_existsSync h p).
Proof. now intros w c. Qed.

Lemma NoExit_env_set k v : NoExit (env_set h k v).
Proof. now intros w c. Qed.

Lemma NoExit_Date_now : NoExit (Date_now h).
Proof. now intros w c. Qed.

Lemma NoExit_js_get v key : NoExit (h := h) (js_get v key).
Proof. intros w c. now destruct v. Qed.

Lemma NoExit_js_trim out : NoExit (h := h) (js_trim out).
Proof. intros w c. now destruct out. Qed.

Lemma NoExit_template v : NoExit (h := h) (template v).
Proof. intros w c. unfold template. now destruct (text_throws v). Qed.

Lemma NoExit_archiveSelection this platform arch version :
  NoExit (Pipeline.archiveSelection h this platform arch version).
Proof.
  intros w c. unfold Pipeline.archiveSelection, template, bind, throw, ret.
  cbv zeta.
  now destruct (platform =? "darwin"), (platform =? "linux"),
    (platform =? "win32"), (text_throws version).
Qed.

(** ** Normal return, child processes permitting *)

Lemma has_failed_exec_app t1 t2 :
  has_failed_exec (t1 ++ t2)%list = has_failed_exec t1 || has_failed_exec t2.
Proof. apply existsb_app. Qed.

Lemma Steady_ret {A} (P : A -> Prop) a : P a -> Steady (h := h) P (ret a).
Proof. intros Ha w _. now exists a, w, []. Qed.

Lemma Steady_emit (P : unit -> Prop) e : P tt -> Steady (h := h) P (emit e).
Proof. intros Ha w _. now exists tt, w, [e]. Qed.

Lemma Steady_bind {A B} (P : A -> Prop) (Q : B -> Prop) (m : M h A) k :
  Steady P m -> (forall a, P a -> Steady Q (k a)) -> Steady Q (bind m k).
Proof.
  intros Hm Hk w Hf. specialize (Hm w).
  destruct (m w) as [[[a|e|c] w1] t1] eqn:E.
  - rewrite (bind_Ok _ _ _ _ _ _ E) in Hf |- *. cbn [events snd] in Hf, Hm.
    rewrite has_failed_exec_app in Hf. apply orb_false_iff in Hf.
    destruct Hf as [Hf1 Hf2].
    destruct (Hm Hf1) as (a' & w' & t' & E' & Ha). injection E' as <- <- <-.
    destruct (Hk a Ha w1 Hf2) as (b & w2 & t2 & E2 & Hb).
    exists b, w2, (t1 ++ t2)%list. split; [|exact Hb]. now rewrite E2.
  - rewrite (bind_Throw _ _ _ _ _ _ E) in Hf.
    destruct (Hm Hf) as (a' & w' & t' & E' & _). discriminate.
  - rewrite (bind_Exit _ _ _ _ _ _ E) in Hf.
    destruct (Hm Hf) as (a' & w' & t' & E' & _). discriminate.
Qed.

Lemma Steady_try_catch {A} (P : A -> Prop) (m : M h A) handler :
  Steady P m -> Steady P (try_catch m handler).
Proof.
  intros Hm w Hf. specialize (Hm w).
  destruct (m w) as [[[a|e|c] w1] t1] eqn:E.
  - rewrite (try_catch_Ok _ _ _ _ _ _ E) in Hf |- *. exact (Hm Hf).
  - rewrite (try_catch_Throw _ _ _ _ _ _ E) in Hf. cbn [events snd] in Hf, Hm.
    rewrite has_failed_exec_app in Hf. apply orb_false_iff in Hf.
    destruct (Hm (proj1 Hf)) as (a' & w' & t' & E' & _). discriminate.
  - rewrite (try_catch_Exit _ _ _ _ _ _ E) in Hf |- *. exact (Hm Hf).
Qed.

Lemma Steady_weaken {A} (P Q : A -> Prop) (m : M h A) :
  Steady P m -> (forall a, P a -> Q a) -> Steady Q m.
Proof.
  intros Hm HPQ w Hf. destruct (Hm w Hf) as (a & w1 & t1 & E & Ha).
  exists a, w1, t1. auto.
Qed.

End Rules.

(** Breaks a goal [All f m] down along the structure of [m]; what is left
    are the events [f] rejects. *)
Ltac all_events :=
  repeat first
    [ apply All_ret | apply All_throw | apply All_process_exit
    | apply All_fs_existsSync | apply All_fs_mkdirSync | apply All_fs_read_json
    | apply All_js_require | apply All_env_set | apply All_Date_now
    | apply All_js_get | apply All_js_trim | apply All_template
    | apply All_archiveSelection
    | apply All_log; reflexivity
    | apply All_emit; reflexivity
    | apply All_execSync; intros ?; reflexivity
    | apply All_bind; [|intros ?]
    | apply All_try_catch; [|intros ?]
    | match goal with
      | |- All _ (if ?b then _ else _) => destruct b
      | |- All _ (match ?x with _ => _ end) => destruct x
      end
    | progress cbv zeta ].

(** * The command-driven build manager: facts about its methods *)

Section PipelineFacts.
Context {h : Host}.
Variable process : Process.
Variable this : Manager.

Import Pipeline.

Lemma steps_started_app t1 t2 :
  steps_started (t1 ++ t2)%list = (steps_started t1 ++ steps_started t2)%list.
Proof.
  induction t1 as [|e t1 IH]; [reflexivity|].
  cbn. destruct (step_of_event e); cbn; now rewrite IH.
Qed.

Lemma steps_started_quiet t : forallb not_step t = true -> steps_started t = [].
Proof.
  induction t as [|e t IH]; [reflexivity|].
  cbn. unfold not_step at 1. destruct (step_of_event e); [discriminate|].
  exact IH.
Qed.

Lemma spawned_app t1 t2 : spawned (t1 ++ t2)%list = (spawned t1 ++ spawned t2)%list.
Proof. apply flat_map_app. Qed.

Lemma spawned_none t : forallb (fun e => negb (is_exec e)) t = true -> spawned t = [].
Proof.
  induction t as [|e t IH]; [reflexivity|].
  cbn. destruct e; cbn; try discriminate; exact IH.
Qed.

(** [execCommand] announces no step, whatever the command. *)
Lemma execCommand_quiet cmd : All not_step (execCommand h this cmd).
Proof. unfold execCommand. all_events. Qed.

Lemma checkRequired_quiet files : All not_step (checkRequired h this files).
Proof.
  induction files as [|file rest IH]; cbn [checkRequired]; all_events.
  exact IH.
Qed.

(** A method that logs a step's line and then stays quiet announces
    exactly that step. *)
Lemma steps_announced {B} msg s (k : unit -> M h B) w :
  step_of_line msg = Some s -> All not_step (k tt) ->
  steps_started (events (bind (log msg info) k w)) = [s].
Proof.
  intros Hs Hk. rewrite log_bind. cbn [events snd steps_started step_of_event].
  rewrite Hs. f_equal. apply steps_started_quiet, Hk.
Qed.

Local Ltac one_step :=
  apply steps_announced; [reflexivity|]; cbv beta;
  repeat first [ apply execCommand_quiet | apply checkRequired_quiet
               | progress all_events ].

Lemma steps_sync w :
  steps_started (events (syncWithUpstream h this w)) = [Sync].
Proof.
  unfold syncWithUpstream. destruct (skipSync this); [reflexivity|]. one_step.
Qed.

Lemma steps_install w :
  steps_started (events (installDependencies h this w)) = [Install].
Proof. unfold installDependencies. one_step. Qed.

Lemma steps_build w :
  steps_started (events (buildCursorClone h this w)) = [Build].
Proof. unfold buildCursorClone. one_step. Qed.

Lemma steps_package w :
  steps_started (events (packageApplication h this w)) = [Package].
Proof. unfold packageApplication, unsupported. one_step. Qed.

Lemma steps_archive w :
  steps_started (events (createArchive h this w)) = [Archive].
Proof. unfold createArchive. one_step. Qed.

Lemma steps_validate w :
  steps_started (events (validateBuild h this w)) = [Validate].
Proof. unfold validateBuild. one_step. Qed.

End PipelineFacts.

(** ** A failing child process always reaches [run]'s handler *)

Section PipelineStrict.
Context {h : Host}.
Variable this : Manager.

Import Pipeline.

Lemma Strict_execCommand cmd : Strict (execCommand h this cmd).
Proof.
  unfold execCommand. apply Strict_bind; [|intros _].
  - apply Strict_of_no_exec. all_events.
  - apply Strict_try_catch; [apply Strict_execSync|].
    intros e. apply Rethrows_log_throw.
Qed.

Lemma NoExit_execCommand cmd : NoExit (execCommand h this cmd).
Proof.
  unfold execCommand. apply NoExit_bind; [apply NoExit_emit|intros _].
  apply NoExit_try_catch; [apply NoExit_execSync|].
  intros e. apply NoExit_bind; [apply NoExit_emit|intros _; apply NoExit_throw].
Qed.

Local Ltac strict :=
  repeat first
    [ apply Strict_execCommand
    | apply Strict_of_no_exec; solve [all_events]
    | apply Strict_bind; [|intros ?]
    | apply Strict_try_catch; [|intros ?; apply Rethrows_log_throw]
    | match goal with
      | |- Strict (if ?b then _ else _) => destruct b
      | |- Strict (match ?x with _ => _ end) => destruct x
      end
    | progress cbv zeta ].

Local Ltac no_exit :=
  repeat first
    [ apply NoExit_execCommand
    | apply NoExit_ret | apply NoExit_throw | apply NoExit_emit
    | apply NoExit_fs_existsSync | apply NoExit_fs_mkdirSync
    | apply NoExit_fs_read_json | apply NoExit_js_require
    | apply NoExit_env_set | apply NoExit_Date_now
    | apply NoExit_js_get | apply NoExit_js_trim | apply NoExit_template
    | apply NoExit_archiveSelection
    | apply NoExit_bind; [|intros ?]
    | apply NoExit_try_catch; [|intros ?]
    | match goal with
      | |- NoExit (if ?b then _ else _) => destruct b
      | |- NoExit (match ?x with _ => _ end) => destruct x
      | |- NoExit (log _ _) => apply NoExit_emit
      end
    | progress cbv zeta ].

Lemma Strict_checkRequired files : Strict (checkRequired h this files).
Proof. apply Strict_of_no_exec. induction files; cbn [checkRequired]; all_events. assumption. Qed.

Lemma NoExit_checkRequired files : NoExit (checkRequired h this files).
Proof. induction files; cbn [checkRequired]; no_exit. assumption. Qed.

Lemma Strict_dispatch command : Strict (dispatch h this command).
Proof.
  unfold dispatch, runAll, syncWithUpstream, installDependencies,
    buildCursorClone, packageApplication, unsupported, createArchive, runTests,
    validateBuild, showHelp.
  repeat first [ apply Strict_checkRequired | progress strict ].
Qed.

Lemma NoExit_dispatch command : NoExit (dispatch h this command).
Proof.
  unfold dispatch, runAll, syncWithUpstream, installDependencies,
    buildCursorClone, packageApplication, unsupported, createArchive, runTests,
    validateBuild, showHelp.
  repeat first [ apply NoExit_checkRequired | progress no_exit ].
Qed.

(** What [run] makes of its body's outcome. *)
Lemma run_outcome (process : Process) w :
  (outcome (dispatch h this (commandArg process) w) = Ok tt
   /\ run h process this w = dispatch h this (commandArg process) w)
  \/ (exists e w' t,
        dispatch h this (commandArg process) w = (Throw e, w', t)
        /\ run h process this w =
             (Exit 1, w', (t ++ [ELog error ("Build failed: " ++ message e)])%list)).
Proof.
  unfold run.
  destruct (dispatch h this (commandArg process) w) as [[[[]|e|c] w'] t] eqn:E.
  - left. split; [reflexivity|]. now rewrite (try_catch_Ok _ _ _ _ _ _ E).
  - right. exists e, w', t. split; [reflexivity|].
    now rewrite (try_catch_Throw _ _ _ _ _ _ E).
  - exfalso. apply (NoExit_dispatch (commandArg process) w c).
    now rewrite E.
Qed.

End PipelineStrict.


(** * The embedding at work *)

(** [--platform] as the last argument has no value: the host's platform is
    taken. *)
Example platform_flag_without_value :
  getPlatformArg (Sample.node ["package"; "--platform"]) = "linux"
  /\ getPlatformArg (Sample.node ["package"; "--platform"; "darwin"]) = "darwin"
  /\ getArchArg (Sample.node ["package"]) = "x64".
Proof. repeat split; reflexivity. Qed.

(** A platform named like an inherited property passes the first half of
    the guard and fails on [includes]. *)
Example inherited_platform_throws :
  PLATFORMS_get "toString" = Inherited
  /\ Pipeline.main (Sample.host Sample.healthy)
       (Sample.node ["package"; "--platform"; "toString"]) Sample.fresh =
     (Exit 1, Sample.fresh,
      [ELog info "Packaging application...";
       ELog error "Build failed: PLATFORMS[platform].includes is not a function"]).
Proof. split; vm_compute; reflexivity. Qed.

(** The flag-driven manager on a healthy checkout: validation, sync,
    install, build, one packaging task. *)
Example flag_build_commands :
  outcome (FlagBuild.main (Sample.host Sample.healthy) (Sample.node []) Sample.fresh)
    = Ok tt
  /\ spawned (events (FlagBuild.main (Sample.host Sample.healthy) (Sample.node [])
                        Sample.fresh)) =
     [ "git fetch upstream"; "git branch --show-current";
       "git checkout -b backup-1700000000000"; "git checkout main";
       "git merge upstream/main --no-edit"; "npm install"; "npm run clean";
       "npm run compile"; "npm run compile-extensions";
       "npx gulp vscode-linux-x64" ].
Proof. split; vm_compute; reflexivity. Qed.

(** * The claims of the specification *)

(** ** Abort at the first failing step *)

(** C1.  In the ['all'] pipeline of six steps, when the sync and install
    steps return and the build step (step 3) throws, the run ends right
    there: its events are those of steps 1 to 3 followed by the
    ["Build failed"] line, the steps started are exactly sync, install and
    build (package, archive and validate never start, and no child process
    is spawned beyond those of steps 1 to 3), the world is the one the build
    step left, and the process exits with status 1. *)
Theorem build_failure_stops_pipeline (h : Host) (process : Process)
    (w0 ws wi wb : World h) (ts ti tb : Trace) (e : JsError) :
  Pipeline.commandArg process = "all" ->
  Pipeline.syncWithUpstream h (constructor process) w0 = (Ok tt, ws, ts) ->
  Pipeline.installDependencies h (constructor process) ws = (Ok tt, wi, ti) ->
  Pipeline.buildCursorClone h (constructor process) wi = (Throw e, wb, tb) ->
  Pipeline.main h process w0 =
    (Exit 1, wb,
     (ts ++ ti ++ tb ++ [ELog error ("Build failed: " ++ message e)])%list)
  /\ exit_code (outcome (Pipeline.main h process w0)) = 1
  /\ Pipeline.steps_started (events (Pipeline.main h process w0)) =
       [Pipeline.Sync; Pipeline.Install; Pipeline.Build]
  /\ spawned (events (Pipeline.main h process w0)) =
       (spawned ts ++ spawned ti ++ spawned tb)%list.
Proof.
  intros Hcmd Hs Hi Hb.
  assert (Hrun : Pipeline.main h process w0 =
    (Exit 1, wb,
     (ts ++ ti ++ tb ++ [ELog error ("Build failed: " ++ message e)])%list)).
  { unfold Pipeline.main, Pipeline.run. rewrite Hcmd.
    change (Pipeline.dispatch h (constructor process) "all")
      with (Pipeline.runAll h (constructor process)).
    unfold Pipeline.runAll.
    erewrite try_catch_Throw.
    2:{ erewrite bind_Ok by exact Hs. erewrite bind_Ok by exact Hi.
        erewrite bind_Throw by exact Hb. reflexivity. }
    cbn. now rewrite <- !app_assoc. }
  rewrite Hrun. repeat split.
  - cbn [events snd]. rewrite !steps_started_app.
    pose proof (steps_sync (constructor process) w0) as Es.
    pose proof (steps_install (constructor process) ws) as Ei.
    pose proof (steps_build (constructor process) wi) as Eb.
    rewrite Hs in Es. rewrite Hi in Ei. rewrite Hb in Eb.
    cbn [events snd] in Es, Ei, Eb. now rewrite Es, Ei, Eb.
  - cbn [events snd]. rewrite !spawned_app. cbn. now rewrite app_nil_r.
Qed.

Lemma build_failure_stops_pipeline_witness :
  exit_code (outcome (Pipeline.main
    (Sample.host (Sample.with_failing ["npm run compile"] Sample.healthy))
    (Sample.node ["all"]) Sample.fresh)) = 1
  /\ Pipeline.steps_started (events (Pipeline.main
    (Sample.host (Sample.with_failing ["npm run compile"] Sample.healthy))
    (Sample.node ["all"]) Sample.fresh)) =
       [Pipeline.Sync; Pipeline.Install; Pipeline.Build].
Proof.
  pose (host := Sample.host (Sample.with_failing ["npm run compile"] Sample.healthy)).
  destruct (build_failure_stops_pipeline host (Sample.node ["all"])
              Sample.fresh Sample.fresh Sample.fresh Sample.fresh
              (events (Pipeline.syncWithUpstream host
                         (constructor (Sample.node ["all"])) Sample.fresh))
              (events (Pipeline.installDependencies host
                         (constructor (Sample.node ["all"])) Sample.fresh))
              (events (Pipeline.buildCursorClone host
                         (constructor (Sample.node ["all"])) Sample.fresh))
              (mkError "Command failed: npm run compile"))
    as (_ & Hexit & Hsteps & _); try (vm_compute; reflexivity).
  split; assumption.
Defined.

(** ** Exit codes *)

(** C2, as the code has it.  The exit status is decided by exceptions
    alone: it is 0 when the dispatched command returns and 1 when it throws,
    and nothing else occurs.  A failing child process always throws up to
    [run], so the status is 1 whenever a spawned subprocess fails.  The
    archive step that finds no build directory logs an error and returns
    normally: by itself it leaves the status at 0. *)
Theorem exit_code_follows_exceptions (h : Host) (process : Process) (w : World h) :
  ((outcome (Pipeline.dispatch h (constructor process) (Pipeline.commandArg process) w) = Ok tt
    /\ exit_code (outcome (Pipeline.main h process w)) = 0)
   \/ ((exists e, outcome (Pipeline.dispatch h (constructor process)
                             (Pipeline.commandArg process) w) = Throw e)
       /\ exit_code (outcome (Pipeline.main h process w)) = 1))
  /\ (has_failed_exec (events (Pipeline.main h process w)) = true ->
      exit_code (outcome (Pipeline.main h process w)) = 1)
  /\ (forall this pkg selection,
        require_json h "./package.json" w = Returned pkg ->
        pkg <> JNull -> pkg <> JUndefined ->
        Pipeline.archiveSelection h this (targetPlatform this) (targetArch this)
          (js_prop pkg "version") w = (Ok selection, w, []) ->
        (forall name dir,
           selection = Some (name, dir) -> existsSync h dir w = false) ->
        Pipeline.createArchive h this w =
          (Ok tt, w,
           [ELog info "Creating archive...";
            ELog error "Build directory not found. Please run build first."])).
Proof.
  unfold Pipeline.main. split; [|split].
  - destruct (run_outcome (constructor process) process w)
      as [[Hok Hrun]|(e & w' & t & Hbody & Hrun)]; rewrite Hrun.
    + left. now rewrite Hok.
    + right. rewrite Hbody. split; [now exists e|reflexivity].
  - destruct (run_outcome (constructor process) process w)
      as [[Hok Hrun]|(e & w' & t & Hbody & Hrun)]; rewrite Hrun.
    + intros Hf.
      destruct (Strict_dispatch (constructor process) _ w Hf) as [e He].
      rewrite He in Hok. discriminate.
    + reflexivity.
  - intros this pkg selection Hpkg Hnull Hundef Hsel Hdir.
    assert (Hget : js_get (h := h) pkg "version" w = (Ok (js_prop pkg "version"), w, [])).
    { destruct pkg; try reflexivity; congruence. }
    assert (Hfound : fs_existsSync h (option_map snd selection) w
            = (Ok false, w, [])).
    { unfold fs_existsSync.
      destruct selection as [[name dir]|]; cbn; [|reflexivity].
      now rewrite (Hdir name dir eq_refl). }
    unfold Pipeline.createArchive, bind, log, emit, js_require.
    rewrite Hpkg. cbn [lift_try]. rewrite Hget. cbv zeta.
    rewrite Hsel, Hfound. reflexivity.
Qed.

Lemma exit_code_follows_exceptions_witness :
  exit_code (outcome (Pipeline.main
    (Sample.host (Sample.with_failing ["npm install"] Sample.healthy))
    (Sample.node ["all"]) Sample.fresh)) = 1.
Proof.
  apply (proj1 (proj2 (exit_code_follows_exceptions
    (Sample.host (Sample.with_failing ["npm install"] Sample.healthy))
    (Sample.node ["all"]) Sample.fresh))).
  vm_compute. reflexivity.
Defined.

(** C2, as stated, fails: with every child process succeeding and the
    build directory [.build/VSCode-linux-x64] absent, the archive step
    reports the missing directory and the ['all'] run still exits with 0. *)
Lemma missing_build_directory_exits_zero :
  existsb (fun e => match e with
                    | ELog error msg =>
                        msg =? "Build directory not found. Please run build first."
                    | _ => false
                    end)
    (events (Pipeline.main
       (Sample.host (Sample.with_missing ["/repo/.build/VSCode-linux-x64"] Sample.healthy))
       (Sample.node ["all"]) Sample.fresh)) = true
  /\ exit_code (outcome (Pipeline.main
       (Sample.host (Sample.with_missing ["/repo/.build/VSCode-linux-x64"] Sample.healthy))
       (Sample.node ["all"]) Sample.fresh)) = 0.
Proof. split; vm_compute; reflexivity. Qed.

(** ** Platform and architecture *)

Lemma includes_cons x y l : includes x (y :: l) = (x =? y) || includes x l.
Proof. reflexivity. Qed.

(** What the guard of [packageApplication] computes, against the matrix. *)
Lemma unsupported_matrix {h : Host} platform arch w :
  includes platform objectPrototypeKeys = false ->
  Pipeline.unsupported h platform arch w = (Ok (negb (in_matrix platform arch)), w, []).
Proof.
  unfold Pipeline.unsupported, PLATFORMS_get, in_matrix, PLATFORMS.
  cbn [assoc]. rewrite !includes_cons.
  rewrite (String.eqb_sym "darwin"), (String.eqb_sym "linux"), (String.eqb_sym "win32").
  intros Hproto.
  destruct (platform =? "darwin") eqn:Ed; [now rewrite orb_true_r|].
  destruct (platform =? "linux") eqn:El; [reflexivity|].
  destruct (platform =? "win32") eqn:Ew; [reflexivity|].
  now rewrite Hproto.
Qed.

(** What the steps before packaging spawn. *)
Lemma install_spawned {h : Host} this (w : World h) :
  spawned (events (Pipeline.installDependencies h this w)) = ["npm install"].
Proof.
  unfold Pipeline.installDependencies, Pipeline.execCommand, bind, try_catch, log,
    emit, execSync.
  now destruct (spawn h "npm install" (isVerbose this) w) as [[out|e] w'].
Qed.

Lemma build_spawned {h : Host} this (w w' : World h) t :
  Pipeline.buildCursorClone h this w = (Ok tt, w', t) ->
  spawned t =
    [ "npm run clean"; "npm run compile"; "npm run compile-extensions";
      "npm run download-builtin-extensions" ].
Proof.
  unfold Pipeline.buildCursorClone, Pipeline.execCommand, bind, try_catch, log,
    emit, execSync, throw.
  destruct (spawn h "npm run clean" (isVerbose this) w) as [[o1|e1] w1];
    [|discriminate].
  destruct (spawn h "npm run compile" (isVerbose this) w1) as [[o2|e2] w2];
    [|discriminate].
  destruct (spawn h "npm run compile-extensions" (isVerbose this) w2)
    as [[o3|e3] w3]; [|discriminate].
  destruct (spawn h "npm run download-builtin-extensions" (isVerbose this) w3)
    as [[o4|e4] w4]; [|discriminate].
  cbn. intros H. injection H as _ <-. reflexivity.
Qed.

Lemma sync_first_spawn {h : Host} this (w : World h) :
  skipSync this = false ->
  hd_error (spawned (events (Pipeline.syncWithUpstream h this w))) =
    Some "git fetch upstream".
Proof.
  intros Hskip. unfold Pipeline.syncWithUpstream. rewrite Hskip, log_bind.
  cbn [events snd].
  match goal with
  | |- context [events (try_catch ?m ?handler w)] =>
      destruct (events_try_catch_prefix m handler w) as [r1 ->];
      match m with
      | bind ?m1 ?k1 => destruct (events_bind_prefix m1 k1 w) as [r2 ->]
      end
  end.
  unfold Pipeline.execCommand, bind, try_catch, log, emit, execSync.
  now destruct (spawn h "git fetch upstream" (isVerbose this) w) as [[out|e] w'].
Qed.

(** C3, as the code has it.  Constructing the manager checks nothing: the
    platform and architecture given on the command line are stored as they
    are.  The matrix is consulted by the package step only.  For a pair in
    the matrix that step spawns [npm run gulp -- vscode-<platform>-<arch>];
    for a pair outside it (the platform not being a name every object
    inherits) it logs ["Unsupported platform/arch combination"] and returns
    normally, spawning nothing and leaving the world as it was.  In an
    ['all'] run that happens late: when sync, install and build return,
    their events, with [npm install] and the four build commands handed to
    [execSync] (and [git fetch upstream] first, unless the sync is
    skipped), all come before the package step's two lines. *)
Theorem package_step_checks_matrix (h : Host) (process : Process)
    (this : Manager) (w : World h) :
  (forall p a,
     arg_after "--platform" (process_argv process) = Some p ->
     arg_after "--arch" (process_argv process) = Some a ->
     targetPlatform (constructor process) = p /\ targetArch (constructor process) = a)
  /\ (in_matrix (targetPlatform this) (targetArch this) = true ->
      exists ok t,
        events (Pipeline.packageApplication h this w) =
          (ELog info "Packaging application..."
           :: ELog info ("Executing: npm run gulp -- vscode-"
                         ++ targetPlatform this ++ "-" ++ targetArch this)
           :: EExec ("npm run gulp -- vscode-"
                     ++ targetPlatform this ++ "-" ++ targetArch this)
                (isVerbose this) ok
           :: t))
  /\ (in_matrix (targetPlatform this) (targetArch this) = false ->
      includes (targetPlatform this) objectPrototypeKeys = false ->
      Pipeline.packageApplication h this w =
        (Ok tt, w,
         [ELog info "Packaging application...";
          ELog error ("Unsupported platform/arch combination: "
                      ++ targetPlatform this ++ "/" ++ targetArch this)]))
  /\ (Pipeline.commandArg process = "all" ->
      in_matrix (targetPlatform (constructor process))
                (targetArch (constructor process)) = false ->
      includes (targetPlatform (constructor process)) objectPrototypeKeys = false ->
      forall ws ts wi ti wb tb,
        Pipeline.syncWithUpstream h (constructor process) w = (Ok tt, ws, ts) ->
        Pipeline.installDependencies h (constructor process) ws = (Ok tt, wi, ti) ->
        Pipeline.buildCursorClone h (constructor process) wi = (Ok tt, wb, tb) ->
        (exists rest,
           events (Pipeline.main h process w) =
             (ts ++ ti ++ tb
              ++ ELog info "Packaging application..."
              :: ELog error ("Unsupported platform/arch combination: "
                             ++ targetPlatform (constructor process) ++ "/"
                             ++ targetArch (constructor process))
              :: rest)%list)
        /\ spawned (ti ++ tb)%list =
             [ "npm install"; "npm run clean"; "npm run compile";
               "npm run compile-extensions"; "npm run download-builtin-extensions" ]
        /\ (skipSync (constructor process) = false ->
            hd_error (spawned ts) = Some "git fetch upstream")).
Proof.
  split; [|split; [|split]].
  - intros p a Hp Ha. unfold constructor, getPlatformArg, getArchArg. cbn.
    now rewrite Hp, Ha.
  - intros Hin.
    assert (Hproto : includes (targetPlatform this) objectPrototypeKeys = false).
    { unfold in_matrix in Hin. apply andb_true_iff in Hin. destruct Hin as [Hp _].
      rewrite !includes_cons in Hp. cbn [includes existsb] in Hp.
      rewrite orb_false_r in Hp.
      repeat (apply orb_true_iff in Hp; destruct Hp as [Hp|Hp]);
        apply String.eqb_eq in Hp; rewrite Hp; reflexivity. }
    unfold Pipeline.packageApplication. rewrite log_bind. cbn [events snd].
    cbv zeta. unfold bind at 1. rewrite (unsupported_matrix _ _ _ Hproto), Hin.
    cbn [negb].
    unfold in_matrix in Hin. apply andb_true_iff in Hin. destruct Hin as [Hp _].
    rewrite !includes_cons in Hp. cbn [includes existsb] in Hp.
    rewrite orb_false_r in Hp.
    unfold Pipeline.execCommand, bind, try_catch, log, emit, env_set, execSync, ret.
    repeat (apply orb_true_iff in Hp; destruct Hp as [Hp|Hp]);
      apply String.eqb_eq in Hp; rewrite Hp; cbn [String.eqb Ascii.eqb Bool.eqb];
      match goal with
      | |- context [spawn h ?c ?i ?x] => destruct (spawn h c i x) as [[out|e] w']
      end; cbn; eexists _, _; reflexivity.
  - intros Hout Hproto.
    unfold Pipeline.packageApplication, bind, log, emit. cbv beta iota zeta.
    rewrite (unsupported_matrix _ _ _ Hproto), Hout. reflexivity.
  - intros Hcmd Hout Hproto ws ts wi ti wb tb Hs Hi Hb.
    assert (Hp : Pipeline.packageApplication h (constructor process) wb =
              (Ok tt, wb,
               [ELog info "Packaging application...";
                ELog error ("Unsupported platform/arch combination: "
                            ++ targetPlatform (constructor process) ++ "/"
                            ++ targetArch (constructor process))])).
    { unfold Pipeline.packageApplication, bind, log, emit. cbv beta iota zeta.
      rewrite (unsupported_matrix _ _ _ Hproto), Hout. reflexivity. }
    split; [|split].
    + unfold Pipeline.main, Pipeline.run. rewrite Hcmd.
      change (Pipeline.dispatch h (constructor process) "all")
        with (Pipeline.runAll h (constructor process)).
      match goal with
      | |- context [events (try_catch ?m ?handler w)] =>
          destruct (events_try_catch_prefix m handler w) as [r1 ->]
      end.
      unfold Pipeline.runAll.
      erewrite bind_Ok by exact Hs. erewrite bind_Ok by exact Hi.
      erewrite bind_Ok by exact Hb. erewrite bind_Ok by exact Hp.
      cbn [events snd]. eexists.
      rewrite <- !app_assoc. cbn [app]. reflexivity.
    + pose proof (install_spawned (constructor process) ws) as Hinstall.
      rewrite Hi in Hinstall. cbn [events snd] in Hinstall.
      now rewrite spawned_app, Hinstall, (build_spawned _ _ _ _ Hb).
    + intros Hskip.
      pose proof (sync_first_spawn (constructor process) w Hskip) as Hfirst.
      now rewrite Hs in Hfirst.
Qed.

Lemma package_step_checks_matrix_witness :
  Pipeline.packageApplication (Sample.host Sample.healthy)
    (constructor (Sample.node ["package"; "--platform"; "freebsd"])) Sample.fresh =
    (Ok tt, Sample.fresh,
     [ELog info "Packaging application...";
      ELog error "Unsupported platform/arch combination: freebsd/x64"])
  /\ (exists ok t,
       events (Pipeline.packageApplication (Sample.host Sample.healthy)
         (constructor (Sample.node ["package"; "--platform"; "linux"; "--arch"; "arm64"]))
         Sample.fresh) =
       (ELog info "Packaging application..."
        :: ELog info "Executing: npm run gulp -- vscode-linux-arm64"
        :: EExec "npm run gulp -- vscode-linux-arm64" false ok :: t))
  /\ exists rest,
       events (Pipeline.main (Sample.host Sample.healthy)
                 (Sample.node ["all"; "--platform"; "freebsd"]) Sample.fresh) =
       (events (Pipeline.syncWithUpstream (Sample.host Sample.healthy)
                  (constructor (Sample.node ["all"; "--platform"; "freebsd"]))
                  Sample.fresh)
        ++ events (Pipeline.installDependencies (Sample.host Sample.healthy)
                     (constructor (Sample.node ["all"; "--platform"; "freebsd"]))
                     Sample.fresh)
        ++ events (Pipeline.buildCursorClone (Sample.host Sample.healthy)
                     (constructor (Sample.node ["all"; "--platform"; "freebsd"]))
                     Sample.fresh)
        ++ ELog info "Packaging application..."
        :: ELog error "Unsupported platform/arch combination: freebsd/x64"
        :: rest)%list.
Proof.
  split; [|split].
  - apply (proj1 (proj2 (proj2 (package_step_checks_matrix (Sample.host Sample.healthy)
      (Sample.node [])
      (constructor (Sample.node ["package"; "--platform"; "freebsd"]))
      Sample.fresh)))); reflexivity.
  - apply (proj1 (proj2 (package_step_checks_matrix (Sample.host Sample.healthy) (Sample.node [])
      (constructor (Sample.node ["package"; "--platform"; "linux"; "--arch"; "arm64"]))
      Sample.fresh))). reflexivity.
  - apply (proj1 (proj2 (proj2 (proj2 (package_step_checks_matrix
      (Sample.host Sample.healthy) (Sample.node ["all"; "--platform"; "freebsd"])
      (constructor (Sample.node ["all"; "--platform"; "freebsd"])) Sample.fresh)))
      eq_refl eq_refl eq_refl
      Sample.fresh _ Sample.fresh _ Sample.fresh _ eq_refl eq_refl eq_refl)).
Defined.

(** C3, as stated, fails: [--platform freebsd] is outside the matrix, yet
    the manager is constructed, the ['all'] run spawns its child processes
    from the sync step on, and the process ends with status 0. *)
Lemma unsupported_platform_is_not_fatal :
  in_matrix
    (targetPlatform (constructor (Sample.node ["all"; "--platform"; "freebsd"])))
    (targetArch (constructor (Sample.node ["all"; "--platform"; "freebsd"]))) = false
  /\ hd_error (spawned (events (Pipeline.main (Sample.host Sample.healthy)
       (Sample.node ["all"; "--platform"; "freebsd"]) Sample.fresh))) =
     Some "git fetch upstream"
  /\ outcome (Pipeline.main (Sample.host Sample.healthy)
       (Sample.node ["all"; "--platform"; "freebsd"]) Sample.fresh) = Ok tt
  /\ exit_code (outcome (Pipeline.main (Sample.host Sample.healthy)
       (Sample.node ["all"; "--platform"; "freebsd"]) Sample.fresh)) = 0.
Proof. repeat split; vm_compute; reflexivity. Qed.

(** ** Running one command *)

(** C4, as the code has it.  When the child process fails, [execCommand]
    logs the command, logs the failure at error level and throws the very
    error [execSync] raised to its caller; no result value is returned.
    This holds for both build managers, which differ in the lines logged. *)
Theorem execCommand_rethrows (h : Host) (this : Manager) (command : string)
    (w w' : World h) (e : JsError) :
  spawn h command (isVerbose this) w = (Failed e, w') ->
  Pipeline.execCommand h this command w =
    (Throw e, w',
     [ELog info ("Executing: " ++ command);
      EExec command (isVerbose this) false;
      ELog error ("Command failed: " ++ message e)])
  /\ FlagBuild.execCommand h this command w =
    (Throw e, w',
     [ELog info ("Executing: " ++ command);
      EExec command (isVerbose this) false;
      ELog error ("Command failed: " ++ command);
      ELog error (message e)]).
Proof.
  intros Hspawn.
  unfold Pipeline.execCommand, FlagBuild.execCommand, bind, try_catch, log, emit,
    execSync, throw.
  rewrite Hspawn. split; reflexivity.
Qed.

Lemma execCommand_rethrows_witness :
  Pipeline.execCommand (Sample.host (Sample.with_failing ["npm install"] Sample.healthy))
    (constructor (Sample.node ["install"])) "npm install" Sample.fresh =
    (Throw (mkError "Command failed: npm install"), Sample.fresh,
     [ELog info "Executing: npm install";
      EExec "npm install" false false;
      ELog error "Command failed: Command failed: npm install"]).
Proof.
  apply (proj1 (execCommand_rethrows
    (Sample.host (Sample.with_failing ["npm install"] Sample.healthy))
    (constructor (Sample.node ["install"])) "npm install" Sample.fresh Sample.fresh
    (mkError "Command failed: npm install") eq_refl)).
Defined.

(** C4, as stated, fails: a failing [npm install] makes [execCommand] throw
    instead of returning a result. *)
Lemma execCommand_throws_on_failure :
  outcome (Pipeline.execCommand
    (Sample.host (Sample.with_failing ["npm install"] Sample.healthy))
    (constructor (Sample.node ["install"])) "npm install" Sample.fresh) =
    Throw (mkError "Command failed: npm install")
  /\ is_ok (outcome (Pipeline.execCommand
    (Sample.host (Sample.with_failing ["npm install"] Sample.healthy))
    (constructor (Sample.node ["install"])) "npm install" Sample.fresh)) = false.
Proof. split; vm_compute; reflexivity. Qed.

(** ** The run in which nothing goes wrong *)

Section HealthyRun.
Context {h : Host}.
Variable this : Manager.

Import Pipeline.

(** The sync step is skipped, or the output of its commands is captured. *)
Hypothesis captured : isVerbose this = false \/ skipSync this = true.

(** The platform is not a name [PLATFORMS] inherits. *)
Hypothesis plain_platform :
  includes (targetPlatform this) objectPrototypeKeys = false.

Lemma Steady_log msg lvl : Steady (h := h) anything (log msg lvl).
Proof. now apply Steady_emit. Qed.

Lemma Steady_ret_any {A} (a : A) : Steady (h := h) anything (ret a).
Proof. now apply Steady_ret. Qed.

(** [execCommand] returns unless its child fails, and returns the captured
    output unless the run is verbose. *)
Lemma Steady_execCommand cmd :
  Steady (fun out => isVerbose this = false -> out <> None) (execCommand h this cmd).
Proof.
  intros w. unfold execCommand, bind, try_catch, log, emit, execSync.
  destruct (spawn h cmd (isVerbose this) w) as [[out|e] w']; cbn.
  - intros _. eexists _, _, _. split; [reflexivity|].
    intros Hv. now rewrite Hv.
  - discriminate.
Qed.

Lemma Steady_execCommand_any cmd : Steady anything (execCommand h this cmd).
Proof. eapply Steady_weaken; [apply Steady_execCommand|easy]. Qed.

Lemma Steady_js_trim out : out <> None -> Steady (h := h) anything (js_trim out).
Proof. intros Hout. destruct out; [|easy]. now apply Steady_ret. Qed.

Lemma Steady_env_set k v : Steady anything (env_set h k v).
Proof. intros w _. now eexists _, _, _. Qed.

Lemma Steady_Date_now : Steady anything (Date_now h).
Proof. intros w _. now eexists _, _, _. Qed.

Local Ltac steady :=
  repeat first
    [ apply Steady_log | apply Steady_execCommand_any
    | apply Steady_env_set | apply Steady_Date_now
    | apply Steady_ret_any
    | apply Steady_try_catch
    | eapply Steady_bind; [|intros ? ?]
    | match goal with
      | |- Steady _ (if ?b then _ else _) => destruct b
      | |- Steady _ (match ?x with _ => _ end) => destruct x
      end
    | progress cbv zeta ].

Lemma sync_completes : Steady anything (syncWithUpstream h this).
Proof.
  unfold syncWithUpstream. destruct (skipSync this) eqn:Eskip; [apply Steady_log|].
  destruct captured as [Hquiet|]; [|discriminate].
  eapply Steady_bind; [apply Steady_log|intros _ _].
  apply Steady_try_catch.
  eapply Steady_bind; [apply Steady_execCommand_any|intros _ _].
  eapply Steady_bind; [apply Steady_execCommand|intros out Hout].
  eapply Steady_bind; [apply Steady_js_trim; auto|intros currentBranch _].
  steady.
Qed.

Lemma install_completes : Steady anything (installDependencies h this).
Proof. unfold installDependencies. steady. Qed.

Lemma build_completes : Steady anything (buildCursorClone h this).
Proof. unfold buildCursorClone. steady. Qed.

Lemma package_completes : Steady anything (packageApplication h this).
Proof.
  unfold packageApplication.
  eapply Steady_bind; [apply Steady_log|intros _ _]. cbv zeta.
  eapply (Steady_bind anything).
  - intros w _. rewrite (unsupported_matrix _ _ _ plain_platform). now eexists _, _, _.
  - intros bad _. steady.
Qed.

(** The archive step for linux, in a world where [package.json] loads with
    a version that converts to text and the releases directory can be
    made. *)
Lemma archive_completes w pkg :
  targetPlatform this = "linux" ->
  require_json h "./package.json" w = Returned pkg ->
  pkg <> JNull -> pkg <> JUndefined ->
  text_throws (js_prop pkg "version") = false ->
  fst (mkdirSync h
         (path_dirname h (path_join h
            [rootDir this; "releases";
             "CursorClone-" ++ to_text h (js_prop pkg "version") ++ "-linux-"
             ++ targetArch this ++ ".tar.gz"])) w) = Returned tt ->
  has_failed_exec (events (createArchive h this w)) = false ->
  outcome (createArchive h this w) = Ok tt.
Proof.
  intros Hplat Hpkg Hn Hu Htext Hmk.
  assert (Hget : js_get (h := h) pkg "version" w = (Ok (js_prop pkg "version"), w, [])).
  { destruct pkg; try reflexivity; congruence. }
  unfold createArchive, archiveSelection, template, execCommand, bind, try_catch,
    log, emit, js_require, fs_existsSync, fs_mkdirSync, execSync, ret, throw.
  cbv zeta. rewrite Hplat, Hpkg. cbn [lift_try String.eqb Ascii.eqb Bool.eqb].
  rewrite Hget, Htext. cbn [option_map snd].
  destruct (existsSync h _ w); [|reflexivity].
  destruct (mkdirSync h _ w) as [r wm]. cbn [fst] in Hmk. subst r. cbn [lift_try].
  destruct (spawn h _ (isVerbose this) wm) as [[out|e] ws]; cbn;
    [reflexivity|discriminate].
Qed.

Lemma checkRequired_verdict files w :
  exists b t, checkRequired h this files w = (Ok b, w, t).
Proof.
  induction files as [|file rest IH]; [now exists true, []|].
  cbn [checkRequired]. unfold bind at 1, fs_existsSync.
  destruct (existsSync h (path_join h [rootDir this; file]) w); cbn [negb].
  - destruct IH as (b & t & ->). now exists b, t.
  - now eexists _, _.
Qed.

(** The validate step in a world where [product.json] parses. *)
Lemma validate_completes w product :
  read_json h (path_join h [rootDir this; "product.json"]) w = Returned product ->
  product <> JNull -> product <> JUndefined ->
  exists valid t, validateBuild h this w = (Ok valid, w, t).
Proof.
  intros Hread Hn Hu.
  assert (Hget : js_get (h := h) product "applicationName" w =
                   (Ok (js_prop product "applicationName"), w, [])).
  { destruct product; try reflexivity; congruence. }
  unfold validateBuild. rewrite log_bind.
  destruct (checkRequired_verdict requiredFiles w) as (present & t & Hreq).
  erewrite bind_Ok by exact Hreq.
  destruct present; cbn [negb]; [|now eexists _, _].
  erewrite bind_Ok by (unfold fs_read_json; now rewrite Hread).
  erewrite bind_Ok by exact Hget.
  destruct (strict_neq _ _); now eexists _, _.
Qed.

(** The whole pipeline returns, having started the six steps in order and
    closed with its final line, when none of its own child processes
    fails, [package.json] loads where the archive step starts and
    [product.json] parses where the validate step starts. *)
Lemma runAll_completes w pkg product :
  let w1 := world_of (syncWithUpstream h this w) in
  let w2 := world_of (installDependencies h this w1) in
  let w3 := world_of (buildCursorClone h this w2) in
  let w4 := world_of (packageApplication h this w3) in
  let w5 := world_of (createArchive h this w4) in
  targetPlatform this = "linux" ->
  has_failed_exec (events (runAll h this w)) = false ->
  require_json h "./package.json" w4 = Returned pkg ->
  pkg <> JNull -> pkg <> JUndefined ->
  text_throws (js_prop pkg "version") = false ->
  fst (mkdirSync h
         (path_dirname h (path_join h
            [rootDir this; "releases";
             "CursorClone-" ++ to_text h (js_prop pkg "version") ++ "-linux-"
             ++ targetArch this ++ ".tar.gz"])) w4) = Returned tt ->
  read_json h (path_join h [rootDir this; "product.json"]) w5 = Returned product ->
  product <> JNull -> product <> JUndefined ->
  exists w' t,
    runAll h this w =
      (Ok tt, w', (t ++ [ELog info "Complete build pipeline finished"])%list)
    /\ steps_started (t ++ [ELog info "Complete build pipeline finished"])%list =
         [Sync; Install; Build; Package; Archive; Validate].
Proof.
  intros w1 w2 w3 w4 w5 Hplat Hf Hpkg Hpn Hpu Htext Hmk Hprod Hn Hu.
  unfold runAll in Hf.
  assert (Hstep : forall (m : M h unit) (k : unit -> M h unit) w0,
            Steady anything m ->
            has_failed_exec (events (bind m k w0)) = false ->
            exists t, m w0 = (Ok tt, world_of (m w0), t)
                      /\ has_failed_exec (events (k tt (world_of (m w0)))) = false).
  { intros m k w0 Hm Hbind.
    destruct (events_bind_prefix m k w0) as [rest Hrest].
    assert (Hm0 : has_failed_exec (events (m w0)) = false).
    { rewrite Hrest, has_failed_exec_app in Hbind.
      now apply orb_false_iff in Hbind. }
    destruct (Hm w0 Hm0) as ([] & w' & t & E & _).
    exists t. rewrite E. split; [reflexivity|].
    rewrite (bind_Ok _ _ _ _ _ _ E) in Hbind. cbn [events snd] in Hbind.
    rewrite has_failed_exec_app in Hbind. now apply orb_false_iff in Hbind. }
  destruct (Hstep _ _ _ sync_completes Hf) as (ts & Es & Hf1). fold w1 in Es, Hf1.
  destruct (Hstep _ _ _ install_completes Hf1) as (ti & Ei & Hf2). fold w2 in Ei, Hf2.
  destruct (Hstep _ _ _ build_completes Hf2) as (tb & Eb & Hf3). fold w3 in Eb, Hf3.
  destruct (Hstep _ _ _ package_completes Hf3) as (tp & Ep & Hf4). fold w4 in Ep, Hf4.
  assert (Ea : exists ta, createArchive h this w4 = (Ok tt, w5, ta)).
  { match type of Hf4 with
    | has_failed_exec (events (bind ?m ?k _)) = _ =>
        destruct (events_bind_prefix m k w4) as [rest Hrest]
    end.
    rewrite Hrest, has_failed_exec_app in Hf4. apply orb_false_iff in Hf4.
    pose proof (archive_completes w4 pkg Hplat Hpkg Hpn Hpu Htext Hmk (proj1 Hf4)) as Ho.
    exists (events (createArchive h this w4)).
    rewrite (triple_eta (createArchive h this w4)) at 1. now rewrite Ho. }
  destruct Ea as (ta & Ea).
  destruct (validate_completes w5 product Hprod Hn Hu) as (valid & tv & Ev).
  exists w5, (ts ++ ti ++ tb ++ tp ++ ta ++ tv)%list. split.
  - unfold runAll.
    erewrite bind_Ok by exact Es. erewrite bind_Ok by exact Ei.
    erewrite bind_Ok by exact Eb. erewrite bind_Ok by exact Ep.
    erewrite bind_Ok by exact Ea. erewrite bind_Ok by exact Ev.
    cbn. now rewrite <- !app_assoc.
  - pose proof (steps_sync this w) as Hs. pose proof (steps_install this w1) as Hi.
    pose proof (steps_build this w2) as Hb. pose proof (steps_package this w3) as Hp.
    pose proof (steps_archive this w4) as Ha. pose proof (steps_validate this w5) as Hv.
    rewrite Es in Hs. rewrite Ei in Hi. rewrite Eb in Hb. rewrite Ep in Hp.
    rewrite Ea in Ha. rewrite Ev in Hv. cbn [events snd] in *.
    rewrite !steps_started_app, Hs, Hi, Hb, Hp, Ha, Hv. reflexivity.
Qed.

End HealthyRun.

(** C5, as the code has it.  For the target (linux, arm64), when none of
    the child processes the run spawns fails, the sync step is skipped or
    runs with captured output, [package.json] loads in the world the
    archive step starts in, with a version a template literal can convert,
    the releases directory can be made there, and [product.json] parses in
    the world the validate step starts in, the ['all'] run starts the six
    steps in the order sync, install, build, package, archive, validate,
    ends with the line ["Complete build pipeline finished"], returns
    normally, and the process exits with status 0. *)
Theorem full_pipeline_succeeds (h : Host) (process : Process) (w : World h)
    (pkg product : JsVal) :
  let this := constructor process in
  let w1 := world_of (Pipeline.syncWithUpstream h this w) in
  let w2 := world_of (Pipeline.installDependencies h this w1) in
  let w3 := world_of (Pipeline.buildCursorClone h this w2) in
  let w4 := world_of (Pipeline.packageApplication h this w3) in
  let w5 := world_of (Pipeline.createArchive h this w4) in
  Pipeline.commandArg process = "all" ->
  targetPlatform this = "linux" ->
  targetArch this = "arm64" ->
  has_failed_exec (events (Pipeline.main h process w)) = false ->
  (isVerbose this = false \/ skipSync this = true) ->
  require_json h "./package.json" w4 = Returned pkg ->
  pkg <> JNull -> pkg <> JUndefined ->
  text_throws (js_prop pkg "version") = false ->
  fst (mkdirSync h
         (path_dirname h (path_join h
            [rootDir this; "releases";
             "CursorClone-" ++ to_text h (js_prop pkg "version")
             ++ "-linux-arm64.tar.gz"])) w4) = Returned tt ->
  read_json h (path_join h [rootDir this; "product.json"]) w5 = Returned product ->
  product <> JNull -> product <> JUndefined ->
  outcome (Pipeline.main h process w) = Ok tt
  /\ exit_code (outcome (Pipeline.main h process w)) = 0
  /\ Pipeline.steps_started (events (Pipeline.main h process w)) =
       [Pipeline.Sync; Pipeline.Install; Pipeline.Build;
        Pipeline.Package; Pipeline.Archive; Pipeline.Validate]
  /\ last (events (Pipeline.main h process w)) EUsage =
       ELog info "Complete build pipeline finished".
Proof.
  intros this w1 w2 w3 w4 w5 Hcmd Hplat Harch Hf Hcap Hpkg Hpn Hpu Htext Hmk
    Hprod Hn Hu.
  assert (Hplain : includes (targetPlatform this) objectPrototypeKeys = false)
    by now rewrite Hplat.
  assert (Hbody : has_failed_exec (events (Pipeline.runAll h this w)) = false).
  { unfold Pipeline.main, Pipeline.run in Hf. rewrite Hcmd in Hf.
    change (Pipeline.dispatch h (constructor process) "all")
      with (Pipeline.runAll h this) in Hf.
    destruct (events_try_catch_prefix (Pipeline.runAll h this)
                (fun e => log ("Build failed: " ++ message e) error ;; process_exit 1)
                w) as [rest Hrest].
    rewrite Hrest, has_failed_exec_app in Hf. now apply orb_false_iff in Hf. }
  assert (Hmk' : fst (mkdirSync h
            (path_dirname h (path_join h
               [rootDir this; "releases";
                "CursorClone-" ++ to_text h (js_prop pkg "version") ++ "-linux-"
                ++ targetArch this ++ ".tar.gz"])) w4) = Returned tt)
    by (rewrite Harch; exact Hmk).
  destruct (runAll_completes this Hcap Hplain w pkg product Hplat Hbody Hpkg Hpn Hpu
              Htext Hmk' Hprod Hn Hu) as (w' & t & Hrun & Hsteps).
  assert (Hmain : Pipeline.main h process w =
            (Ok tt, w', (t ++ [ELog info "Complete build pipeline finished"])%list)).
  { unfold Pipeline.main, Pipeline.run. rewrite Hcmd.
    change (Pipeline.dispatch h (constructor process) "all")
      with (Pipeline.runAll h this).
    now apply try_catch_Ok. }
  rewrite Hmain. cbn [outcome events fst snd exit_code].
  repeat split; [exact Hsteps|apply last_last].
Qed.

Lemma full_pipeline_succeeds_witness :
  exit_code (outcome (Pipeline.main (Sample.host Sample.healthy)
    (Sample.node ["all"; "--platform"; "linux"; "--arch"; "arm64"]) Sample.fresh)) = 0
  /\ Pipeline.steps_started (events (Pipeline.main (Sample.host Sample.healthy)
    (Sample.node ["all"; "--platform"; "linux"; "--arch"; "arm64"]) Sample.fresh)) =
       [Pipeline.Sync; Pipeline.Install; Pipeline.Build;
        Pipeline.Package; Pipeline.Archive; Pipeline.Validate].
Proof.
  destruct (full_pipeline_succeeds (Sample.host Sample.healthy)
              (Sample.node ["all"; "--platform"; "linux"; "--arch"; "arm64"])
              Sample.fresh Sample.goodPackage Sample.goodProduct)
    as (_ & Hexit & Hsteps & _).
  - reflexivity.
  - reflexivity.
  - reflexivity.
  - vm_compute. reflexivity.
  - left. reflexivity.
  - reflexivity.
  - discriminate.
  - discriminate.
  - reflexivity.
  - reflexivity.
  - reflexivity.
  - discriminate.
  - discriminate.
  - split; assumption.
Defined.

(** C5, as stated, fails: for the target (linux, arm64), with every child
    process succeeding, a [product.json] that does not parse makes the
    validate step throw; the six steps have started, but the run is not
    marked successful and the process exits with status 1. *)
Lemma unparsable_product_json_fails_run :
  targetPlatform (constructor
    (Sample.node ["all"; "--platform"; "linux"; "--arch"; "arm64"])) = "linux"
  /\ targetArch (constructor
    (Sample.node ["all"; "--platform"; "linux"; "--arch"; "arm64"])) = "arm64"
  /\ has_failed_exec (events (Pipeline.main
       (Sample.host (Sample.with_product
          (Raised (mkError "Unexpected end of JSON input")) Sample.healthy))
       (Sample.node ["all"; "--platform"; "linux"; "--arch"; "arm64"])
       Sample.fresh)) = false
  /\ Pipeline.steps_started (events (Pipeline.main
       (Sample.host (Sample.with_product
          (Raised (mkError "Unexpected end of JSON input")) Sample.healthy))
       (Sample.node ["all"; "--platform"; "linux"; "--arch"; "arm64"])
       Sample.fresh)) =
       [Pipeline.Sync; Pipeline.Install; Pipeline.Build;
        Pipeline.Package; Pipeline.Archive; Pipeline.Validate]
  /\ last (events (Pipeline.main
       (Sample.host (Sample.with_product
          (Raised (mkError "Unexpected end of JSON input")) Sample.healthy))
       (Sample.node ["all"; "--platform"; "linux"; "--arch"; "arm64"])
       Sample.fresh)) EUsage =
       ELog error "Build failed: Unexpected end of JSON input"
  /\ exit_code (outcome (Pipeline.main
       (Sample.host (Sample.with_product
          (Raised (mkError "Unexpected end of JSON input")) Sample.healthy))
       (Sample.node ["all"; "--platform"; "linux"; "--arch"; "arm64"])
       Sample.fresh)) = 1.
Proof. repeat split; vm_compute; reflexivity. Qed.

(** A version that no template literal can show: [package.json] holds
    [{"version": {"toString": null}}].  Every child process succeeds, yet
    the archive step throws when it builds the archive's name, and the run
    exits with status 1. *)
Example unshowable_version_fails_run :
  exit_code (outcome (Pipeline.main
    (Sample.host
       {| Sample.failing := []; Sample.missing := [];
          Sample.product := Returned Sample.goodProduct;
          Sample.package :=
            Returned (JObj [("version", JObj [("toString", JNull)])]) |})
    (Sample.node ["all"; "--platform"; "linux"; "--arch"; "arm64"])
    Sample.fresh)) = 1
  /\ last (events (Pipeline.main
       (Sample.host
          {| Sample.failing := []; Sample.missing := [];
             Sample.product := Returned Sample.goodProduct;
             Sample.package :=
               Returned (JObj [("version", JObj [("toString", JNull)])]) |})
       (Sample.node ["all"; "--platform"; "linux"; "--arch"; "arm64"])
       Sample.fresh)) EUsage =
     ELog error "Build failed: Cannot convert object to primitive value".
Proof. split; vm_compute; reflexivity. Qed.

(** With [--verbose] nothing is captured: [execSync] returns [null], the
    branch name cannot be trimmed, and the sync step throws a [TypeError]
    although both of its child processes succeeded. *)
Example verbose_sync_throws :
  Pipeline.main (Sample.host Sample.healthy) (Sample.node ["sync"; "--verbose"])
    Sample.fresh =
    (Exit 1, Sample.fresh,
     [ELog info "Syncing with upstream VS Code...";
      ELog info "Executing: git fetch upstream";
      EExec "git fetch upstream" true true;
      ELog info "Executing: git branch --show-current";
      EExec "git branch --show-current" true true;
      ELog error "Failed to sync with upstream. Please resolve conflicts manually.";
      ELog error "Build failed: Cannot read properties of null (reading 'trim')"]).
Proof. vm_compute. reflexivity. Qed.

(** ** Skipping the sync step *)

(** [execCommand] logs the command and hands it to [execSync], whatever
    follows. *)
Lemma execCommand_events {h : Host} this cmd w :
  exists ok t,
    events (Pipeline.execCommand h this cmd w) =
      ELog info ("Executing: " ++ cmd) :: EExec cmd (isVerbose this) ok :: t.
Proof.
  unfold Pipeline.execCommand, bind, try_catch, log, emit, execSync.
  destruct (spawn h cmd (isVerbose this) w) as [[out|e] w']; cbn;
    eexists _, _; reflexivity.
Qed.

(** C6.  With [--skip-sync] on the command line the sync step logs that it
    is skipped and returns at once: it spawns no child process and leaves
    the world untouched, in both build managers.  In the ['all'] pipeline
    the next events are the install step's: its opening line, then
    [npm install] handed to [execSync] as the first child process of the
    run. *)
Theorem skip_sync_spawns_nothing (h : Host) (process : Process) (w : World h) :
  includes "--skip-sync" (process_argv process) = true ->
  Pipeline.syncWithUpstream h (constructor process) w =
    (Ok tt, w, [ELog info "Skipping upstream sync as requested"])
  /\ FlagBuild.syncWithUpstream h (constructor process) w =
    (Ok tt, w, [ELog info "Skipping upstream sync as requested"])
  /\ spawned (events (Pipeline.syncWithUpstream h (constructor process) w)) = []
  /\ (Pipeline.commandArg process = "all" ->
      exists ok t,
        events (Pipeline.main h process w) =
          ELog info "Skipping upstream sync as requested"
          :: ELog info "Installing dependencies..."
          :: ELog info "Executing: npm install"
          :: EExec "npm install" (isVerbose (constructor process)) ok
          :: t).
Proof.
  intros Hskip.
  assert (Hsync : Pipeline.syncWithUpstream h (constructor process) w =
            (Ok tt, w, [ELog info "Skipping upstream sync as requested"])).
  { unfold Pipeline.syncWithUpstream, constructor. cbn [skipSync].
    now rewrite Hskip. }
  split; [exact Hsync|]. split.
  { unfold FlagBuild.syncWithUpstream, constructor. cbn [skipSync].
    now rewrite Hskip. }
  split; [now rewrite Hsync|].
  intros Hcmd. unfold Pipeline.main, Pipeline.run. rewrite Hcmd.
  change (Pipeline.dispatch h (constructor process) "all")
    with (Pipeline.runAll h (constructor process)).
  destruct (events_try_catch_prefix (Pipeline.runAll h (constructor process))
    (fun e => log ("Build failed: " ++ message e) error ;; process_exit 1) w)
    as [t1 ->].
  unfold Pipeline.runAll. rewrite (bind_Ok _ _ _ _ _ _ Hsync). cbn [events snd].
  match goal with
  | |- context [events (bind ?m ?k w)] =>
      destruct (events_bind_prefix m k w) as [t2 ->]
  end.
  unfold Pipeline.installDependencies. rewrite log_bind. cbn [events snd].
  match goal with
  | |- context [events (bind ?m ?k w)] =>
      destruct (events_bind_prefix m k w) as [t3 ->]
  end.
  destruct (execCommand_events (constructor process) "npm install" w)
    as (ok & t4 & ->).
  exists ok. eexists. cbn. rewrite <- !app_assoc. reflexivity.
Qed.

Lemma skip_sync_spawns_nothing_witness :
  spawned (events (Pipeline.syncWithUpstream (Sample.host Sample.healthy)
    (constructor (Sample.node ["all"; "--skip-sync"])) Sample.fresh)) = []
  /\ exists ok t,
       events (Pipeline.main (Sample.host Sample.healthy)
         (Sample.node ["all"; "--skip-sync"]) Sample.fresh) =
         ELog info "Skipping upstream sync as requested"
         :: ELog info "Installing dependencies..."
         :: ELog info "Executing: npm install"
         :: EExec "npm install" false ok
         :: t.
Proof.
  destruct (skip_sync_spawns_nothing (Sample.host Sample.healthy)
              (Sample.node ["all"; "--skip-sync"]) Sample.fresh eq_refl)
    as (_ & _ & Hnone & Hnext).
  split; [exact Hnone|]. apply Hnext. reflexivity.
Defined.

(** ** Repeating a command *)

(** The verdict of [execCommand] is the child's, nothing is remembered. *)
Lemma execCommand_verdict {h : Host} this cmd w :
  is_ok (outcome (Pipeline.execCommand h this cmd w)) =
    proc_ok (fst (spawn h cmd (isVerbose this) w))
  /\ world_of (Pipeline.execCommand h this cmd w) =
       snd (spawn h cmd (isVerbose this) w).
Proof.
  unfold Pipeline.execCommand, bind, try_catch, log, emit, execSync.
  destruct (spawn h cmd (isVerbose this) w) as [[out|e] w']; split; reflexivity.
Qed.

(** C8.  Run [execCommand] on a command, then again on the same command in
    the world the first run left.  If the executor treats the command the
    same way in that world (the external state is unchanged), the two runs
    agree on success; if the child even ends the same way, output or error
    included, the two runs return or throw the same and log the same. *)
Theorem execCommand_repeatable (h : Host) (this : Manager) (command : string)
    (w : World h) :
  proc_ok (fst (spawn h command (isVerbose this)
                  (world_of (Pipeline.execCommand h this command w)))) =
    proc_ok (fst (spawn h command (isVerbose this) w)) ->
  is_ok (outcome (Pipeline.execCommand h this command
                    (world_of (Pipeline.execCommand h this command w)))) =
    is_ok (outcome (Pipeline.execCommand h this command w))
  /\ (fst (spawn h command (isVerbose this)
             (world_of (Pipeline.execCommand h this command w))) =
        fst (spawn h command (isVerbose this) w) ->
      outcome (Pipeline.execCommand h this command
                 (world_of (Pipeline.execCommand h this command w))) =
        outcome (Pipeline.execCommand h this command w)
      /\ events (Pipeline.execCommand h this command
                   (world_of (Pipeline.execCommand h this command w))) =
           events (Pipeline.execCommand h this command w)).
Proof.
  intros Hsame. split.
  - rewrite (proj1 (execCommand_verdict this command w)).
    rewrite (proj1 (execCommand_verdict this command _)).
    exact Hsame.
  - set (w1 := world_of (Pipeline.execCommand h this command w)).
    clearbody w1. clear Hsame. intros Hres.
    unfold Pipeline.execCommand, bind, try_catch, log, emit, execSync.
    destruct (spawn h command (isVerbose this) w1) as [r1 w1'].
    destruct (spawn h command (isVerbose this) w) as [r w'].
    cbn in Hres. subst r1. now destruct r.
Qed.

Lemma execCommand_repeatable_witness :
  is_ok (outcome (Pipeline.execCommand
    (Sample.host (Sample.with_failing ["npm test"] Sample.healthy))
    (constructor (Sample.node ["test"])) "npm test"
    (world_of (Pipeline.execCommand
       (Sample.host (Sample.with_failing ["npm test"] Sample.healthy))
       (constructor (Sample.node ["test"])) "npm test" Sample.fresh)))) =
  is_ok (outcome (Pipeline.execCommand
    (Sample.host (Sample.with_failing ["npm test"] Sample.healthy))
    (constructor (Sample.node ["test"])) "npm test" Sample.fresh)).
Proof.
  apply (proj1 (execCommand_repeatable
    (Sample.host (Sample.with_failing ["npm test"] Sample.healthy))
    (constructor (Sample.node ["test"])) "npm test" Sample.fresh eq_refl)).
Defined.

(** ** The archive step *)

Section ArchiveFacts.
Context {h : Host}.
Variable this : Manager.

Import Pipeline.

Lemma events_bind_Ok {A B} (m : M h A) (k : A -> M h B) w a w1 t1 :
  m w = (Ok a, w1, t1) -> events (bind m k w) = (t1 ++ events (k a w1))%list.
Proof. intros E. now rewrite (bind_Ok _ _ _ _ _ _ E). Qed.

Lemma events_bind_Throw {A B} (m : M h A) (k : A -> M h B) w e w1 t1 :
  m w = (Throw e, w1, t1) -> events (bind m k w) = t1.
Proof. intros E. now rewrite (bind_Throw _ _ _ _ _ _ E). Qed.

Lemma execCommand_spawned cmd w : spawned (events (execCommand h this cmd w)) = [cmd].
Proof.
  unfold execCommand, bind, try_catch, log, emit, execSync.
  now destruct (spawn h cmd (isVerbose this) w) as [[out|e] w'].
Qed.

Lemma js_get_defined v key (w : World h) :
  v <> JNull -> v <> JUndefined -> js_get v key w = (Ok (js_prop v key), w, []).
Proof. intros Hn Hu. destruct v; try reflexivity; congruence. Qed.

Lemma js_get_spawned v key (w : World h) : spawned (events (js_get v key w)) = [].
Proof. now destruct v. Qed.

(** The chain selects, or its template literal throws; either way nothing
    is logged and the world stays as it is. *)
Lemma archiveSelection_cases platform arch version (w : World h) :
  (exists selection,
     archiveSelection h this platform arch version w = (Ok selection, w, []))
  \/ (exists e, archiveSelection h this platform arch version w = (Throw e, w, [])).
Proof.
  unfold archiveSelection, template, bind, throw, ret. cbv zeta.
  destruct (platform =? "darwin");
    [|destruct (platform =? "linux"); [|destruct (platform =? "win32")]];
    try destruct (text_throws version); cbn; eauto.
Qed.

(** What the chain selects when the version converts to text. *)
Lemma archiveSelection_text platform arch version (w : World h) :
  text_throws version = false ->
  archiveSelection h this platform arch version w =
    (Ok (if platform =? "darwin" then
           Some ("CursorClone-" ++ to_text h version ++ "-darwin-" ++ arch ++ ".zip",
                 path_join h [path_join h [rootDir this; ".build"]; "VSCode-darwin"])
         else if platform =? "linux" then
           Some ("CursorClone-" ++ to_text h version ++ "-linux-" ++ arch ++ ".tar.gz",
                 path_join h [path_join h [rootDir this; ".build"]; "VSCode-linux-x64"])
         else if platform =? "win32" then
           Some ("CursorClone-" ++ to_text h version ++ "-win32-" ++ arch ++ ".zip",
                 path_join h [path_join h [rootDir this; ".build"]; "VSCode-win32-x64"])
         else None), w, []).
Proof.
  intros Htext. unfold archiveSelection, template, bind, throw, ret. cbv zeta.
  rewrite Htext.
  now destruct (platform =? "darwin"), (platform =? "linux"), (platform =? "win32").
Qed.

(** The archive step spawns nothing, or exactly the archiving command for
    the selected directory, which then exists. *)
Lemma createArchive_spawned w :
  spawned (events (createArchive h this w)) = []
  \/ exists pkg name dir,
       require_json h "./package.json" w = Returned pkg
       /\ archiveSelection h this (targetPlatform this) (targetArch this)
            (js_prop pkg "version") w = (Ok (Some (name, dir)), w, [])
       /\ existsSync h dir w = true
       /\ spawned (events (createArchive h this w)) =
            [archiveCommand h (targetPlatform this)
               (path_join h [rootDir this; "releases"; name]) dir].
Proof.
  unfold createArchive. rewrite log_bind. cbn [events snd]. cbv zeta.
  change (spawned (ELog info "Creating archive..." :: ?t)) with (spawned t).
  destruct (require_json h "./package.json" w) as [pkg|e] eqn:Hpkg.
  2:{ left. now erewrite events_bind_Throw
        by (unfold js_require; now rewrite Hpkg). }
  erewrite events_bind_Ok by (unfold js_require; now rewrite Hpkg).
  cbn [app].
  assert (Hcases : pkg = JNull \/ pkg = JUndefined
                   \/ (pkg <> JNull /\ pkg <> JUndefined)).
  { destruct pkg; auto; right; right; split; discriminate. }
  destruct Hcases as [->|[->|[Hn Hu]]]; [now left|now left|].
  erewrite events_bind_Ok by (now apply js_get_defined). cbn [app].
  destruct (archiveSelection_cases (targetPlatform this) (targetArch this)
              (js_prop pkg "version") w) as [[selection Hsel]|[e Hsel]].
  2:{ left. now erewrite events_bind_Throw by exact Hsel. }
  erewrite events_bind_Ok by exact Hsel. cbn [app].
  destruct selection as [[name dir]|]; [|now left].
  erewrite events_bind_Ok by reflexivity. cbn [app option_map snd].
  destruct (existsSync h dir w) eqn:Hdir; [|now left].
  destruct (mkdirSync h (path_dirname h (path_join h [rootDir this; "releases"; name])) w)
    as [[[]|e] w1] eqn:Hmk.
  2:{ left. now erewrite events_bind_Throw
        by (unfold fs_mkdirSync; now rewrite Hmk). }
  right. exists pkg, name, dir. repeat split; try assumption.
  erewrite events_bind_Ok by (unfold fs_mkdirSync; now rewrite Hmk). cbn [app].
  match goal with
  | |- context [events (bind ?m ?k w1)] =>
      destruct (events_bind_prefix m k w1) as [t Ht];
      assert (Hq : spawned t = [])
  end.
  { match type of Ht with
    | events (bind ?m ?k w1) = _ =>
        destruct (m w1) as [[[a|e|c] w2] t2] eqn:E
    end.
    - rewrite (events_bind_Ok _ _ _ _ _ _ E) in Ht. cbn [events snd] in Ht.
      apply app_inv_head in Ht. now subst t.
    - rewrite (events_bind_Throw _ _ _ _ _ _ E) in Ht. cbn [events snd] in Ht.
      rewrite <- (app_nil_r t2) in Ht at 1. apply app_inv_head in Ht. now subst t.
    - exfalso.
      match type of E with
      | execCommand h this ?cmd w1 = _ =>
          pose proof (NoExit_execCommand this cmd w1 c) as Hne
      end.
      rewrite E in Hne. now apply Hne. }
  rewrite Ht, spawned_app, execCommand_spawned, Hq. reflexivity.
Qed.

(** When [package.json] loads, the chain has selected a directory that
    exists and the releases directory can be made, the step hands exactly
    one command to [execSync]: the one that archives that directory. *)
Lemma createArchive_archives w pkg name dir :
  require_json h "./package.json" w = Returned pkg ->
  pkg <> JNull -> pkg <> JUndefined ->
  archiveSelection h this (targetPlatform this) (targetArch this)
    (js_prop pkg "version") w = (Ok (Some (name, dir)), w, []) ->
  existsSync h dir w = true ->
  fst (mkdirSync h (path_dirname h (path_join h [rootDir this; "releases"; name])) w)
    = Returned tt ->
  spawned (events (createArchive h this w)) =
    [archiveCommand h (targetPlatform this)
       (path_join h [rootDir this; "releases"; name]) dir].
Proof.
  intros Hpkg Hn Hu Hsel Hdir Hmk.
  unfold createArchive. rewrite log_bind. cbn [events snd]. cbv zeta.
  change (spawned (ELog info "Creating archive..." :: ?t)) with (spawned t).
  erewrite events_bind_Ok by (unfold js_require; now rewrite Hpkg).
  erewrite events_bind_Ok by (now apply js_get_defined).
  erewrite events_bind_Ok by exact Hsel.
  erewrite events_bind_Ok by reflexivity. cbn [app option_map snd].
  rewrite Hdir.
  destruct (mkdirSync h (path_dirname h (path_join h [rootDir this; "releases"; name])) w)
    as [r w1] eqn:Emk. cbn [fst] in Hmk. subst r.
  erewrite events_bind_Ok by (unfold fs_mkdirSync; now rewrite Emk). cbn [app].
  unfold execCommand, bind, try_catch, log, emit, execSync.
  now destruct (spawn h _ (isVerbose this) w1) as [[out|e] w2].
Qed.

End ArchiveFacts.


(** C9.  The archive step selects its source directory by platform alone:
    [.build/VSCode-linux-x64] for linux and [.build/VSCode-win32-x64] for
    win32, for every architecture, which appears in the archive's file name
    and nowhere in the directory.  Whatever the step archives on linux is
    that directory, with [tar]; and it does archive it, for every
    architecture, when the directory exists, [package.json] loads with a
    version that converts to text and the releases directory can be made.
    The same holds on win32, with [zip]. *)
Theorem archive_source_ignores_arch (h : Host) (this : Manager) (w : World h) :
  let buildDir := path_join h [rootDir this; ".build"] in
  let linuxDir := path_join h [buildDir; "VSCode-linux-x64"] in
  let win32Dir := path_join h [buildDir; "VSCode-win32-x64"] in
  let tarball := fun version =>
    path_join h [rootDir this; "releases";
                 "CursorClone-" ++ version ++ "-linux-" ++ targetArch this
                 ++ ".tar.gz"] in
  let zipfile := fun version =>
    path_join h [rootDir this; "releases";
                 "CursorClone-" ++ version ++ "-win32-" ++ targetArch this
                 ++ ".zip"] in
  let tar := fun version =>
    "tar -czf " ++ quoted (tarball version) ++ " -C "
    ++ quoted (path_dirname h linuxDir) ++ " " ++ quoted (path_basename h linuxDir) in
  let zip := fun version =>
    "cd " ++ quoted (path_dirname h win32Dir) ++ " && zip -r "
    ++ quoted (zipfile version) ++ " " ++ quoted (path_basename h win32Dir) in
  (targetPlatform this = "linux" ->
     (spawned (events (Pipeline.createArchive h this w)) = []
      \/ exists version,
           existsSync h linuxDir w = true
           /\ spawned (events (Pipeline.createArchive h this w)) = [tar version])
     /\ (forall pkg,
           require_json h "./package.json" w = Returned pkg ->
           pkg <> JNull -> pkg <> JUndefined ->
           text_throws (js_prop pkg "version") = false ->
           existsSync h linuxDir w = true ->
           fst (mkdirSync h
                  (path_dirname h (tarball (to_text h (js_prop pkg "version")))) w)
             = Returned tt ->
           spawned (events (Pipeline.createArchive h this w)) =
             [tar (to_text h (js_prop pkg "version"))]))
  /\ (targetPlatform this = "win32" ->
        (spawned (events (Pipeline.createArchive h this w)) = []
         \/ exists version,
              existsSync h win32Dir w = true
              /\ spawned (events (Pipeline.createArchive h this w)) = [zip version])
        /\ (forall pkg,
              require_json h "./package.json" w = Returned pkg ->
              pkg <> JNull -> pkg <> JUndefined ->
              text_throws (js_prop pkg "version") = false ->
              existsSync h win32Dir w = true ->
              fst (mkdirSync h
                     (path_dirname h (zipfile (to_text h (js_prop pkg "version")))) w)
                = Returned tt ->
              spawned (events (Pipeline.createArchive h this w)) =
                [zip (to_text h (js_prop pkg "version"))])).
Proof.
  intros buildDir linuxDir win32Dir tarball zipfile tar zip.
  split; intros Hplat; split.
  - destruct (createArchive_spawned this w)
      as [Hnone|(pkg & name & dir & _ & Hsel & Hdir & Hsp)]; [now left|].
    right. exists (to_text h (js_prop pkg "version")).
    rewrite Hplat in Hsel, Hsp.
    destruct (text_throws (js_prop pkg "version")) eqn:Htext.
    + unfold Pipeline.archiveSelection, template in Hsel. rewrite Htext in Hsel.
      discriminate Hsel.
    + rewrite (archiveSelection_text this "linux" _ _ w Htext) in Hsel.
      cbn in Hsel. injection Hsel as <- <-. split; [exact Hdir|exact Hsp].
  - intros pkg Hpkg Hn Hu Htext Hdir Hmk.
    assert (Hsel : Pipeline.archiveSelection h this (targetPlatform this)
              (targetArch this) (js_prop pkg "version") w =
              (Ok (Some ("CursorClone-" ++ to_text h (js_prop pkg "version") ++ "-linux-"
                         ++ targetArch this ++ ".tar.gz", linuxDir)), w, [])).
    { rewrite (archiveSelection_text this _ _ _ w Htext), Hplat. reflexivity. }
    rewrite (createArchive_archives this w pkg _ _ Hpkg Hn Hu Hsel Hdir Hmk).
    now rewrite Hplat.
  - destruct (createArchive_spawned this w)
      as [Hnone|(pkg & name & dir & _ & Hsel & Hdir & Hsp)]; [now left|].
    right. exists (to_text h (js_prop pkg "version")).
    rewrite Hplat in Hsel, Hsp.
    destruct (text_throws (js_prop pkg "version")) eqn:Htext.
    + unfold Pipeline.archiveSelection, template in Hsel. rewrite Htext in Hsel.
      discriminate Hsel.
    + rewrite (archiveSelection_text this "win32" _ _ w Htext) in Hsel.
      cbn in Hsel. injection Hsel as <- <-. split; [exact Hdir|exact Hsp].
  - intros pkg Hpkg Hn Hu Htext Hdir Hmk.
    assert (Hsel : Pipeline.archiveSelection h this (targetPlatform this)
              (targetArch this) (js_prop pkg "version") w =
              (Ok (Some ("CursorClone-" ++ to_text h (js_prop pkg "version") ++ "-win32-"
                         ++ targetArch this ++ ".zip", win32Dir)), w, [])).
    { rewrite (archiveSelection_text this _ _ _ w Htext), Hplat. reflexivity. }
    rewrite (createArchive_archives this w pkg _ _ Hpkg Hn Hu Hsel Hdir Hmk).
    now rewrite Hplat.
Qed.

Lemma archive_source_ignores_arch_witness :
  spawned (events (Pipeline.createArchive (Sample.host Sample.healthy)
    (constructor (Sample.node ["archive"; "--platform"; "linux"; "--arch"; "arm64"]))
    Sample.fresh)) =
  [ "tar -czf " ++ quoted "/repo/releases/CursorClone-1.0.0-linux-arm64.tar.gz"
    ++ " -C " ++ quoted "/repo/.build" ++ " " ++ quoted "VSCode-linux-x64" ].
Proof.
  apply (proj2 (proj1 (archive_source_ignores_arch
    (Sample.host Sample.healthy)
    (constructor (Sample.node ["archive"; "--platform"; "linux"; "--arch"; "arm64"]))
    Sample.fresh) eq_refl) Sample.goodPackage);
    first [reflexivity | discriminate].
Defined.

(** ** Branding, checked first by the flag-driven manager *)

(** C10.  In the flag-driven build manager, if [product.json] parses to a
    value whose [nameShort] is not ['CursorClone'] or whose
    [applicationName] is not ['cursorclone'], then [run] logs its opening
    line and the validation line, the validation throws, the failure is
    logged and the process exits with status 1: no child process was
    spawned, so sync, install, build and package were never attempted, and
    the world is untouched. *)
Theorem branding_checked_before_any_step (h : Host) (process : Process)
    (w : World h) (product : JsVal) :
  read_json h "product.json" w = Returned product ->
  strict_neq (js_prop product "nameShort") "CursorClone" = true
  \/ strict_neq (js_prop product "applicationName") "cursorclone" = true ->
  (exists msg,
     FlagBuild.run h process (constructor process) w =
       (Exit 1, w,
        [ELog info "🚀 Starting CursorClone build process...";
         ELog info "🔍 Validating build...";
         ELog error "❌ Build failed!";
         ELog error msg]))
  /\ exit_code (outcome (FlagBuild.run h process (constructor process) w)) = 1
  /\ spawned (events (FlagBuild.run h process (constructor process) w)) = [].
Proof.
  intros Hread Hbad.
  assert (Hrun : exists msg,
     FlagBuild.run h process (constructor process) w =
       (Exit 1, w,
        [ELog info "🚀 Starting CursorClone build process...";
         ELog info "🔍 Validating build...";
         ELog error "❌ Build failed!";
         ELog error msg])).
  { unfold FlagBuild.run, FlagBuild.validateBuild, try_catch, bind, log, emit,
      fs_read_json.
    rewrite Hread. cbn [lift_try].
    destruct product; cbn in Hbad |- *;
      try (eexists; reflexivity);
      try (destruct Hbad; discriminate).
    destruct (strict_neq _ "CursorClone") eqn:Hname; [eexists; reflexivity|].
    destruct Hbad as [Hbad|Hbad]; [discriminate|].
    rewrite Hbad. eexists; reflexivity. }
  destruct Hrun as [msg Hrun]. rewrite Hrun.
  split; [now exists msg|]. split; reflexivity.
Qed.

Lemma branding_checked_before_any_step_witness :
  exit_code (outcome (FlagBuild.run
    (Sample.host (Sample.with_product
       (Returned (JObj [("nameShort", JStr "Code - OSS");
                        ("applicationName", JStr "cursorclone")])) Sample.healthy))
    (Sample.node []) (constructor (Sample.node [])) Sample.fresh)) = 1
  /\ spawned (events (FlagBuild.run
    (Sample.host (Sample.with_product
       (Returned (JObj [("nameShort", JStr "Code - OSS");
                        ("applicationName", JStr "cursorclone")])) Sample.healthy))
    (Sample.node []) (constructor (Sample.node [])) Sample.fresh)) = [].
Proof.
  apply (proj2 (branding_checked_before_any_step
    (Sample.host (Sample.with_product
       (Returned (JObj [("nameShort", JStr "Code - OSS");
                        ("applicationName", JStr "cursorclone")])) Sample.healthy))
    (Sample.node []) Sample.fresh
    (JObj [("nameShort", JStr "Code - OSS"); ("applicationName", JStr "cursorclone")])
    eq_refl (or_introl eq_refl))).
Defined.

(** ** Branding mismatches *)

(** The validator's loop on a parsed value whose differing fields can all
    be shown: the verdict is the conjunction of the checks, every entry has
    its line, and every mismatch its error line. *)
Lemma checkEntries_reports {h : Host} file product entries :
  product <> JNull -> product <> JUndefined ->
  reportable product entries = true ->
  forall isValid (w : World h),
  exists t,
    Branding.checkEntries h file product entries isValid w =
      (Ok (isValid && forallb (fun kv =>
             negb (strict_neq (js_prop product (fst kv)) (snd kv))) entries), w, t)
    /\ length t = length entries
    /\ forall key expected,
         In (key, expected) entries ->
         strict_neq (js_prop product key) expected = true ->
         In (ELog error (Branding.mismatchLine file key expected
                           (to_text h (js_prop product key)))) t.
Proof.
  intros Hn Hu.
  induction entries as [|[k e] rest IH]; intros Hshow isValid w.
  - exists []. split; [cbn; now rewrite andb_true_r|].
    split; [reflexivity|intros ? ? []].
  - cbn [reportable forallb fst snd] in Hshow. apply andb_true_iff in Hshow.
    destruct Hshow as [Hk Hrest]. specialize (IH Hrest).
    cbn [Branding.checkEntries].
    rewrite (bind_Ok _ _ _ _ _ _ (js_get_defined product k w Hn Hu)).
    cbn [forallb fst snd]. cbn [app].
    destruct (strict_neq (js_prop product k) e) eqn:Hbad.
    + cbn [negb orb] in Hk. apply negb_true_iff in Hk.
      destruct (IH false w) as (t & Ht & Hlen & Hin).
      exists (ELog error (Branding.mismatchLine file k e
                            (to_text h (js_prop product k))) :: t).
      split; [|split].
      * unfold template. rewrite Hk.
        unfold Branding.log, bind, ret, emit. rewrite Ht. cbn.
        now rewrite andb_false_r.
      * cbn. now rewrite Hlen.
      * intros key expected [Heq|Hmore] Hdiff.
        -- injection Heq as <- <-. now left.
        -- right. now apply Hin.
    + destruct (IH isValid w) as (t & Ht & Hlen & Hin).
      exists (ELog info (file ++ " " ++ k ++ ": correct") :: t).
      split; [|split].
      * unfold Branding.log. unfold bind at 1. cbn. rewrite Ht. reflexivity.
      * cbn. now rewrite Hlen.
      * intros key expected [Heq|Hmore] Hdiff.
        -- injection Heq as <- <-. congruence.
        -- right. now apply Hin.
Qed.

(** When some differing field cannot be shown, the loop stops there with
    the conversion's [TypeError], having logged fewer lines than there are
    entries. *)
Lemma checkEntries_throws {h : Host} file product entries :
  product <> JNull -> product <> JUndefined ->
  reportable product entries = false ->
  forall isValid (w : World h),
  exists t,
    Branding.checkEntries h file product entries isValid w =
      (Throw (TypeError "Cannot convert object to primitive value"), w, t)
    /\ length t < length entries.
Proof.
  intros Hn Hu.
  induction entries as [|[k e] rest IH]; intros Hshow isValid w;
    [discriminate Hshow|].
  cbn [reportable forallb fst snd] in Hshow.
  cbn [Branding.checkEntries].
  rewrite (bind_Ok _ _ _ _ _ _ (js_get_defined product k w Hn Hu)). cbn [app].
  destruct (strict_neq (js_prop product k) e) eqn:Hbad; cbn [negb orb] in Hshow.
  - destruct (text_throws (js_prop product k)) eqn:Htext; cbn [negb andb] in Hshow.
    + exists []. split; [|cbn; lia].
      unfold template. rewrite Htext. reflexivity.
    + destruct (IH Hshow false w) as (t & Ht & Hlen).
      eexists. split.
      * unfold template. rewrite Htext.
        unfold Branding.log, bind, ret, emit. rewrite Ht. reflexivity.
      * cbn. lia.
  - destruct (IH Hshow isValid w) as (t & Ht & Hlen).
    eexists. split.
    + unfold Branding.log. unfold bind at 1. cbn. rewrite Ht. reflexivity.
    + cbn. lia.
Qed.



Lemma checkRequired_no_exec {h : Host} this files :
  All no_exec (Pipeline.checkRequired h this files).
Proof.
  induction files as [|file rest IH]; cbn [Pipeline.checkRequired]; all_events.
  exact IH.
Qed.

(** ** What the steps before validation owe to [product.json] *)

Lemma before_validate_cut t t' :
  before_validate (t ++ ELog info "Validating build..." :: t')%list = before_validate t.
Proof.
  induction t as [|e t IH]; [reflexivity|].
  destruct e as [[] msg|cmd inherit ok|]; cbn; now rewrite IH.
Qed.

Section ProductIndependence.
Context {h : Host}.
Variable rj : string -> World h -> Try JsVal.
Variable this : Manager.






End ProductIndependence.




(** A field that no template literal can show: with [nameShort] set to
    [{"toString": 1}] the validator's own error line throws, and all it
    logs is that the file failed to parse. *)
Example unshowable_field_is_a_parse_failure :
  Branding.validateProductJson
    (Sample.host (Sample.with_product
       (Returned (JObj [("nameShort", JObj [("toString", JNum "1")]);
                        ("applicationName", JStr "cursorclone")])) Sample.healthy))
    "/repo" Sample.fresh =
  (Ok false, Sample.fresh,
   [ELog error "Failed to parse product.json: Cannot convert object to primitive value"]).
Proof. vm_compute. reflexivity. Qed.

(** * Further properties of the scripts *)

(** ** Reading the command line *)

Lemma indexOf_first x pre rest :
  ~ In x pre -> indexOf x (pre ++ x :: rest) = Some (length pre).
Proof.
  induction pre as [|y pre IH]; intros Hnot; cbn.
  - now rewrite String.eqb_refl.
  - destruct (String.eqb_spec y x) as [->|_].
    + exfalso. apply Hnot. now left.
    + rewrite IH; [reflexivity|]. intros Hin. apply Hnot. now right.
Qed.

Lemma indexOf_absent x l : ~ In x l -> indexOf x l = None.
Proof.
  induction l as [|y l IH]; intros Hnot; cbn; [reflexivity|].
  destruct (String.eqb_spec y x) as [->|_].
  - exfalso. apply Hnot. now left.
  - rewrite IH; [reflexivity|]. intros Hin. apply Hnot. now right.
Qed.

Lemma arg_after_first flag pre v post :
  ~ In flag pre -> v <> EmptyString ->
  arg_after flag (pre ++ flag :: v :: post) = Some v.
Proof.
  intros Hnot Hv. unfold arg_after. rewrite (indexOf_first _ _ _ Hnot).
  replace (S (length pre)) with (length pre + 1) by lia.
  rewrite nth_error_app2 by lia.
  replace (length pre + 1 - length pre) with 1 by lia. cbn.
  unfold truthy. destruct (String.eqb_spec v EmptyString); [contradiction|reflexivity].
Qed.

(** What [arg_after] returns is never the empty string. *)
Lemma arg_after_truthy flag argv v : arg_after flag argv = Some v -> truthy v = true.
Proof.
  unfold arg_after. destruct (indexOf flag argv) as [i|]; [|discriminate].
  destruct (nth_error argv (S i)) as [s|]; [|discriminate].
  destruct (truthy s) eqn:Hs; [|discriminate]. now intros [= <-].
Qed.

(** X1.  The target is read after the first occurrence of each flag: with
    [--platform v] and [--arch a] on the command line, [v] and [a] non
    empty and neither flag occurring earlier, the manager's target is
    [(v, a)] whatever else follows, later occurrences of the flags
    included, and whatever [v] and [a] are. *)
Theorem target_is_first_flag_value (process : Process)
    (pre1 post1 pre2 post2 : list string) (v a : string) :
  process_argv process = (pre1 ++ "--platform" :: v :: post1)%list ->
  ~ In "--platform" pre1 -> v <> EmptyString ->
  process_argv process = (pre2 ++ "--arch" :: a :: post2)%list ->
  ~ In "--arch" pre2 -> a <> EmptyString ->
  targetPlatform (constructor process) = v /\ targetArch (constructor process) = a.
Proof.
  intros Hp Hnp Hv Ha Hna Hae. unfold constructor, getPlatformArg, getArchArg.
  cbn [targetPlatform targetArch]. split.
  - rewrite Hp. now rewrite arg_after_first.
  - rewrite Ha. now rewrite arg_after_first.
Qed.

Lemma target_is_first_flag_value_witness :
  targetPlatform (constructor (Sample.node
    ["package"; "--platform"; "--arch"; "arm64"; "--platform"; "darwin"])) = "--arch"
  /\ targetArch (constructor (Sample.node
    ["package"; "--platform"; "--arch"; "arm64"; "--platform"; "darwin"])) = "arm64".
Proof.
  apply (target_is_first_flag_value
    (Sample.node ["package"; "--platform"; "--arch"; "arm64"; "--platform"; "darwin"])
    ["node"; "/repo/build.js"; "package"] ["arm64"; "--platform"; "darwin"]
    ["node"; "/repo/build.js"; "package"; "--platform"] ["--platform"; "darwin"]
    "--arch" "arm64").
  - reflexivity.
  - cbn. intros [H|[H|[H|[]]]]; discriminate.
  - discriminate.
  - reflexivity.
  - cbn. intros [H|[H|[H|[H|[]]]]]; discriminate.
  - discriminate.
Defined.

(** X2.  Without the flags the target comes from the host: the platform as
    it is, the architecture normalised to [arm64] or [x64].  On a host
    whose platform is linux, darwin or win32 the default target is
    therefore always in the supported matrix, whatever the host's
    architecture. *)
Theorem default_target_is_supported (process : Process) :
  ~ In "--platform" (process_argv process) ->
  ~ In "--arch" (process_argv process) ->
  targetPlatform (constructor process) = process_platform process
  /\ targetArch (constructor process) =
       (if process_arch process =? "arm64" then "arm64" else "x64")
  /\ (includes (process_platform process) ["linux"; "darwin"; "win32"] = true ->
      in_matrix (targetPlatform (constructor process))
                (targetArch (constructor process)) = true).
Proof.
  intros Hp Ha. unfold constructor, getPlatformArg, getArchArg, arg_after.
  cbn [targetPlatform targetArch].
  rewrite (indexOf_absent _ _ Hp), (indexOf_absent _ _ Ha).
  repeat split. intros Hhost. unfold in_matrix. rewrite Hhost.
  now destruct (process_arch process =? "arm64").
Qed.

Lemma default_target_is_supported_witness :
  in_matrix
    (targetPlatform (constructor {| process_argv := ["node"; "/repo/build.js"; "all"];
       process_platform := "win32"; process_arch := "ia32";
       script_dirname := "/repo" |}))
    (targetArch (constructor {| process_argv := ["node"; "/repo/build.js"; "all"];
       process_platform := "win32"; process_arch := "ia32";
       script_dirname := "/repo" |})) = true.
Proof.
  apply (proj2 (proj2 (default_target_is_supported
    {| process_argv := ["node"; "/repo/build.js"; "all"];
       process_platform := "win32"; process_arch := "ia32";
       script_dirname := "/repo" |}
    ltac:(cbn; intros [H|[H|[H|[]]]]; discriminate)
    ltac:(cbn; intros [H|[H|[H|[]]]]; discriminate)))).
  reflexivity.
Defined.

(** ** Commands the manager does not know *)

(** X3.  Any command other than the eight steps, [help], a misspelt step
    or a leading flag alike, only prints the usage text: nothing is logged,
    no child process is spawned, the world is untouched and the process
    ends with status 0. *)
Theorem unknown_command_prints_usage (h : Host) (process : Process) (w : World h) :
  includes (Pipeline.commandArg process)
    ["sync"; "install"; "build"; "package"; "archive"; "test"; "validate"; "all"]
    = false ->
  Pipeline.main h process w = (Ok tt, w, [EUsage])
  /\ exit_code (outcome (Pipeline.main h process w)) = 0.
Proof.
  intros Hnot.
  assert (Hmain : Pipeline.main h process w = (Ok tt, w, [EUsage])).
  { unfold Pipeline.main, Pipeline.run, Pipeline.dispatch.
    cbn [includes existsb] in Hnot.
    repeat (apply orb_false_iff in Hnot; destruct Hnot as [?H Hnot]).
    repeat match goal with
           | H : (_ =? ?lit) = false |- context [?c =? ?lit] => rewrite H
           end.
    reflexivity. }
  rewrite Hmain. now split.
Qed.

Lemma unknown_command_prints_usage_witness :
  Pipeline.main (Sample.host (Sample.with_failing ["npm install"] Sample.healthy))
    (Sample.node ["instal"; "--verbose"]) Sample.fresh = (Ok tt, Sample.fresh, [EUsage]).
Proof.
  apply (proj1 (unknown_command_prints_usage
    (Sample.host (Sample.with_failing ["npm install"] Sample.healthy))
    (Sample.node ["instal"; "--verbose"]) Sample.fresh eq_refl)).
Defined.

(** ** Nothing runs after a failure *)

Lemma failure_is_last_quiet t : forallb no_exec t = true -> failure_is_last t = true.
Proof.
  induction t as [|e t IH]; [reflexivity|]. cbn.
  intros H. apply andb_true_iff in H. destruct H as [He Ht].
  destruct e as [| c i []|]; try discriminate; auto.
Qed.

Lemma failure_is_last_app_clean t1 t2 :
  has_failed_exec t1 = false ->
  failure_is_last (t1 ++ t2)%list = failure_is_last t2.
Proof.
  induction t1 as [|e t1 IH]; [reflexivity|]. cbn.
  intros H. apply orb_false_iff in H. destruct H as [He Ht].
  destruct e as [| c i []|]; try discriminate; auto.
Qed.

Lemma failure_is_last_app_quiet t1 t2 :
  failure_is_last t1 = true -> forallb no_exec t2 = true ->
  failure_is_last (t1 ++ t2)%list = true.
Proof.
  induction t1 as [|e t1 IH]; intros H1 H2; [now apply failure_is_last_quiet|].
  cbn in *. destruct e as [| c i []|]; auto.
  rewrite forallb_app. now rewrite H1, H2.
Qed.

Lemma failure_is_last_split t1 c i t2 :
  failure_is_last (t1 ++ EExec c i false :: t2)%list = true -> spawned t2 = [].
Proof.
  induction t1 as [|e t1 IH]; cbn.
  - apply spawned_none.
  - destruct e as [| c' i' []|]; auto.
    rewrite forallb_app. cbn. rewrite andb_false_r. discriminate.
Qed.

Section TidyRules.
Context {h : Host}.

Lemma Tidy_quiet {A} (m : M h A) : All no_exec m -> Tidy m.
Proof. intros Hm w. apply failure_is_last_quiet, Hm. Qed.

Lemma Tidy_bind {A B} (m : M h A) (k : A -> M h B) :
  Strict m -> Tidy m -> (forall a, Tidy (k a)) -> Tidy (bind m k).
Proof.
  intros Hs Hm Hk w. specialize (Hs w). specialize (Hm w).
  destruct (m w) as [[[a|e|c] w1] t1] eqn:E.
  - rewrite (bind_Ok _ _ _ _ _ _ E). cbn [events snd] in *.
    rewrite failure_is_last_app_clean; [apply Hk|].
    destruct (has_failed_exec t1); [|reflexivity].
    destruct (Hs eq_refl) as [e He]. discriminate.
  - now rewrite (bind_Throw _ _ _ _ _ _ E).
  - now rewrite (bind_Exit _ _ _ _ _ _ E).
Qed.

Lemma Tidy_try_catch {A} (m : M h A) handler :
  Tidy m -> (forall e, All no_exec (handler e)) -> Tidy (try_catch m handler).
Proof.
  intros Hm Hk w. specialize (Hm w).
  destruct (m w) as [[[a|e|c] w1] t1] eqn:E.
  - now rewrite (try_catch_Ok _ _ _ _ _ _ E).
  - rewrite (try_catch_Throw _ _ _ _ _ _ E). cbn [events snd] in *.
    apply failure_is_last_app_quiet; [exact Hm|apply Hk].
  - now rewrite (try_catch_Exit _ _ _ _ _ _ E).
Qed.

Lemma Tidy_execSync cmd inherit : Tidy (execSync h cmd inherit).
Proof.
  intros w. unfold execSync.
  now destruct (spawn h cmd inherit w) as [[out|e] w'].
Qed.

Lemma Tidy_execCommand this cmd : Tidy (Pipeline.execCommand h this cmd).
Proof.
  unfold Pipeline.execCommand.
  apply Tidy_bind; [apply Strict_of_no_exec; all_events|apply Tidy_quiet; all_events|].
  intros _. apply Tidy_try_catch; [apply Tidy_execSync|]. intros e. all_events.
Qed.

End TidyRules.

(** Goals [Strict m] for the bodies of the command-driven manager. *)
Ltac strict_pipeline :=
  repeat first
    [ apply Strict_execCommand
    | apply Strict_checkRequired
    | apply Strict_of_no_exec; solve [all_events]
    | apply Strict_bind; [|intros ?]
    | apply Strict_try_catch; [|intros ?; apply Rethrows_log_throw]
    | match goal with
      | |- Strict (if ?b then _ else _) => destruct b
      | |- Strict (match ?x with _ => _ end) => destruct x
      end
    | progress cbv zeta ].

Ltac tidy_pipeline :=
  repeat first
    [ apply Tidy_execCommand
    | apply Tidy_quiet; solve [all_events]
    | apply Tidy_bind; [solve [strict_pipeline]| |intros ?]
    | apply Tidy_try_catch; [|intros ?; solve [all_events]]
    | match goal with
      | |- Tidy (if ?b then _ else _) => destruct b
      | |- Tidy (match ?x with _ => _ end) => destruct x
      end
    | progress cbv zeta ].

Lemma Tidy_dispatch {h : Host} this command : Tidy (Pipeline.dispatch h this command).
Proof.
  unfold Pipeline.dispatch, Pipeline.runAll, Pipeline.syncWithUpstream,
    Pipeline.installDependencies, Pipeline.buildCursorClone,
    Pipeline.packageApplication, Pipeline.unsupported, Pipeline.createArchive,
    Pipeline.runTests, Pipeline.validateBuild, Pipeline.showHelp.
  repeat first
    [ apply Tidy_quiet, checkRequired_no_exec
    | progress tidy_pipeline ].
Qed.

(** X4.  In every run of the command-driven manager, whatever the command
    and the flags, a child process that fails is the last one: no command
    is handed to [execSync] after it. *)
Theorem no_spawn_after_failure (h : Host) (process : Process) (w : World h)
    (before after : Trace) (command : string) (inherit : bool) :
  events (Pipeline.main h process w) =
    (before ++ EExec command inherit false :: after)%list ->
  spawned after = [].
Proof.
  intros Hev. apply (failure_is_last_split before command inherit).
  rewrite <- Hev. unfold Pipeline.main, Pipeline.run.
  apply (Tidy_try_catch (h := h)); [apply Tidy_dispatch|].
  intros e. all_events.
Qed.

Lemma no_spawn_after_failure_witness :
  spawned (skipn 22 (events (Pipeline.main
    (Sample.host (Sample.with_failing ["npm run compile"] Sample.healthy))
    (Sample.node ["all"]) Sample.fresh))) = [].
Proof.
  apply (no_spawn_after_failure
    (Sample.host (Sample.with_failing ["npm run compile"] Sample.healthy))
    (Sample.node ["all"]) Sample.fresh
    (firstn 21 (events (Pipeline.main
       (Sample.host (Sample.with_failing ["npm run compile"] Sample.healthy))
       (Sample.node ["all"]) Sample.fresh)))
    (skipn 22 (events (Pipeline.main
       (Sample.host (Sample.with_failing ["npm run compile"] Sample.healthy))
       (Sample.node ["all"]) Sample.fresh)))
    "npm run compile" false).
  vm_compute. reflexivity.
Defined.

(** ** The sync step merges only behind a backup *)

(** Looks for a given [EExec] event in a computed trace: the branches where
    it cannot occur are closed, the others learn its flags. *)
Ltac find_exec H :=
  cbn in H;
  repeat (destruct H as [H|H];
          [ first [ discriminate H
                  | injection H; intros; first [congruence | subst] ]
          | ]);
  try contradiction.



(** ** The package step *)

(** X6.  For a target in the matrix the package step first exports
    [VSCODE_PLATFORM] and [VSCODE_ARCH], platform then architecture, and
    only then runs the gulp task: the child process sees both variables.
    The step returns exactly when the task succeeds, and then alone logs
    ["Application packaged successfully"]; otherwise it throws the task's
    error. *)
Theorem package_exports_target (h : Host) (this : Manager) (w : World h) :
  in_matrix (targetPlatform this) (targetArch this) = true ->
  Pipeline.packageApplication h this w =
    (match fst (spawn h ("npm run gulp -- vscode-" ++ targetPlatform this ++ "-"
                         ++ targetArch this) (isVerbose this)
                  (set_env h "VSCODE_ARCH" (targetArch this)
                     (set_env h "VSCODE_PLATFORM" (targetPlatform this) w))) with
     | Exited0 _ => Ok tt
     | Failed e => Throw e
     end,
     snd (spawn h ("npm run gulp -- vscode-" ++ targetPlatform this ++ "-"
                   ++ targetArch this) (isVerbose this)
            (set_env h "VSCODE_ARCH" (targetArch this)
               (set_env h "VSCODE_PLATFORM" (targetPlatform this) w))),
     [ ELog info "Packaging application...";
       ELog info ("Executing: npm run gulp -- vscode-" ++ targetPlatform this ++ "-"
                  ++ targetArch this);
       EExec ("npm run gulp -- vscode-" ++ targetPlatform this ++ "-"
              ++ targetArch this) (isVerbose this)
         (proc_ok (fst (spawn h ("npm run gulp -- vscode-" ++ targetPlatform this
                                 ++ "-" ++ targetArch this) (isVerbose this)
                          (set_env h "VSCODE_ARCH" (targetArch this)
                             (set_env h "VSCODE_PLATFORM" (targetPlatform this) w)))));
       match fst (spawn h ("npm run gulp -- vscode-" ++ targetPlatform this ++ "-"
                           ++ targetArch this) (isVerbose this)
                    (set_env h "VSCODE_ARCH" (targetArch this)
                       (set_env h "VSCODE_PLATFORM" (targetPlatform this) w))) with
       | Exited0 _ => ELog info "Application packaged successfully"
       | Failed e => ELog error ("Command failed: " ++ message e)
       end ]).
Proof.
  intros Hin.
  assert (Hproto : includes (targetPlatform this) objectPrototypeKeys = false).
  { unfold in_matrix in Hin. apply andb_true_iff in Hin. destruct Hin as [Hp _].
    rewrite !includes_cons in Hp. cbn [includes existsb] in Hp.
    rewrite orb_false_r in Hp.
    repeat (apply orb_true_iff in Hp; destruct Hp as [Hp|Hp]);
      apply String.eqb_eq in Hp; rewrite Hp; reflexivity. }
  unfold Pipeline.packageApplication, bind at 1, log at 1, emit. cbv zeta.
  unfold bind at 1. rewrite (unsupported_matrix _ _ _ Hproto), Hin. cbn [negb].
  unfold in_matrix in Hin. apply andb_true_iff in Hin. destruct Hin as [Hp _].
  rewrite !includes_cons in Hp. cbn [includes existsb] in Hp.
  rewrite orb_false_r in Hp.
  unfold Pipeline.execCommand, bind, try_catch, log, emit, env_set, execSync, ret.
  repeat (apply orb_true_iff in Hp; destruct Hp as [Hp|Hp]);
    apply String.eqb_eq in Hp; rewrite Hp; cbn;
    match goal with
    | |- context [spawn h ?c ?i ?x] => destruct (spawn h c i x) as [[out|e] w']
    end; reflexivity.
Qed.

Lemma package_exports_target_witness :
  world_of (Pipeline.packageApplication (Sample.host Sample.healthy)
    (constructor (Sample.node ["package"; "--platform"; "darwin"; "--arch"; "arm64"]))
    Sample.fresh) =
    [("VSCODE_ARCH", "arm64"); ("VSCODE_PLATFORM", "darwin")].
Proof.
  rewrite (package_exports_target (Sample.host Sample.healthy)
    (constructor (Sample.node ["package"; "--platform"; "darwin"; "--arch"; "arm64"]))
    Sample.fresh eq_refl).
  reflexivity.
Defined.

(** ** The archive step *)

(** X7.  The archive step logs ["Archive created: ..."] only when it ran
    exactly one command, the archiver, and that command succeeded; the step
    then returns normally. *)
Theorem archive_created_is_truthful (h : Host) (this : Manager) (w : World h)
    (name : string) :
  In (ELog info ("Archive created: " ++ name))
     (events (Pipeline.createArchive h this w)) ->
  outcome (Pipeline.createArchive h this w) = Ok tt
  /\ exists dir,
       Pipeline.archiveSelection h this (targetPlatform this) (targetArch this)
         (js_prop
            match require_json h "./package.json" w with
            | Returned pkg => pkg
            | Raised _ => JUndefined
            end "version") w = (Ok (Some (name, dir)), w, [])
       /\ exec_results (events (Pipeline.createArchive h this w)) =
            [ (Pipeline.archiveCommand h (targetPlatform this)
                 (path_join h [rootDir this; "releases"; name]) dir, true) ].
Proof.
  unfold Pipeline.createArchive, Pipeline.execCommand, bind, try_catch, log, emit,
    js_require, fs_existsSync, fs_mkdirSync, execSync.
  cbv zeta.
  destruct (require_json h "./package.json" w) as [pkg|e]; cbn [lift_try];
    [|intros H; find_exec H].
  destruct pkg; cbn [js_get js_prop throw ret];
    try solve [intros H; find_exec H];
    (match goal with
     | |- context [Pipeline.archiveSelection h this ?p ?a ?v w] =>
         destruct (archiveSelection_cases this p a v w)
           as [[[[name' dir]|] Hsel]|[e Hsel]]
     end; rewrite Hsel; cbn [option_map snd];
     [|intros H; find_exec H|intros H; find_exec H]);
    (destruct (existsSync h dir w); [|intros H; find_exec H]);
    (destruct (mkdirSync h _ w) as [[[]|e] w1]; cbn [lift_try];
       [|intros H; find_exec H]);
    (destruct (spawn h _ (isVerbose this) w1) as [[out|e] w2];
       intros H; cbn -[Pipeline.archiveCommand] in H |- *;
       repeat (destruct H as [H|H]; [try discriminate H|]); try contradiction);
    (assert (name' = name) by congruence); subst name';
    (split; [reflexivity|]); exists dir; split; reflexivity.
Qed.

Lemma archive_created_is_truthful_witness :
  outcome (Pipeline.createArchive (Sample.host Sample.healthy)
    (constructor (Sample.node ["archive"; "--platform"; "linux"; "--arch"; "arm64"]))
    Sample.fresh) = Ok tt.
Proof.
  apply (proj1 (archive_created_is_truthful (Sample.host Sample.healthy)
    (constructor (Sample.node ["archive"; "--platform"; "linux"; "--arch"; "arm64"]))
    Sample.fresh "CursorClone-1.0.0-linux-arm64.tar.gz"
    ltac:(vm_compute; repeat (first [left; reflexivity | right])))).
Defined.

(** X8.  For a platform other than darwin, linux and win32 the archive step
    selects nothing: it never spawns a command, and when [package.json]
    loads it reports ["Build directory not found"] and returns, whatever
    directories exist, leaving the world as it was. *)
Theorem archive_skips_unknown_platform (h : Host) (this : Manager) (w : World h) :
  includes (targetPlatform this) ["darwin"; "linux"; "win32"] = false ->
  spawned (events (Pipeline.createArchive h this w)) = []
  /\ (forall pkg,
        require_json h "./package.json" w = Returned pkg ->
        pkg <> JNull -> pkg <> JUndefined ->
        Pipeline.createArchive h this w =
          (Ok tt, w,
           [ELog info "Creating archive...";
            ELog error "Build directory not found. Please run build first."])).
Proof.
  intros Hnot.
  assert (Hsel : forall arch version,
            Pipeline.archiveSelection h this (targetPlatform this) arch version w =
              (Ok None, w, [])).
  { intros arch version. unfold Pipeline.archiveSelection.
    cbn [includes existsb] in Hnot.
    repeat (apply orb_false_iff in Hnot; destruct Hnot as [?H Hnot]).
    repeat match goal with
           | H : (_ =? ?lit) = false |- context [_ =? ?lit] => rewrite H
           end.
    reflexivity. }
  split.
  - destruct (createArchive_spawned this w)
      as [Hnone|(pkg & name & dir & _ & Hsome & _)]; [exact Hnone|].
    rewrite Hsel in Hsome. discriminate.
  - intros pkg Hpkg Hn Hu.
    unfold Pipeline.createArchive, bind, log, emit, js_require.
    rewrite Hpkg. cbn [lift_try]. rewrite (js_get_defined pkg "version" w Hn Hu).
    cbv zeta. rewrite Hsel. reflexivity.
Qed.

Lemma archive_skips_unknown_platform_witness :
  spawned (events (Pipeline.createArchive (Sample.host Sample.healthy)
    (constructor (Sample.node ["archive"; "--platform"; "freebsd"])) Sample.fresh)) = [].
Proof.
  apply (proj1 (archive_skips_unknown_platform (Sample.host Sample.healthy)
    (constructor (Sample.node ["archive"; "--platform"; "freebsd"])) Sample.fresh
    eq_refl)).
Defined.

(** ** The validate step and the closing line *)

Lemma log_bind_eq {h : Host} {B} msg lvl (k : unit -> M h B) w r w' t :
  k tt w = (r, w', t) -> bind (log msg lvl) k w = (r, w', ELog lvl msg :: t).
Proof. intros E. rewrite log_bind, E. reflexivity. Qed.

Lemma checkRequired_first_missing {h : Host} this files (w : World h) :
  Pipeline.checkRequired h this files w =
    match find (fun file => negb (existsSync h (path_join h [rootDir this; file]) w))
            files with
    | Some file => (Ok false, w, [ELog error ("Required file missing: " ++ file)])
    | None => (Ok true, w, [])
    end.
Proof.
  induction files as [|file rest IH]; [reflexivity|].
  cbn [Pipeline.checkRequired find]. unfold bind at 1, fs_existsSync.
  destruct (existsSync h (path_join h [rootDir this; file]) w); cbn [negb].
  - rewrite IH. now destruct (find _ rest).
  - reflexivity.
Qed.

(** X9.  The validate step stops at the first required file that is
    missing, in the order [package.json], [product.json], [.build]: it
    names that file alone, returns [false], and does not read
    [product.json] at all, so it cannot throw. *)
Theorem validate_reports_first_missing_file (h : Host) (this : Manager)
    (w : World h) (file : string) :
  find (fun f => negb (existsSync h (path_join h [rootDir this; f]) w))
    Pipeline.requiredFiles = Some file ->
  Pipeline.validateBuild h this w =
    (Ok false, w,
     [ELog info "Validating build...";
      ELog error ("Required file missing: " ++ file)]).
Proof.
  intros Hfind. unfold Pipeline.validateBuild. apply log_bind_eq.
  erewrite bind_Ok
    by (rewrite checkRequired_first_missing, Hfind; reflexivity).
  reflexivity.
Qed.

Lemma validate_reports_first_missing_file_witness :
  Pipeline.validateBuild
    (Sample.host (Sample.with_product (Raised (mkError "Unexpected end of JSON input"))
       (Sample.with_missing ["/repo/.build"; "/repo/product.json"] Sample.healthy)))
    (constructor (Sample.node ["validate"])) Sample.fresh =
    (Ok false, Sample.fresh,
     [ELog info "Validating build...";
      ELog error "Required file missing: product.json"]).
Proof.
  apply (validate_reports_first_missing_file
    (Sample.host (Sample.with_product (Raised (mkError "Unexpected end of JSON input"))
       (Sample.with_missing ["/repo/.build"; "/repo/product.json"] Sample.healthy)))
    (constructor (Sample.node ["validate"])) Sample.fresh "product.json" eq_refl).
Defined.

(** X10.  The [validate] command ends with status 1 in one situation only:
    the three required files exist and [product.json] does not parse or
    holds [null].  A missing file or a wrong [applicationName] is logged
    and the process still ends with status 0. *)
Theorem validate_command_status (h : Host) (process : Process) (w : World h) :
  Pipeline.commandArg process = "validate" ->
  exit_code (outcome (Pipeline.main h process w)) =
    if forallb (fun f => existsSync h (path_join h [script_dirname process; f]) w)
         Pipeline.requiredFiles
       && unusable (read_json h (path_join h [script_dirname process; "product.json"]) w)
    then 1 else 0.
Proof.
  intros Hcmd. unfold Pipeline.main, Pipeline.run. rewrite Hcmd.
  change (Pipeline.dispatch h (constructor process) "validate")
    with (Pipeline.validateBuild h (constructor process) ;; ret tt).
  unfold Pipeline.validateBuild, try_catch, bind, log, emit, fs_read_json.
  rewrite checkRequired_first_missing.
  change (rootDir (constructor process)) with (script_dirname process).
  unfold Pipeline.requiredFiles. cbn [find forallb].
  destruct (existsSync h (path_join h [script_dirname process; "package.json"]) w);
    [|reflexivity].
  destruct (existsSync h (path_join h [script_dirname process; "product.json"]) w);
    [|reflexivity].
  destruct (existsSync h (path_join h [script_dirname process; ".build"]) w);
    [|reflexivity].
  cbn [negb andb].
  destruct (read_json h (path_join h [script_dirname process; "product.json"]) w)
    as [product|e]; [|reflexivity].
  destruct product; cbn; try reflexivity;
    match goal with
    | |- context [strict_neq ?v ?lit] => destruct (strict_neq v lit); reflexivity
    end.
Qed.

Lemma validate_command_status_witness :
  exit_code (outcome (Pipeline.main
    (Sample.host (Sample.with_product
       (Returned (JObj [("applicationName", JStr "code-oss")])) Sample.healthy))
    (Sample.node ["validate"]) Sample.fresh)) = 0.
Proof.
  rewrite (validate_command_status
    (Sample.host (Sample.with_product
       (Returned (JObj [("applicationName", JStr "code-oss")])) Sample.healthy))
    (Sample.node ["validate"]) Sample.fresh eq_refl).
  reflexivity.
Defined.

Section ClosingLine.
Context {h : Host}.

Lemma QuietUnlessOk_bind {A B} f (m : M h A) (k : A -> M h B) :
  All f m -> (forall a, QuietUnlessOk f (k a)) -> QuietUnlessOk f (bind m k).
Proof.
  intros Hm Hk w. specialize (Hm w).
  destruct (m w) as [[[a|e|c] w1] t1] eqn:E.
  - rewrite (bind_Ok _ _ _ _ _ _ E). cbn [outcome events fst snd] in *.
    destruct (Hk a w1) as [Hok|Hq]; [now left|right].
    now rewrite forallb_app, Hm, Hq.
  - rewrite (bind_Throw _ _ _ _ _ _ E). now right.
  - rewrite (bind_Exit _ _ _ _ _ _ E). now right.
Qed.

(** When a sequence returns, the events of its second part are events of
    the whole, and the second part returned. *)
Lemma bind_returned {A B} (m : M h A) (k : A -> M h B) w :
  is_ok (outcome (bind m k w)) = true ->
  exists a w1,
    is_ok (outcome (k a w1)) = true
    /\ forall e, In e (events (k a w1)) -> In e (events (bind m k w)).
Proof.
  destruct (m w) as [[[a|e|c] w1] t1] eqn:E.
  - rewrite (bind_Ok _ _ _ _ _ _ E). cbn [outcome events fst snd].
    intros Hok. exists a, w1. split; [exact Hok|].
    intros e He. apply in_or_app. now right.
  - rewrite (bind_Throw _ _ _ _ _ _ E). discriminate.
  - rewrite (bind_Exit _ _ _ _ _ _ E). discriminate.
Qed.

Lemma checkRequired_All f this files :
  (forall msg, f (ELog error msg) = true) ->
  All f (Pipeline.checkRequired h this files).
Proof.
  intros Hf. induction files as [|file rest IH]; cbn [Pipeline.checkRequired].
  - apply All_ret.
  - apply All_bind; [apply All_fs_existsSync|]. intros found.
    destruct (negb found); [|exact IH].
    apply All_bind; [apply All_log, Hf|intros _; apply All_ret].
Qed.

Variable this : Manager.

Lemma runAll_closing_only_on_success :
  QuietUnlessOk not_closing (Pipeline.runAll h this).
Proof.
  unfold Pipeline.runAll.
  apply QuietUnlessOk_bind.
  { unfold Pipeline.syncWithUpstream, Pipeline.execCommand. all_events. }
  intros _. apply QuietUnlessOk_bind.
  { unfold Pipeline.installDependencies, Pipeline.execCommand. all_events. }
  intros _. apply QuietUnlessOk_bind.
  { unfold Pipeline.buildCursorClone, Pipeline.execCommand. all_events. }
  intros _. apply QuietUnlessOk_bind.
  { unfold Pipeline.packageApplication, Pipeline.unsupported, Pipeline.execCommand.
    all_events. }
  intros _. apply QuietUnlessOk_bind.
  { unfold Pipeline.createArchive, Pipeline.execCommand. all_events. }
  intros _. apply QuietUnlessOk_bind.
  { unfold Pipeline.validateBuild.
    repeat first [ apply checkRequired_All; reflexivity | progress all_events ]. }
  intros _ w. now left.
Qed.

Lemma runAll_closes w :
  is_ok (outcome (Pipeline.runAll h this w)) = true ->
  In (ELog info "Complete build pipeline finished")
     (events (Pipeline.runAll h this w)).
Proof.
  unfold Pipeline.runAll. intros H.
  repeat match type of H with
         | is_ok (outcome (bind ?m ?k ?x)) = true =>
             let a := fresh "a" in let w1 := fresh "w" in
             let Hin := fresh "Hin" in
             destruct (bind_returned m k x H) as (a & w1 & H' & Hin);
             clear H; rename H' into H; apply Hin; clear Hin; cbv beta in *
         end.
  now left.
Qed.

End ClosingLine.

(** X11.  In an ['all'] run the line ["Complete build pipeline finished"]
    is logged exactly when the process ends with status 0: it is never
    logged by a run that fails, and every run that ends with status 0 logs
    it, also one in which the package, archive or validate step reported
    an error without throwing. *)
Theorem closing_line_iff_status_zero (h : Host) (process : Process) (w : World h) :
  Pipeline.commandArg process = "all" ->
  In (ELog info "Complete build pipeline finished")
     (events (Pipeline.main h process w))
  <-> exit_code (outcome (Pipeline.main h process w)) = 0.
Proof.
  intros Hcmd. unfold Pipeline.main.
  pose proof (run_outcome (constructor process) process w) as Hrun.
  rewrite Hcmd in Hrun.
  change (Pipeline.dispatch h (constructor process) "all")
    with (Pipeline.runAll h (constructor process)) in Hrun.
  destruct Hrun as [[Hok ->]|(e & w' & t & Hbody & ->)].
  - rewrite Hok. split; [reflexivity|]. intros _.
    apply runAll_closes. now rewrite Hok.
  - cbn [outcome events fst snd exit_code]. split; [|discriminate].
    intros Hin. exfalso.
    destruct (runAll_closing_only_on_success (constructor process) w) as [Hok|Hq].
    + rewrite Hbody in Hok. discriminate.
    + rewrite Hbody in Hq. cbn [events snd] in Hq.
      apply in_app_or in Hin. destruct Hin as [Hin|[Hin|[]]]; [|discriminate].
      rewrite forallb_forall in Hq. specialize (Hq _ Hin). discriminate.
Qed.

Lemma closing_line_iff_status_zero_witness :
  In (ELog info "Complete build pipeline finished")
     (events (Pipeline.main
        (Sample.host (Sample.with_missing ["/repo/.build/VSCode-linux-x64"]
                        Sample.healthy))
        (Sample.node ["all"]) Sample.fresh)).
Proof.
  apply (proj2 (closing_line_iff_status_zero
    (Sample.host (Sample.with_missing ["/repo/.build/VSCode-linux-x64"] Sample.healthy))
    (Sample.node ["all"]) Sample.fresh eq_refl)).
  vm_compute. reflexivity.
Defined.

(** * The flag-driven build manager: further properties *)

Section FlagBuildFacts.
Context {h : Host}.
Variable this : Manager.

Import FlagBuild.

Lemma Rethrows_log_log_throw msg1 lvl1 msg2 lvl2 {A} e :
  Rethrows (h := h) (A := A) (log msg1 lvl1 ;; log msg2 lvl2 ;; throw e).
Proof. intros w. now exists e. Qed.

Lemma Strict_flag_execCommand cmd : Strict (execCommand h this cmd).
Proof.
  unfold execCommand. apply Strict_bind; [|intros _].
  - apply Strict_of_no_exec. all_events.
  - apply Strict_try_catch; [apply Strict_execSync|].
    intros e. apply Rethrows_log_log_throw.
Qed.

Lemma Strict_for_of {A} (l : list A) (body : A -> M h unit) :
  (forall x, Strict (body x)) -> Strict (for_of l body).
Proof.
  intros Hbody. induction l as [|x l IH]; cbn [for_of].
  - apply Strict_of_no_exec, All_ret.
  - apply Strict_bind; [apply Hbody|intros _; exact IH].
Qed.

Lemma All_for_of f {A} (l : list A) (body : A -> M h unit) :
  (forall x, All f (body x)) -> All f (for_of l body).
Proof.
  intros Hbody. induction l as [|x l IH]; cbn [for_of].
  - apply All_ret.
  - apply All_bind; [apply Hbody|intros _; exact IH].
Qed.

Local Ltac strict_flag :=
  repeat first
    [ apply Strict_flag_execCommand
    | apply Strict_of_no_exec; solve [all_events]
    | apply Strict_for_of; intros ?
    | apply Strict_bind; [|intros ?]
    | apply Strict_try_catch; [|intros ?; apply Rethrows_log_throw]
    | match goal with
      | |- Strict (if ?b then _ else _) => destruct b
      | |- Strict (match ?x with _ => _ end) => destruct x
      end
    | progress cbv zeta ].

(** Everything [run] does before the release is strict. *)
Lemma Strict_build_steps :
  Strict (log "🚀 Starting CursorClone build process..." info ;;
          validateBuild h ;;
          syncWithUpstream h this ;;
          installDependencies h this ;;
          buildCursorClone h this ;;
          packageAll h this ;;
          ret tt ;;
          log "🎉 CursorClone build completed successfully!" info).
Proof.
  unfold validateBuild, syncWithUpstream, installDependencies, buildCursorClone,
    packageAll, packageForPlatform, iterable_archs.
  strict_flag.
Qed.

Lemma flag_execCommand_results cmd w :
  exec_results (events (execCommand h this cmd w)) =
    [(cmd, proc_ok (fst (spawn h cmd (isVerbose this) w)))]
  /\ is_ok (outcome (execCommand h this cmd w)) =
       proc_ok (fst (spawn h cmd (isVerbose this) w))
  /\ world_of (execCommand h this cmd w) = snd (spawn h cmd (isVerbose this) w).
Proof.
  unfold execCommand, bind, try_catch, log, emit, execSync.
  now destruct (spawn h cmd (isVerbose this) w) as [[out|e] w'].
Qed.

End FlagBuildFacts.

(** X12.  Without [--release], a child process that fails in the
    flag-driven manager always ends the run with status 1: validation,
    sync, install, build and packaging swallow no failure. *)
Theorem flag_build_failure_is_fatal (h : Host) (process : Process) (this : Manager)
    (w : World h) :
  includes "--release" (process_argv process) = false ->
  has_failed_exec (events (FlagBuild.run h process this w)) = true ->
  outcome (FlagBuild.run h process this w) = Exit 1.
Proof.
  intros Hrel. unfold FlagBuild.run. rewrite Hrel.
  pose proof (Strict_build_steps this w) as Hstrict.
  match goal with
  | |- context [try_catch ?body ?handler] =>
      destruct (body w) as [[[[]|e|c] w1] t1] eqn:E
  end.
  - rewrite (try_catch_Ok _ _ _ _ _ _ E). cbn [events snd]. intros Hf.
    destruct (Hstrict Hf) as [e He]. discriminate.
  - rewrite (try_catch_Throw _ _ _ _ _ _ E). reflexivity.
  - rewrite (try_catch_Exit _ _ _ _ _ _ E). cbn [events snd]. intros Hf.
    destruct (Hstrict Hf) as [e He]. discriminate.
Qed.

Lemma flag_build_failure_is_fatal_witness :
  outcome (FlagBuild.run
    (Sample.host (Sample.with_failing ["npx gulp vscode-linux-x64"] Sample.healthy))
    (Sample.node []) (constructor (Sample.node [])) Sample.fresh) = Exit 1.
Proof.
  apply (flag_build_failure_is_fatal
    (Sample.host (Sample.with_failing ["npx gulp vscode-linux-x64"] Sample.healthy))
    (Sample.node []) (constructor (Sample.node [])) Sample.fresh eq_refl).
  vm_compute. reflexivity.
Defined.

(** X13.  The release step tolerates a failing [git tag]: once the tag
    name has been built from the version (the template literal did not
    throw), it warns that the tag might already exist and still runs
    [git push origin main --tags], in the world the failed tag left; the
    step returns exactly when the push succeeds. *)
Theorem release_tolerates_failed_tag (h : Host) (this : Manager) (w w1 : World h)
    (pkg : JsVal) (e : JsError) :
  read_json h "package.json" w = Returned pkg ->
  pkg <> JNull -> pkg <> JUndefined ->
  text_throws (js_prop pkg "version") = false ->
  spawn h ("git tag -a " ++ ("v" ++ to_text h (js_prop pkg "version")) ++ " -m "
           ++ quoted ("Release " ++ to_text h (js_prop pkg "version")))
    (isVerbose this) w = (Failed e, w1) ->
  exec_results (events (FlagBuild.createRelease h this w)) =
    [ ("git tag -a " ++ ("v" ++ to_text h (js_prop pkg "version")) ++ " -m "
       ++ quoted ("Release " ++ to_text h (js_prop pkg "version")), false);
      ("git push origin main --tags",
       proc_ok (fst (spawn h "git push origin main --tags" (isVerbose this) w1))) ]
  /\ In (ELog warn ("Tag " ++ ("v" ++ to_text h (js_prop pkg "version"))
                    ++ " might already exist"))
       (events (FlagBuild.createRelease h this w))
  /\ is_ok (outcome (FlagBuild.createRelease h this w)) =
       proc_ok (fst (spawn h "git push origin main --tags" (isVerbose this) w1)).
Proof.
  intros Hread Hn Hu Htext Htag.
  unfold FlagBuild.createRelease, FlagBuild.execCommand, template, bind, try_catch,
    log, emit, fs_read_json, execSync, throw, ret.
  rewrite Hread. cbn [lift_try]. rewrite (js_get_defined pkg "version" w Hn Hu).
  rewrite Htext. cbv zeta. rewrite Htag. cbv beta iota.
  destruct (spawn h "git push origin main --tags" (isVerbose this) w1)
    as [[out|e'] w2]; cbn; repeat split;
    repeat (first [left; reflexivity | right]).
Qed.

Lemma release_tolerates_failed_tag_witness :
  is_ok (outcome (FlagBuild.createRelease
    (Sample.host (Sample.with_failing
       ["git tag -a v1.0.0 -m " ++ quoted "Release 1.0.0"] Sample.healthy))
    (constructor (Sample.node ["--release"])) Sample.fresh)) = true.
Proof.
  rewrite (proj2 (proj2 (release_tolerates_failed_tag
    (Sample.host (Sample.with_failing
       ["git tag -a v1.0.0 -m " ++ quoted "Release 1.0.0"] Sample.healthy))
    (constructor (Sample.node ["--release"])) Sample.fresh Sample.fresh
    Sample.goodPackage
    (mkError ("Command failed: git tag -a v1.0.0 -m " ++ quoted "Release 1.0.0"))
    eq_refl ltac:(discriminate) ltac:(discriminate) eq_refl eq_refl))).
  reflexivity.
Defined.

(** X14.  The constructor never leaves the target empty (the host platform
    being a non-empty string), so the flag-driven manager always packages
    exactly one target: [packageAll] runs the single task
    [npx gulp vscode-<platform>-<arch>], for any platform and architecture,
    supported or not, and never walks the table. *)
Theorem package_all_runs_one_task (h : Host) (process : Process) (w : World h) :
  process_platform process <> EmptyString ->
  spawned (events (FlagBuild.packageAll h (constructor process) w)) =
    [ "npx gulp vscode-" ++ targetPlatform (constructor process) ++ "-"
      ++ targetArch (constructor process) ].
Proof.
  intros Hhost.
  assert (Hp : truthy (targetPlatform (constructor process)) = true).
  { cbn [constructor targetPlatform]. unfold getPlatformArg.
    destruct (arg_after "--platform" (process_argv process)) as [p|] eqn:E.
    - exact (arg_after_truthy _ _ _ E).
    - unfold truthy.
      destruct (String.eqb_spec (process_platform process) EmptyString);
        [contradiction|reflexivity]. }
  assert (Ha : truthy (targetArch (constructor process)) = true).
  { cbn [constructor targetArch]. unfold getArchArg.
    destruct (arg_after "--arch" (process_argv process)) as [a|] eqn:E.
    - exact (arg_after_truthy _ _ _ E).
    - now destruct (process_arch process =? "arm64"). }
  unfold FlagBuild.packageAll. rewrite Hp, Ha. cbn [andb].
  unfold FlagBuild.packageForPlatform, FlagBuild.execCommand, bind, try_catch, log,
    emit, execSync.
  now destruct (spawn h _ _ w) as [[out|e] w'].
Qed.

Lemma package_all_runs_one_task_witness :
  spawned (events (FlagBuild.packageAll (Sample.host Sample.healthy)
    (constructor (Sample.node ["--platform"; "freebsd"; "--arch"; "riscv64"]))
    Sample.fresh)) = ["npx gulp vscode-freebsd-riscv64"].
Proof.
  apply (package_all_runs_one_task (Sample.host Sample.healthy)
    (Sample.node ["--platform"; "freebsd"; "--arch"; "riscv64"]) Sample.fresh).
  discriminate.
Defined.

(** X15.  Without [--release] the flag-driven script never makes a tag and
    never pushes: no command starting with [git tag] or [git push] is
    handed to [execSync], whatever the other flags and however the run
    ends. *)
Theorem no_release_without_flag (h : Host) (process : Process) (w : World h) :
  includes "--release" (process_argv process) = false ->
  forallb no_release (events (FlagBuild.main h process w)) = true.
Proof.
  intros Hrel. revert w.
  change (All no_release (FlagBuild.main h process)).
  unfold FlagBuild.main, FlagBuild.run. rewrite Hrel.
  unfold FlagBuild.validateBuild, FlagBuild.syncWithUpstream,
    FlagBuild.installDependencies, FlagBuild.buildCursorClone, FlagBuild.packageAll,
    FlagBuild.packageForPlatform, FlagBuild.iterable_archs, FlagBuild.execCommand.
  repeat first [ apply All_for_of; intros ? | progress all_events ].
Qed.

Lemma no_release_without_flag_witness :
  forallb no_release (events (FlagBuild.main (Sample.host Sample.healthy)
    (Sample.node ["--verbose"; "--skip-sync"]) Sample.fresh)) = true.
Proof.
  apply (no_release_without_flag (Sample.host Sample.healthy)
    (Sample.node ["--verbose"; "--skip-sync"]) Sample.fresh eq_refl).
Defined.

(** X16.  The flag-driven validation passes exactly when [nameShort] is the
    string ['CursorClone'] and [applicationName] the string
    ['cursorclone']; it looks at no other field, logs its two lines when it
    passes, and leaves the world alone either way. *)
Theorem flag_validation_passes_iff (h : Host) (w : World h) (product : JsVal) :
  read_json h "product.json" w = Returned product ->
  product <> JNull -> product <> JUndefined ->
  is_ok (outcome (FlagBuild.validateBuild h w)) =
    strict_eq (js_prop product "nameShort") "CursorClone"
    && strict_eq (js_prop product "applicationName") "cursorclone"
  /\ world_of (FlagBuild.validateBuild h w) = w
  /\ (is_ok (outcome (FlagBuild.validateBuild h w)) = true ->
      events (FlagBuild.validateBuild h w) =
        [ELog info "🔍 Validating build..."; ELog info "✅ Build validation passed"]).
Proof.
  intros Hread Hn Hu.
  unfold FlagBuild.validateBuild, bind, log, emit, fs_read_json, strict_eq.
  rewrite Hread. cbn [lift_try].
  rewrite (js_get_defined product "nameShort" w Hn Hu).
  destruct (strict_neq (js_prop product "nameShort") "CursorClone");
    [cbn; repeat split; discriminate|].
  rewrite (js_get_defined product "applicationName" w Hn Hu).
  destruct (strict_neq (js_prop product "applicationName") "cursorclone");
    cbn; repeat split; discriminate.
Qed.

Lemma flag_validation_passes_iff_witness :
  is_ok (outcome (FlagBuild.validateBuild
    (Sample.host (Sample.with_product
       (Returned (JObj [("nameShort", JStr "CursorClone");
                        ("applicationName", JStr "cursorclone")])) Sample.healthy))
    Sample.fresh)) = true.
Proof.
  rewrite (proj1 (flag_validation_passes_iff
    (Sample.host (Sample.with_product
       (Returned (JObj [("nameShort", JStr "CursorClone");
                        ("applicationName", JStr "cursorclone")])) Sample.healthy))
    Sample.fresh
    (JObj [("nameShort", JStr "CursorClone"); ("applicationName", JStr "cursorclone")])
    eq_refl ltac:(discriminate) ltac:(discriminate))).
  reflexivity.
Defined.

(** * The branding validator: further properties *)

Lemma strict_neq_false v lit : strict_neq v lit = false <-> v = JStr lit.
Proof.
  split.
  - destruct v; cbn; try discriminate. intros H. apply negb_false_iff in H.
    apply String.eqb_eq in H. now subst.
  - intros ->. cbn. now rewrite String.eqb_refl.
Qed.

Lemma null_or_defined (v : JsVal) :
  v = JNull \/ v = JUndefined \/ (v <> JNull /\ v <> JUndefined).
Proof. destruct v; auto; right; right; split; discriminate. Qed.

Section BrandingFacts.
Context {h : Host}.
Variable dirname : string.

Lemma blog_bind {B} msg isError (k : unit -> M h B) w :
  bind (Branding.log h msg isError) k w =
    (outcome (k tt w), world_of (k tt w),
     ELog (if isError then error else info) msg :: events (k tt w)).
Proof. apply log_bind. Qed.

Lemma ret_bind {A B} (a : A) (k : A -> M h B) w : bind (ret a) k w = k a w.
Proof. unfold bind, ret. now destruct (k a w) as [[r w2] t2]. Qed.

(** Entries that all match can all be shown. *)
Lemma reportable_of_match product entries :
  forallb (fun kv => negb (strict_neq (js_prop product (fst kv)) (snd kv)))
    entries = true ->
  reportable product entries = true.
Proof.
  unfold reportable. rewrite !forallb_forall. intros Hall kv Hin.
  now rewrite (Hall kv Hin).
Qed.

(** The loop of a validator ends by returning or throwing and never touches
    the world. *)
Lemma checkEntries_ends file product entries isValid (w : World h) :
  exists t,
    (exists b, Branding.checkEntries h file product entries isValid w = (Ok b, w, t))
    \/ (exists e, Branding.checkEntries h file product entries isValid w = (Throw e, w, t)).
Proof.
  revert isValid. induction entries as [|[k e] rest IH]; intros isValid.
  - exists []. left. now exists isValid.
  - cbn [Branding.checkEntries].
    destruct (null_or_defined product) as [->|[->|[Hn Hu]]].
    + exists []. right. eexists. reflexivity.
    + exists []. right. eexists. reflexivity.
    + rewrite (bind_Ok _ _ _ _ _ _ (js_get_defined product k w Hn Hu)).
      destruct (strict_neq (js_prop product k) e).
      * unfold template. destruct (text_throws (js_prop product k)).
        { exists []. right. eexists. reflexivity. }
        rewrite ret_bind.
        destruct (IH false) as (t & [[b Hb]|[e' He]]);
          rewrite blog_bind; [rewrite Hb|rewrite He];
          eexists; [left|right]; eexists; reflexivity.
      * destruct (IH isValid) as (t & [[b Hb]|[e' He]]);
          rewrite blog_bind; [rewrite Hb|rewrite He];
          eexists; [left|right]; eexists; reflexivity.
Qed.

(** A JSON validator, whatever its file and table, always returns a
    verdict and leaves the world alone. *)
Lemma json_validator_total path file entries notFound failed (w : World h) :
  exists b t,
    (found <- fs_existsSync h (Some path) ;;
     if negb found then Branding.log h notFound true ;; ret false
     else
       try_catch
         (value <- fs_read_json h path ;;
          Branding.checkEntries h file value entries true)
         (fun e => Branding.log h (failed ++ message e) true ;; ret false)) w
    = (Ok b, w, t)
    /\ (existsSync h path w = false \/ unusable (read_json h path w) = true ->
        entries <> [] -> b = false).
Proof.
  unfold bind at 1, fs_existsSync.
  destruct (existsSync h path w); cbn [negb].
  2:{ exists false. eexists. split; [reflexivity|auto]. }
  unfold try_catch, bind at 1, fs_read_json.
  destruct (read_json h path w) as [value|e]; cbn [lift_try].
  2:{ exists false. eexists. split; [reflexivity|auto]. }
  destruct (checkEntries_ends file value entries true w) as (t & [[b Hb]|[e He]]).
  - rewrite Hb. exists b. eexists. split; [reflexivity|].
    intros [Hf|Hbad] Hne; [discriminate|].
    destruct entries as [|[k x] rest]; [contradiction|].
    destruct value; try discriminate Hbad; cbn in Hb; discriminate Hb.
  - rewrite He. exists false. eexists. split; [reflexivity|auto].
Qed.

(** X17.  The validator of [product.json] never throws and never touches
    the world: whatever the file system holds, it returns a verdict, and
    the verdict is [false] when the file is missing, does not parse, or
    holds [null]. *)
Theorem product_validator_never_throws (w : World h) :
  exists b t,
    Branding.validateProductJson h dirname w = (Ok b, w, t)
    /\ (existsSync h (path_join h [dirname; "product.json"]) w = false
        \/ unusable (read_json h (path_join h [dirname; "product.json"]) w) = true ->
        b = false).
Proof.
  destruct (json_validator_total (path_join h [dirname; "product.json"])
              "product.json" Branding.productExpected "product.json not found"
              "Failed to parse product.json: " w) as (b & t & Hrun & Hbad).
  exists b, t. split; [exact Hrun|].
  intros Hcase. apply Hbad; [exact Hcase|discriminate].
Qed.

(** X18.  On a [product.json] that parses to a value other than [null],
    the validator's verdict is [true] exactly when [nameShort],
    [applicationName], [dataFolderName] and [serverDataFolderName] are the
    expected strings.  It logs exactly four lines, one per expected field,
    when every differing value can be put in a template literal; when one
    cannot, it stops there, and its last line, at most the fourth, says the
    file failed to parse. *)
Theorem product_validator_verdict (w : World h) (product : JsVal) :
  existsSync h (path_join h [dirname; "product.json"]) w = true ->
  read_json h (path_join h [dirname; "product.json"]) w = Returned product ->
  product <> JNull -> product <> JUndefined ->
  (outcome (Branding.validateProductJson h dirname w) = Ok true
   <-> js_prop product "nameShort" = JStr "CursorClone"
       /\ js_prop product "applicationName" = JStr "cursorclone"
       /\ js_prop product "dataFolderName" = JStr ".cursorclone"
       /\ js_prop product "serverDataFolderName" = JStr ".cursorclone-server")
  /\ (reportable product Branding.productExpected = true ->
      length (events (Branding.validateProductJson h dirname w)) = 4)
  /\ (reportable product Branding.productExpected = false ->
      length (events (Branding.validateProductJson h dirname w)) <= 4
      /\ last (events (Branding.validateProductJson h dirname w)) EUsage =
           ELog error ("Failed to parse product.json: "
                       ++ "Cannot convert object to primitive value")).
Proof.
  intros Hfound Hread Hn Hu.
  assert (Hrun : exists t,
            Branding.validateProductJson h dirname w =
              (Ok (forallb (fun kv =>
                     negb (strict_neq (js_prop product (fst kv)) (snd kv)))
                     Branding.productExpected), w, t)
            /\ (reportable product Branding.productExpected = true -> length t = 4)
            /\ (reportable product Branding.productExpected = false ->
                length t <= 4
                /\ last t EUsage =
                     ELog error ("Failed to parse product.json: "
                                 ++ "Cannot convert object to primitive value"))).
  { unfold Branding.validateProductJson. cbv zeta.
    erewrite bind_Ok by (unfold fs_existsSync; now rewrite Hfound). cbn [negb].
    destruct (reportable product Branding.productExpected) eqn:Hshow.
    - destruct (checkEntries_reports "product.json" product Branding.productExpected
                  Hn Hu Hshow true w) as (t & Ht & Hlen & _).
      exists t. split; [|split; [intros _; exact Hlen|discriminate]].
      erewrite try_catch_Ok; [reflexivity|].
      erewrite bind_Ok by (unfold fs_read_json; now rewrite Hread).
      now rewrite Ht.
    - destruct (checkEntries_throws "product.json" product Branding.productExpected
                  Hn Hu Hshow true w) as (t & Ht & Hlen).
      exists (t ++ [ELog error ("Failed to parse product.json: "
                      ++ "Cannot convert object to primitive value")])%list.
      split; [|split; [discriminate|intros _]].
      + erewrite try_catch_Throw
          by (erewrite bind_Ok by (unfold fs_read_json; now rewrite Hread);
              rewrite Ht; reflexivity).
        destruct (forallb _ Branding.productExpected) eqn:Hall; [|reflexivity].
        apply reportable_of_match in Hall. congruence.
      + split; [|apply last_last].
        rewrite length_app. change (length Branding.productExpected) with 4 in Hlen.
        cbn [length]. lia. }
  destruct Hrun as (t & Hrun & Hfour & Hless).
  rewrite Hrun. cbn [events snd outcome fst]. split; [|split; assumption].
  cbn [forallb Branding.productExpected fst snd].
  rewrite <- !strict_neq_false.
  destruct (strict_neq (js_prop product "nameShort") "CursorClone"),
           (strict_neq (js_prop product "applicationName") "cursorclone"),
           (strict_neq (js_prop product "dataFolderName") ".cursorclone"),
           (strict_neq (js_prop product "serverDataFolderName") ".cursorclone-server");
    cbn; split; intros H; try discriminate H; try reflexivity;
    try (repeat split; reflexivity);
    try (destruct H as (H1 & H2 & H3 & H4); discriminate).
Qed.

End BrandingFacts.

Lemma product_validator_verdict_witness :
  outcome (Branding.validateProductJson (Sample.host Sample.healthy) "/repo"
             Sample.fresh) = Ok true.
Proof.
  apply (proj2 (proj1 (product_validator_verdict "/repo" Sample.fresh
    Sample.goodProduct (h := Sample.host Sample.healthy)
    eq_refl eq_refl ltac:(discriminate) ltac:(discriminate)))).
  repeat split; reflexivity.
Defined.

Lemma product_validator_never_throws_witness :
  exists b t,
    Branding.validateProductJson
      (Sample.host (Sample.with_product (Returned JNull) Sample.healthy))
      "/repo" Sample.fresh = (Ok b, Sample.fresh, t)
    /\ b = false.
Proof.
  destruct (product_validator_never_throws "/repo" Sample.fresh
              (h := Sample.host (Sample.with_product (Returned JNull) Sample.healthy)))
    as (b & t & Hrun & Hbad).
  exists b, t. split; [exact Hrun|]. apply Hbad. right. reflexivity.
Defined.

(** ** The README check and the validator's exit status *)

Lemma prefix_append needle hay :
  String.prefix needle hay = true <-> exists rest, hay = needle ++ rest.
Proof.
  revert hay. induction needle as [|c needle IH]; intros hay.
  - split; [intros _; now exists hay|intros _; now destruct hay].
  - destruct hay as [|d hay]; cbn;
      [split; [discriminate|intros [rest H]; discriminate]|].
    destruct (Ascii.ascii_dec c d) as [->|Hne].
    + rewrite IH. split; intros [rest H]; exists rest; [now subst|now injection H].
    + split; [discriminate|]. intros [rest H]. injection H as H _.
      symmetry in H. contradiction.
Qed.

(** [str_includes] finds exactly the substrings. *)
Lemma str_includes_substring needle hay :
  str_includes needle hay = true <-> exists before after, hay = before ++ needle ++ after.
Proof.
  induction hay as [|d hay IH]; cbn [str_includes].
  - rewrite orb_false_r, prefix_append. split.
    + intros [rest H]. now exists EmptyString, rest.
    + intros [[|c before] [after H]]; [now exists after|discriminate].
  - rewrite orb_true_iff, prefix_append, IH. split.
    + intros [[rest H]|[before [after H]]].
      * now exists EmptyString, rest.
      * exists (String d before), after. cbn. now rewrite H.
    + intros [[|c before] [after H]].
      * left. now exists after.
      * right. injection H as _ H. now exists before, after.
Qed.

Section ReadmeFacts.
Context {h : Host}.
Variable dirname : string.
Variable readFileSync : string -> World h -> Try string.

Lemma checkContent_runs content required isValid (w : World h) :
  exists t,
    Branding.checkContent h content required isValid w =
      (Ok (isValid && forallb (fun r => str_includes r content) required), w, t).
Proof.
  revert isValid. induction required as [|r rest IH]; intros isValid.
  - exists []. cbn. now rewrite andb_true_r.
  - cbn [Branding.checkContent forallb].
    destruct (str_includes r content); cbn [negb]; rewrite blog_bind.
    + destruct (IH isValid) as [t ->]. eexists. reflexivity.
    + destruct (IH false) as [t ->]. eexists. cbn. now rewrite andb_false_r.
Qed.

Lemma validateReadme_total (w : World h) :
  exists b t, Branding.validateReadme h dirname readFileSync w = (Ok b, w, t).
Proof.
  unfold Branding.validateReadme. cbv zeta. unfold bind at 1, fs_existsSync.
  destruct (existsSync h (path_join h [dirname; "README.md"]) w); cbn [negb].
  2:{ eexists _, _. reflexivity. }
  unfold try_catch, bind at 1, read_text.
  destruct (readFileSync (path_join h [dirname; "README.md"]) w) as [content|e];
    cbn [lift_try].
  - destruct (checkContent_runs content Branding.requiredContent true w) as [t ->].
    eexists _, _. reflexivity.
  - eexists _, _. reflexivity.
Qed.

(** X19.  When [README.md] exists and can be read, the README check
    returns [true] exactly when the text contains each of ['CursorClone'],
    ['AI-powered code editor'] and ['build-cursorclone.js'] as a
    substring. *)
Theorem readme_check_is_substring_search (w : World h) (content : string) :
  existsSync h (path_join h [dirname; "README.md"]) w = true ->
  readFileSync (path_join h [dirname; "README.md"]) w = Returned content ->
  outcome (Branding.validateReadme h dirname readFileSync w) = Ok true
  <-> forall phrase, In phrase Branding.requiredContent ->
        exists before after, content = before ++ phrase ++ after.
Proof.
  intros Hfound Hread.
  destruct (checkContent_runs content Branding.requiredContent true w) as [t Ht].
  assert (Hrun : Branding.validateReadme h dirname readFileSync w =
            (Ok (forallb (fun r => str_includes r content) Branding.requiredContent),
             w, t)).
  { unfold Branding.validateReadme. cbv zeta.
    erewrite bind_Ok by (unfold fs_existsSync; now rewrite Hfound). cbn [negb].
    erewrite try_catch_Ok; [reflexivity|].
    erewrite bind_Ok by (unfold read_text; now rewrite Hread).
    now rewrite Ht. }
  rewrite Hrun. cbn [outcome fst]. split.
  - intros Hok phrase Hin. injection Hok as Hall.
    change (forallb (fun r => str_includes r content) Branding.requiredContent = true)
      in Hall.
    apply str_includes_substring.
    exact (proj1 (forallb_forall _ _) Hall phrase Hin).
  - intros Hall. f_equal. apply forallb_forall. intros phrase Hin.
    apply str_includes_substring, Hall, Hin.
Qed.

(** X20.  The validator's [main] always calls its three checks, in the
    order product, package, README, each in the untouched world and
    whatever the earlier ones returned; none can throw.  The process then
    exits with status 0 when all three returned [true] and with status 1
    otherwise. *)
Theorem branding_main_status (w : World h) :
  exists b1 b2 b3 t1 t2 t3,
    Branding.validateProductJson h dirname w = (Ok b1, w, t1)
    /\ Branding.validatePackageJson h dirname w = (Ok b2, w, t2)
    /\ Branding.validateReadme h dirname readFileSync w = (Ok b3, w, t3)
    /\ Branding.main h dirname readFileSync w =
         (Exit (if b1 && b2 && b3 then 0 else 1), w,
          (ELog info "Starting branding validation..." :: t1 ++ t2 ++ t3
           ++ [if b1 && b2 && b3
               then ELog info "All branding validations passed!"
               else ELog error "Some branding validations failed!"])%list).
Proof.
  destruct (json_validator_total (path_join h [dirname; "product.json"])
              "product.json" Branding.productExpected "product.json not found"
              "Failed to parse product.json: " w) as (b1 & t1 & H1 & _).
  destruct (json_validator_total (path_join h [dirname; "package.json"])
              "package.json" Branding.packageExpected "package.json not found"
              "Failed to parse package.json: " w) as (b2 & t2 & H2 & _).
  destruct (validateReadme_total w) as (b3 & t3 & H3).
  exists b1, b2, b3, t1, t2, t3.
  change (Branding.validateProductJson h dirname w = (Ok b1, w, t1)) in H1.
  change (Branding.validatePackageJson h dirname w = (Ok b2, w, t2)) in H2.
  repeat split; try assumption.
  unfold Branding.main. rewrite blog_bind.
  rewrite (bind_Ok _ _ _ _ _ _ H1), (bind_Ok _ _ _ _ _ _ H2), (bind_Ok _ _ _ _ _ _ H3).
  cbn [forallb]. rewrite andb_true_r.
  destruct b1, b2, b3; cbn; rewrite <- ?app_assoc; reflexivity.
Qed.

End ReadmeFacts.

Lemma readme_check_is_substring_search_witness :
  outcome (Branding.validateReadme (Sample.host Sample.healthy) "/repo"
    (sample_files [("/repo/README.md",
       "CursorClone is a modern, AI-powered code editor; run ./build-cursorclone.js")])
    Sample.fresh) = Ok true.
Proof.
  apply (proj2 (readme_check_is_substring_search "/repo"
    (sample_files [("/repo/README.md",
       "CursorClone is a modern, AI-powered code editor; run ./build-cursorclone.js")])
    Sample.fresh
    "CursorClone is a modern, AI-powered code editor; run ./build-cursorclone.js"
    (h := Sample.host Sample.healthy) eq_refl eq_refl)).
  intros phrase [<-|[<-|[<-|[]]]]; apply str_includes_substring; reflexivity.
Defined.

(** * The environment check: properties *)

Section EnvCheckFacts.
Context {h : Host}.
Variable process : Process.
Variable version : string.
Variable readFileSync : string -> World h -> Try string.

Lemma outcome_bind_Ok {A B} (m : M h A) (k : A -> M h B) w a w1 t1 :
  m w = (Ok a, w1, t1) -> outcome (bind m k w) = outcome (k a w1).
Proof. intros E. now rewrite (bind_Ok _ _ _ _ _ _ E). Qed.

(** A probe never throws: it returns the child's verdict. *)
Lemma runCommand_run cmd desc (w : World h) :
  EnvCheck.runCommand h cmd desc w =
    (Ok (proc_ok (fst (spawn h cmd false w))), snd (spawn h cmd false w),
     [ ELog info ("Testing: " ++ desc);
       EExec cmd false (proc_ok (fst (spawn h cmd false w)));
       match fst (spawn h cmd false w) with
       | Exited0 _ => ELog info ("Success: " ++ desc)
       | Failed e => ELog error ("Failed: " ++ desc ++ " - " ++ message e)
       end ]).
Proof.
  unfold EnvCheck.runCommand, try_catch, bind, log, emit, execSync.
  now destruct (spawn h cmd false w) as [[out|e] w'].
Qed.

Lemma checkFile_run path desc (w : World h) :
  EnvCheck.checkFile h path desc w =
    (Ok (existsSync h path w), w,
     [ if existsSync h path w then ELog info (desc ++ " exists: " ++ path)
       else ELog error (desc ++ " missing: " ++ path) ]).
Proof.
  unfold EnvCheck.checkFile, bind, fs_existsSync, log, emit.
  now destruct (existsSync h path w).
Qed.

Lemma runCommand_returns cmd desc (w : World h) :
  EnvCheck.runCommand h cmd desc w =
    (Ok (proc_ok (fst (spawn h cmd false w))), snd (spawn h cmd false w),
     events (EnvCheck.runCommand h cmd desc w))
  /\ spawned (events (EnvCheck.runCommand h cmd desc w)) = [cmd].
Proof.
  rewrite runCommand_run. split; [reflexivity|]. cbn.
  now destruct (fst (spawn h cmd false w)).
Qed.

Lemma checkFile_returns path desc (w : World h) :
  EnvCheck.checkFile h path desc w =
    (Ok (existsSync h path w), w, events (EnvCheck.checkFile h path desc w))
  /\ spawned (events (EnvCheck.checkFile h path desc w)) = [].
Proof.
  rewrite checkFile_run. split; [reflexivity|]. cbn.
  now destruct (existsSync h path w).
Qed.

Lemma events_mk {A} (o : Outcome A) (w : World h) t : events (o, w, t) = t.
Proof. reflexivity. Qed.

Lemma runCommand_spawned cmd desc (w : World h) :
  spawned (events (EnvCheck.runCommand h cmd desc w)) = [cmd].
Proof. apply runCommand_returns. Qed.

Lemma checkFile_spawned path desc (w : World h) :
  spawned (events (EnvCheck.checkFile h path desc w)) = [].
Proof. apply checkFile_returns. Qed.

Lemma checkFiles_run files allChecks (w : World h) :
  exists t,
    EnvCheck.checkFiles h process files allChecks w =
      (Ok (allChecks && forallb (fun fd =>
             existsSync h (path_join h [script_dirname process; fst fd]) w) files),
       w, t)
    /\ spawned t = [].
Proof.
  revert allChecks. induction files as [|[file desc] rest IH]; intros allChecks.
  - exists []. cbn. now rewrite andb_true_r.
  - cbn [EnvCheck.checkFiles forallb fst].
    rewrite (bind_Ok _ _ _ _ _ _ (proj1 (checkFile_returns _ desc w))).
    destruct (existsSync h (path_join h [script_dirname process; file]) w);
      cbn [negb].
    + destruct (IH allChecks) as (t & -> & Ht). eexists. split; [reflexivity|].
      rewrite spawned_app, checkFile_spawned. exact Ht.
    + destruct (IH false) as (t & -> & Ht). eexists. split.
      * cbn [andb]. rewrite andb_false_r. reflexivity.
      * rewrite spawned_app, checkFile_spawned. exact Ht.
Qed.

Lemma checkBuildTools_run (w : World h) :
  exists w' t,
    EnvCheck.checkBuildTools h process w = (Ok tt, w', t)
    /\ spawned t = buildTools (process_platform process).
Proof.
  unfold EnvCheck.checkBuildTools, buildTools.
  destruct (process_platform process =? "darwin");
    [|destruct (process_platform process =? "linux");
      [|destruct (process_platform process =? "win32")]];
    repeat (erewrite bind_Ok by apply runCommand_returns);
    eexists _, _; (split; [reflexivity|]);
    repeat (rewrite ?events_mk, ?spawned_app, ?runCommand_spawned);
    reflexivity.
Qed.

(** The whole of [main] after the version check. *)
Lemma main_after_version versionOk tv (w : World h) :
  EnvCheck.checkNodeVersion h process version readFileSync w = (Ok versionOk, w, tv) ->
  spawned tv = [] ->
  spawned (events (EnvCheck.main h process version readFileSync w)) =
    ([ "git --version"; "git remote -v"; "npm --version"; "python3 --version" ]
     ++ buildTools (process_platform process))%list
  /\ outcome (EnvCheck.main h process version readFileSync w) =
       if versionOk
          && forallb (fun fd =>
               existsSync h (path_join h [script_dirname process; fst fd]) w)
               EnvCheck.requiredFiles
          && proc_ok (fst (spawn h "git --version" false w))
          && proc_ok (fst (spawn h "git remote -v" false
                             (snd (spawn h "git --version" false w))))
          && proc_ok (fst (spawn h "npm --version" false
                             (snd (spawn h "git remote -v" false
                                     (snd (spawn h "git --version" false w))))))
          && existsSync h (path_join h [script_dirname process; "node_modules"])
               (snd (spawn h "npm --version" false
                       (snd (spawn h "git remote -v" false
                               (snd (spawn h "git --version" false w))))))
       then Ok tt else Exit 1.
Proof.
  intros Hv Hquiet.
  destruct (checkFiles_run EnvCheck.requiredFiles
              (if negb versionOk then false else true) w) as (tf & Hfiles & Hfq).
  set (w1 := snd (spawn h "git --version" false w)).
  set (w2 := snd (spawn h "git remote -v" false w1)).
  set (w3 := snd (spawn h "npm --version" false w2)).
  set (w4 := snd (spawn h "python3 --version" false w3)).
  destruct (checkBuildTools_run w4) as (w5 & tt5 & Htools & Hts).
  unfold EnvCheck.main. cbv zeta. rewrite log_bind.
  cbn [events outcome fst snd].
  erewrite events_bind_Ok, outcome_bind_Ok by exact Hv.
  erewrite events_bind_Ok, outcome_bind_Ok by exact Hfiles.
  erewrite events_bind_Ok, outcome_bind_Ok by apply runCommand_returns.
  erewrite events_bind_Ok, outcome_bind_Ok by apply runCommand_returns.
  erewrite events_bind_Ok, outcome_bind_Ok by apply runCommand_returns.
  erewrite events_bind_Ok, outcome_bind_Ok by apply checkFile_returns.
  fold w1 w2 w3.
  set (g1 := proc_ok (fst (spawn h "git --version" false w))).
  set (g2 := proc_ok (fst (spawn h "git remote -v" false w1))).
  set (g3 := proc_ok (fst (spawn h "npm --version" false w2))).
  set (files := forallb _ EnvCheck.requiredFiles).
  destruct (existsSync h (path_join h [script_dirname process; "node_modules"]) w3)
    eqn:Hmodules; cbn [negb];
    (erewrite events_bind_Ok, outcome_bind_Ok by reflexivity);
    (erewrite events_bind_Ok, outcome_bind_Ok by apply runCommand_returns);
    fold w4;
    (erewrite events_bind_Ok, outcome_bind_Ok by exact Htools);
    (split;
     [ change (spawned (ELog info ?m :: ?t)) with (spawned t);
       rewrite !spawned_app, Hquiet, Hfq, Hts, !runCommand_spawned, checkFile_spawned
     | ]).
  all: clearbody g1 g2 g3 files;
    destruct versionOk, files, g1, g2, g3; cbn; rewrite ?app_nil_r; reflexivity.
Qed.

End EnvCheckFacts.

Section EnvCheckStatus.
Context {h : Host}.
Variable process : Process.
Variable version : string.
Variable readFileSync : string -> World h -> Try string.

(** The version check spawns nothing and leaves the world alone. *)
Lemma checkNodeVersion_quiet (w : World h) :
  world_of (EnvCheck.checkNodeVersion h process version readFileSync w) = w
  /\ spawned (events (EnvCheck.checkNodeVersion h process version readFileSync w)) = [].
Proof.
  unfold EnvCheck.checkNodeVersion, bind, log, emit, fs_existsSync, read_text, ret.
  cbv zeta.
  destruct (existsSync h (path_join h [script_dirname process; ".nvmrc"]) w);
    [|split; reflexivity].
  destruct (readFileSync (path_join h [script_dirname process; ".nvmrc"]) w)
    as [text|e]; [|split; reflexivity].
  cbn [lift_try].
  destruct (negb (String.prefix ("v" ++ str_trim h text) version));
    split; reflexivity.
Qed.

Lemma checkNodeVersion_returns versionOk (w : World h) :
  outcome (EnvCheck.checkNodeVersion h process version readFileSync w) = Ok versionOk ->
  exists tv,
    EnvCheck.checkNodeVersion h process version readFileSync w = (Ok versionOk, w, tv)
    /\ spawned tv = [].
Proof.
  intros Hv. destruct (checkNodeVersion_quiet w) as [Hw Hq].
  destruct (EnvCheck.checkNodeVersion h process version readFileSync w)
    as [[o w'] tv].
  cbn in Hv, Hw, Hq. subst. now exists tv.
Qed.

(** X21.  Once the version check has returned, the environment check runs
    every probe, whatever the earlier ones found: git twice, npm, python3
    and the platform's build tools, in this order and nothing else. *)
Theorem environment_check_runs_every_probe versionOk (w : World h) :
  outcome (EnvCheck.checkNodeVersion h process version readFileSync w) = Ok versionOk ->
  spawned (events (EnvCheck.main h process version readFileSync w)) =
    ([ "git --version"; "git remote -v"; "npm --version"; "python3 --version" ]
     ++ buildTools (process_platform process))%list.
Proof.
  intros Hv. destruct (checkNodeVersion_returns versionOk w Hv) as (tv & Hrun & Hq).
  exact (proj1 (main_after_version process version readFileSync versionOk tv w Hrun Hq)).
Qed.

(** X22.  The environment check ends normally exactly when the version
    check, the four required files, [git --version], [git remote -v],
    [npm --version] and the [node_modules] directory all pass, and calls
    [process.exit(1)] otherwise; the python3 and build-tool probes have no
    part in the status. *)
Theorem environment_check_status versionOk (w : World h) :
  outcome (EnvCheck.checkNodeVersion h process version readFileSync w) = Ok versionOk ->
  outcome (EnvCheck.main h process version readFileSync w) =
    if versionOk
       && forallb (fun fd =>
            existsSync h (path_join h [script_dirname process; fst fd]) w)
            EnvCheck.requiredFiles
       && proc_ok (fst (spawn h "git --version" false w))
       && proc_ok (fst (spawn h "git remote -v" false
                          (snd (spawn h "git --version" false w))))
       && proc_ok (fst (spawn h "npm --version" false
                          (snd (spawn h "git remote -v" false
                                  (snd (spawn h "git --version" false w))))))
       && existsSync h (path_join h [script_dirname process; "node_modules"])
            (snd (spawn h "npm --version" false
                    (snd (spawn h "git remote -v" false
                            (snd (spawn h "git --version" false w))))))
    then Ok tt else Exit 1.
Proof.
  intros Hv. destruct (checkNodeVersion_returns versionOk w Hv) as (tv & Hrun & Hq).
  exact (proj2 (main_after_version process version readFileSync versionOk tv w Hrun Hq)).
Qed.

(** X23.  An [.nvmrc] that exists but cannot be read is not handled: the
    error of [readFileSync] leaves [main] uncaught after its first two
    lines, before any file is checked or any probe is spawned, and no
    summary line is written. *)
Theorem unreadable_nvmrc_is_uncaught e (w : World h) :
  existsSync h (path_join h [script_dirname process; ".nvmrc"]) w = true ->
  readFileSync (path_join h [script_dirname process; ".nvmrc"]) w = Raised e ->
  EnvCheck.main h process version readFileSync w =
    (Throw e, w,
     [ ELog info "Starting CursorClone build environment validation...";
       ELog info ("Node.js version: " ++ version) ]).
Proof.
  intros Hfound Hread.
  unfold EnvCheck.main, EnvCheck.checkNodeVersion, bind, log, emit,
    fs_existsSync, read_text.
  cbv zeta. rewrite Hfound, Hread. reflexivity.
Qed.

End EnvCheckStatus.

Lemma environment_check_runs_every_probe_witness :
  spawned (events (EnvCheck.main
    (Sample.host (Sample.with_failing ["git remote -v"] Sample.healthy))
    (Sample.node []) "v18.17.0"
    (sample_files [("/repo/.nvmrc", "18.17.0")]) Sample.fresh)) =
  [ "git --version"; "git remote -v"; "npm --version"; "python3 --version";
    "gcc --version"; "make --version" ].
Proof.
  exact (environment_check_runs_every_probe (Sample.node []) "v18.17.0"
    (sample_files [("/repo/.nvmrc", "18.17.0")]) true Sample.fresh
    (h := Sample.host (Sample.with_failing ["git remote -v"] Sample.healthy))
    eq_refl).
Defined.

Lemma environment_check_status_witness :
  outcome (EnvCheck.main
    (Sample.host (Sample.with_failing ["python3 --version"; "gcc --version"]
                    Sample.healthy))
    (Sample.node []) "v18.17.0"
    (sample_files [("/repo/.nvmrc", "18.17.0")]) Sample.fresh) = Ok tt.
Proof.
  exact (environment_check_status (Sample.node []) "v18.17.0"
    (sample_files [("/repo/.nvmrc", "18.17.0")]) true Sample.fresh
    (h := Sample.host (Sample.with_failing ["python3 --version"; "gcc --version"]
                         Sample.healthy))
    eq_refl).
Defined.

Lemma unreadable_nvmrc_is_uncaught_witness :
  outcome (EnvCheck.main (Sample.host Sample.healthy) (Sample.node []) "v18.17.0"
             (sample_files []) Sample.fresh) =
  Throw (Sample.ENOENT "/repo/.nvmrc").
Proof.
  now rewrite (unreadable_nvmrc_is_uncaught (Sample.node []) "v18.17.0"
    (sample_files []) (Sample.ENOENT "/repo/.nvmrc") Sample.fresh
    (h := Sample.host Sample.healthy) eq_refl eq_refl).
Defined.

(** * The quick test: properties *)

Section QuickTestFacts.
Context {h : Host}.

Lemma quick_checkFile_run path desc (w : World h) :
  QuickTest.checkFile h path desc w =
    (Ok (existsSync h path w), w,
     [ if existsSync h path w then ELog info (desc ++ " exists: " ++ path)
       else ELog error (desc ++ " missing: " ++ path) ]).
Proof.
  unfold QuickTest.checkFile, bind, fs_existsSync, log, emit.
  now destruct (existsSync h path w).
Qed.

Lemma tallied_refl c : tallied 0 0 c c.
Proof. unfold tallied. lia. Qed.

Lemma tallied_trans p q n m c1 c2 c3 :
  tallied p n c1 c2 -> tallied q m c2 c3 -> tallied (p + q) (n + m) c1 c3.
Proof. unfold tallied. lia. Qed.

Lemma tallied_counted c : tallied 0 1 c (QuickTest.counted c).
Proof. unfold tallied. cbn. lia. Qed.

Lemma tallied_scored c : tallied 1 1 c (QuickTest.scored (QuickTest.counted c)).
Proof. unfold tallied. cbn. lia. Qed.

(** The loop over the core files never throws, counts each file, and
    scores those that exist. *)
Lemma checkCoreFiles_run files c (w : World h) :
  exists c' t,
    QuickTest.checkCoreFiles h files c w = (Ok c', w, t)
    /\ tallied (length (filter (fun fd => existsSync h (fst fd) w) files))
         (length files) c c'.
Proof.
  revert c. induction files as [|[file desc] rest IH]; intros c.
  - exists c, []. split; [reflexivity|apply tallied_refl].
  - cbn [QuickTest.checkCoreFiles length filter fst]. cbv zeta.
    erewrite bind_Ok by apply quick_checkFile_run.
    destruct (existsSync h file w).
    + destruct (IH (QuickTest.scored (QuickTest.counted c))) as (c' & t & -> & Hadv).
      eexists _, _. split; [reflexivity|].
      apply (tallied_trans 1 _ 1 _ _ _ _ (tallied_scored c) Hadv).
    + destruct (IH (QuickTest.counted c)) as (c' & t & -> & Hadv).
      eexists _, _. split; [reflexivity|].
      apply (tallied_trans 0 _ 1 _ _ _ _ (tallied_counted c) Hadv).
Qed.

(** A content check catches whatever reading or inspecting the file throws:
    it returns, leaves the world alone, counts one check, and scores it
    exactly when the file is branded. *)
Lemma checkProduct_run c (w : World h) :
  exists c' t,
    QuickTest.checkProduct h c w = (Ok c', w, t)
    /\ tallied (Nat.b2n (productBranded (read_json h "product.json" w))) 1 c c'.
Proof.
  unfold QuickTest.checkProduct, try_catch, bind, fs_read_json, log, emit, ret.
  cbv zeta.
  destruct (read_json h "product.json" w) as [product|e]; cbn [lift_try];
    [|eexists _, _; split; [reflexivity|apply tallied_counted]].
  destruct product; cbn -[strict_eq js_prop];
    try (eexists _, _; split; [reflexivity|apply tallied_counted]);
    (destruct (strict_eq _ "CursorClone"); cbn -[strict_eq js_prop];
     [|eexists _, _; split; [reflexivity|apply tallied_counted]]);
    (destruct (strict_eq _ "cursorclone"); cbn -[strict_eq js_prop];
     eexists _, _; (split; [reflexivity|]);
     first [apply tallied_counted|apply tallied_scored]).
Qed.

Lemma checkPackage_run c (w : World h) :
  exists c' t,
    QuickTest.checkPackage h c w = (Ok c', w, t)
    /\ tallied (Nat.b2n (packageBranded (read_json h "package.json" w))) 1 c c'.
Proof.
  unfold QuickTest.checkPackage, try_catch, bind, fs_read_json, log, emit, ret.
  cbv zeta.
  destruct (read_json h "package.json" w) as [pkg|e]; cbn [lift_try];
    [|eexists _, _; split; [reflexivity|apply tallied_counted]].
  destruct pkg; cbn -[strict_eq js_prop];
    try (eexists _, _; split; [reflexivity|apply tallied_counted]);
    (destruct (strict_eq _ "cursorclone"); cbn -[strict_eq js_prop];
     [|eexists _, _; split; [reflexivity|apply tallied_counted]]);
    (destruct (js_prop _ "author") eqn:Eauthor; cbn -[strict_eq js_prop];
     try (eexists _, _; split; [reflexivity|apply tallied_counted]));
    (destruct (strict_eq _ "CursorClone Team"); cbn -[strict_eq js_prop];
     eexists _, _; (split; [reflexivity|]);
     first [apply tallied_counted|apply tallied_scored]).
Qed.

Lemma checkCommand_run cmd desc c (w : World h) :
  exists c' t,
    QuickTest.checkCommand h cmd desc c w = (Ok c', snd (spawn h cmd false w), t)
    /\ tallied (Nat.b2n (proc_ok (fst (spawn h cmd false w)))) 1 c c'.
Proof.
  unfold QuickTest.checkCommand, QuickTest.runCommand, try_catch, bind, log,
    emit, execSync, ret.
  cbv zeta.
  destruct (spawn h cmd false w) as [[out|e] w']; cbn;
    eexists _, _; (split; [reflexivity|]);
    first [apply tallied_counted|apply tallied_scored].
Qed.

(** The five stages of [tests], each returning a tally, and what [tests]
    makes of the last one. *)
Lemma tests_run (w : World h) :
  exists c1 c2 c3 c4 c5 w5 t1 t2 t3 t4 t5,
    QuickTest.checkCoreFiles h QuickTest.coreFiles
      {| QuickTest.passed := 0; QuickTest.total := 0 |} w = (Ok c1, w, t1)
    /\ QuickTest.checkProduct h c1 w = (Ok c2, w, t2)
    /\ QuickTest.checkPackage h c2 w = (Ok c3, w, t3)
    /\ QuickTest.checkCommand h "git remote -v" "Git remote configuration" c3 w
         = (Ok c4, snd (spawn h "git remote -v" false w), t4)
    /\ QuickTest.checkCommand h "node --version" "Node.js version" c4
         (snd (spawn h "git remote -v" false w)) = (Ok c5, w5, t5)
    /\ tallied (length (filter (fun fd => existsSync h (fst fd) w)
                          QuickTest.coreFiles)) 5
         {| QuickTest.passed := 0; QuickTest.total := 0 |} c1
    /\ tallied (Nat.b2n (productBranded (read_json h "product.json" w))) 1 c1 c2
    /\ tallied (Nat.b2n (packageBranded (read_json h "package.json" w))) 1 c2 c3
    /\ tallied (Nat.b2n (proc_ok (fst (spawn h "git remote -v" false w)))) 1 c3 c4
    /\ tallied (Nat.b2n (proc_ok (fst (spawn h "node --version" false
                                         (snd (spawn h "git remote -v" false w))))))
         1 c4 c5
    /\ outcome (QuickTest.tests h w) =
         Ok (if (QuickTest.passed c5 =? QuickTest.total c5)%nat then 0 else 1)
    /\ In (ELog info ("📊 Test Results: " ++ nat_text (QuickTest.passed c5) ++ "/"
                      ++ nat_text (QuickTest.total c5) ++ " passed"))
          (events (QuickTest.tests h w))
    /\ forall e, In e t3 -> In e (events (QuickTest.tests h w)).
Proof.
  destruct (checkCoreFiles_run QuickTest.coreFiles
              {| QuickTest.passed := 0; QuickTest.total := 0 |} w)
    as (c1 & t1 & H1 & A1).
  destruct (checkProduct_run c1 w) as (c2 & t2 & H2 & A2).
  destruct (checkPackage_run c2 w) as (c3 & t3 & H3 & A3).
  destruct (checkCommand_run "git remote -v" "Git remote configuration" c3 w)
    as (c4 & t4 & H4 & A4).
  destruct (checkCommand_run "node --version" "Node.js version" c4
              (snd (spawn h "git remote -v" false w))) as (c5 & t5 & H5 & A5).
  exists c1, c2, c3, c4, c5. eexists. exists t1, t2, t3, t4, t5.
  repeat (split; [eassumption|]).
  unfold QuickTest.tests. rewrite log_bind. cbn [outcome events fst snd].
  erewrite events_bind_Ok, outcome_bind_Ok by exact H1.
  erewrite events_bind_Ok, outcome_bind_Ok by exact H2.
  erewrite events_bind_Ok, outcome_bind_Ok by exact H3.
  erewrite events_bind_Ok, outcome_bind_Ok by exact H4.
  erewrite events_bind_Ok, outcome_bind_Ok by exact H5.
  rewrite !log_bind. cbn [outcome events fst snd].
  split; [|split].
  - now destruct (QuickTest.passed c5 =? QuickTest.total c5)%nat.
  - right. rewrite !in_app_iff. do 5 right. right. left. reflexivity.
  - intros e He. right. rewrite !in_app_iff. right. right. left. exact He.
Qed.

(** X24.  The quick test never throws: whatever the files hold and the
    commands do, it runs nine checks, reports how many of them passed (the
    core files that exist, [product.json] and [package.json] branded,
    [git remote -v] and [node --version] succeeding), and calls
    [process.exit] with 0 when all nine passed and with 1 otherwise. *)
Theorem quick_test_counts_nine_checks (w : World h) :
  quickPassed w <= 9
  /\ In (ELog info ("📊 Test Results: " ++ nat_text (quickPassed w) ++ "/9 passed"))
        (events (QuickTest.main h w))
  /\ outcome (QuickTest.main h w) = Exit (if (quickPassed w =? 9)%nat then 0 else 1).
Proof.
  destruct (tests_run w)
    as (c1 & c2 & c3 & c4 & c5 & w5 & t1 & t2 & t3 & t4 & t5
        & _ & _ & _ & _ & _ & A1 & A2 & A3 & A4 & A5 & Hout & Hline & _).
  assert (Htotal : QuickTest.total c5 = 9)
    by (unfold tallied in *; cbn in A1; lia).
  assert (Hpassed : QuickTest.passed c5 = quickPassed w)
    by (unfold tallied, quickPassed in *; cbn [QuickTest.passed] in A1; lia).
  rewrite Htotal, Hpassed in Hout, Hline.
  split.
  { unfold quickPassed.
    pose proof (filter_length_le (fun fd => existsSync h (fst fd) w)
                  QuickTest.coreFiles) as Hfiles.
    change (length QuickTest.coreFiles) with 5 in Hfiles.
    repeat match goal with
           | |- context [Nat.b2n ?b] =>
               lazymatch b with true => fail | false => fail | _ => destruct b end
           end;
      cbn [Nat.b2n]; lia. }
  unfold QuickTest.main.
  destruct (QuickTest.tests h w) as [[o w'] t] eqn:Htests.
  cbn [outcome events fst snd] in Hout, Hline. subst o.
  erewrite bind_Ok by exact Htests. cbn [outcome events fst snd].
  split; [|reflexivity].
  rewrite app_nil_r. exact Hline.
Qed.

End QuickTestFacts.

(** ** The two checks of [package.json] against each other *)

Section ValidatorsDisagree.
Context {h : Host}.

(** With a string for [author], [pkg.author.name] is [undefined]: the
    quick test's package check does not pass. *)
Lemma checkPackage_string_author c pkg s (w : World h) :
  read_json h "package.json" w = Returned pkg ->
  js_prop pkg "author" = JStr s ->
  exists t,
    QuickTest.checkPackage h c w = (Ok (QuickTest.counted c), w, t)
    /\ In (ELog error "Package configuration not properly branded") t.
Proof.
  intros Hread Hauthor.
  unfold QuickTest.checkPackage, try_catch, bind, fs_read_json, log, emit, ret.
  cbv zeta. rewrite Hread. cbn [lift_try].
  destruct pkg; try discriminate Hauthor.
  cbn -[strict_eq js_prop].
  destruct (strict_eq _ "cursorclone"); cbn -[strict_eq js_prop].
  - rewrite Hauthor. cbn. eexists. split; [reflexivity|now left].
  - eexists. split; [reflexivity|now left].
Qed.

(** What the branding validator's verdict says about [author]. *)
Lemma validatePackageJson_author dirname pkg (w : World h) :
  outcome (Branding.validatePackageJson h dirname w) = Ok true ->
  read_json h (path_join h [dirname; "package.json"]) w = Returned pkg ->
  js_prop pkg "author" = JStr "CursorClone Team".
Proof.
  intros Hvalid Hread. revert Hvalid.
  unfold Branding.validatePackageJson. cbv zeta.
  unfold bind at 1, fs_existsSync.
  destruct (existsSync h (path_join h [dirname; "package.json"]) w); cbn [negb];
    [|cbn; discriminate].
  unfold try_catch, bind at 1, fs_read_json. rewrite Hread. cbn [lift_try].
  destruct (null_or_defined pkg) as [->|[->|[Hn Hu]]];
    [cbn; discriminate|cbn; discriminate|].
  destruct (reportable pkg Branding.packageExpected) eqn:Hshow.
  2:{ destruct (checkEntries_throws "package.json" pkg Branding.packageExpected
                  Hn Hu Hshow true w) as (t & -> & _).
      cbn. discriminate. }
  destruct (checkEntries_reports "package.json" pkg Branding.packageExpected
              Hn Hu Hshow true w) as (t & -> & _).
  cbn [outcome fst forallb Branding.packageExpected fst snd andb].
  intros Hvalid. apply strict_neq_false.
  destruct (strict_neq (js_prop pkg "name") "cursorclone"),
           (strict_neq (js_prop pkg "author") "CursorClone Team");
    cbn in Hvalid; congruence.
Qed.

(** X25.  The two scripts cannot both be satisfied by one [package.json]:
    when the branding validator accepts the file (its [author] is the
    string ['CursorClone Team']), the quick test, reading the same value,
    finds [pkg.author.name] undefined, reports the package as not properly
    branded and exits with status 1, whatever else holds. *)
Theorem validators_disagree_on_author dirname pkg (w0 w : World h) :
  outcome (Branding.validatePackageJson h dirname w0) = Ok true ->
  read_json h (path_join h [dirname; "package.json"]) w0 = Returned pkg ->
  read_json h "package.json" w = Returned pkg ->
  In (ELog error "Package configuration not properly branded")
     (events (QuickTest.main h w))
  /\ outcome (QuickTest.main h w) = Exit 1.
Proof.
  intros Hvalid Hread0 Hread.
  pose proof (validatePackageJson_author dirname pkg w0 Hvalid Hread0) as Hauthor.
  destruct (tests_run w)
    as (c1 & c2 & c3 & c4 & c5 & w5 & t1 & t2 & t3 & t4 & t5
        & _ & _ & H3 & _ & _ & A1 & A2 & _ & A4 & A5 & Hout & _ & Hin).
  destruct (checkPackage_string_author c2 pkg _ w Hread Hauthor) as (t & Hrun & Hline).
  rewrite Hrun in H3. injection H3 as <- <-.
  assert (Hfails : (QuickTest.passed c5 =? QuickTest.total c5)%nat = false).
  { apply Nat.eqb_neq.
    pose proof (filter_length_le (fun fd => existsSync h (fst fd) w)
                  QuickTest.coreFiles) as Hfiles.
    change (length QuickTest.coreFiles) with 5 in Hfiles.
    unfold tallied in *. cbn [QuickTest.passed QuickTest.total QuickTest.counted] in *.
    repeat match goal with
           | H : context [Nat.b2n ?b] |- _ =>
               lazymatch b with true => fail | false => fail | _ => destruct b end
           end;
      cbn [Nat.b2n] in *; lia. }
  rewrite Hfails in Hout.
  unfold QuickTest.main.
  destruct (QuickTest.tests h w) as [[o w'] tr] eqn:Htests.
  cbn [outcome events fst snd] in Hout, Hin. subst o.
  erewrite bind_Ok by exact Htests. cbn [outcome events fst snd].
  split; [|reflexivity].
  rewrite app_nil_r. apply Hin, Hline.
Qed.

End ValidatorsDisagree.

Lemma validators_disagree_on_author_witness :
  outcome (Branding.validatePackageJson (Sample.host branded) "/repo" Sample.fresh)
    = Ok true
  /\ outcome (QuickTest.main (Sample.host branded) Sample.fresh) = Exit 1.
Proof.
  split; [reflexivity|].
  exact (proj2 (validators_disagree_on_author "/repo" brandedPackage
    Sample.fresh Sample.fresh (h := Sample.host branded)
    eq_refl eq_refl eq_refl)).
Defined.
